(** * NatNet client: the protocol engine of [natnet_client]

    A shallow embedding of [natnet_client/Client.py] and of the collection
    records of [NatNetTypes.py], with the properties of the dispatcher, the
    request encoder, the connection life cycle and the id-keyed maps.

    Conventions.
    - Python [bytes] are [list byte]; Python [int] is [Z]; Python [str] is a
      list of Unicode code points.
    - A method of the client is a computation over the pair of the client
      object and the operating-system world (sockets, threads, log).  A
      computation ends in a value or in a raised exception; in both cases it
      carries the state reached, because the assignments made before a
      [raise] stay in place.
    - The codec module [natnet_client.Unpackers] is an interface of the
      development: the client calls it, nothing here looks inside it.
    - A private method or attribute [__name] of the class appears as [name].
      Methods run one at a time: the two receive threads are modelled by the
      loops they run, fed with the receptions of their socket. *)

From Stdlib Require Import ZArith NArith List Strings.Byte Ascii String Lia Bool.
From stdpp Require Import base option list strings gmap.

#[local] Open Scope Z_scope.

(** ** Wire primitives *)

Abbreviation bytes := (list byte).

Definition byte_val (b : byte) : Z := Z.of_N (Byte.to_N b).

Definition byte_of_N (n : N) : byte :=
  match Byte.of_N n with Some b => b | None => x00 end.

Definition byte_of_Z (z : Z) : byte := byte_of_N (Z.to_N (z mod 256)).

(** Index normalisation of a Python slice bound: a negative bound counts
    from the end, and every bound is clipped to [0, len]. *)
Definition clamp (len i : Z) : Z :=
  if i <? 0 then Z.max 0 (i + len) else Z.min i len.

(** [data[lo:hi]] *)
Definition slice {A} (data : list A) (lo hi : Z) : list A :=
  let len := Z.of_nat (length data) in
  let l := clamp len lo in
  let h := clamp len hi in
  take (Z.to_nat (h - l)) (drop (Z.to_nat l) data).

(** [data[lo:]] *)
Definition slice_from {A} (data : list A) (lo : Z) : list A :=
  drop (Z.to_nat (clamp (Z.of_nat (length data)) lo)) data.

(** [data[:hi]] *)
Definition slice_to {A} (data : list A) (hi : Z) : list A :=
  take (Z.to_nat (clamp (Z.of_nat (length data)) hi)) data.

(** [int.from_bytes(data, byteorder='little', signed=False)] *)
Fixpoint from_bytes_unsigned (data : bytes) : Z :=
  match data with
  | [] => 0
  | b :: rest => byte_val b + 256 * from_bytes_unsigned rest
  end.

(** [int.from_bytes(data, byteorder='little', signed=True)]: two's
    complement over the whole width of [data], whatever that width is. *)
Definition from_bytes_signed (data : bytes) : Z :=
  let u := from_bytes_unsigned data in
  let width := 8 * Z.of_nat (length data) in
  if (0 <? width) && Z.testbit u (width - 1) then u - 2 ^ width else u.

(** [v.to_bytes(2, byteorder='little', signed=True)]; [None] is Python's
    [OverflowError]. *)
Definition to_bytes2_signed (v : Z) : option bytes :=
  if (-32768 <=? v) && (v <=? 32767)
  then Some [byte_of_Z v; byte_of_Z (v / 256)]
  else None.

(** First component of [data.partition(b'\0')]: the bytes before the first
    null byte, or all of [data] when it has none. *)
Fixpoint before_null (data : bytes) : bytes :=
  match data with
  | [] => []
  | b :: rest => if Byte.eqb b x00 then [] else b :: before_null rest
  end.

(** [struct.unpack('BBBB', data)]; [None] is [struct.error], raised unless
    the buffer holds exactly four bytes. *)
Definition struct_unpack_BBBB (data : bytes) : option (Z * Z * Z * Z) :=
  match data with
  | [a; b; c; d] => Some (byte_val a, byte_val b, byte_val c, byte_val d)
  | _ => None
  end.

(** ** Python strings and UTF-8 *)

(** A [str] is its sequence of code points. *)
Definition str := list N.

Definition str_of_string (s : string) : str :=
  map N_of_ascii (list_ascii_of_string s).

(** [chr(n)] for a code point in range. *)
Definition chr (n : Z) : str := [Z.to_N n].

(** ["..." .ljust(width, fill)] *)
Definition ljust (s : str) (width : nat) (fill : N) : str :=
  s ++ replicate (width - length s)%nat fill.

Definition utf8_encode_char (c : N) : option bytes :=
  (if c <? 0x80 then Some [byte_of_N c]
   else if c <? 0x800 then
     Some [byte_of_N (0xC0 + c / 0x40); byte_of_N (0x80 + c mod 0x40)]
   else if c <? 0x10000 then
     if (0xD800 <=? c) && (c <=? 0xDFFF) then None
     else Some [byte_of_N (0xE0 + c / 0x1000);
                byte_of_N (0x80 + (c / 0x40) mod 0x40);
                byte_of_N (0x80 + c mod 0x40)]
   else if c <? 0x110000 then
     Some [byte_of_N (0xF0 + c / 0x40000);
           byte_of_N (0x80 + (c / 0x1000) mod 0x40);
           byte_of_N (0x80 + (c / 0x40) mod 0x40);
           byte_of_N (0x80 + c mod 0x40)]
   else None)%N.

(** [s.encode("utf-8")]; [None] is [UnicodeEncodeError] (a lone
    surrogate). *)
Fixpoint utf8_encode (s : str) : option bytes :=
  match s with
  | [] => Some []
  | c :: rest =>
      match utf8_encode_char c, utf8_encode rest with
      | Some bs, Some more => Some (bs ++ more)
      | _, _ => None
      end
  end.

Definition in_range (lo hi : N) (b : byte) : bool :=
  ((lo <=? Byte.to_N b) && (Byte.to_N b <=? hi))%N.

Definition cont (b : byte) : bool := in_range 0x80 0xBF b.

Definition low6 (b : byte) : N := (Byte.to_N b mod 0x40)%N.

(** [str(data, "utf-8")] with the default strict error handler; [None] is
    [UnicodeDecodeError].  Overlong forms, surrogates and code points above
    U+10FFFF are rejected through the range of the second byte. *)
Fixpoint utf8_decode (data : bytes) : option str :=
  match data with
  | [] => Some []
  | b0 :: r0 =>
      let n0 := Byte.to_N b0 in
      if in_range 0x00 0x7F b0 then cons n0 <$> utf8_decode r0
      else
        match r0 with
        | [] => None
        | b1 :: r1 =>
            if in_range 0xC2 0xDF b0 then
              if cont b1
              then cons ((n0 - 0xC0) * 0x40 + low6 b1)%N <$> utf8_decode r1
              else None
            else
              match r1 with
              | [] => None
              | b2 :: r2 =>
                  if in_range 0xE0 0xEF b0 then
                    if (if (n0 =? 0xE0)%N then in_range 0xA0 0xBF b1
                        else if (n0 =? 0xED)%N then in_range 0x80 0x9F b1
                        else cont b1) && cont b2
                    then cons ((n0 - 0xE0) * 0x1000 + low6 b1 * 0x40
                               + low6 b2)%N <$> utf8_decode r2
                    else None
                  else
                    match r2 with
                    | [] => None
                    | b3 :: r3 =>
                        if in_range 0xF0 0xF4 b0 then
                          if (if (n0 =? 0xF0)%N then in_range 0x90 0xBF b1
                              else if (n0 =? 0xF4)%N then in_range 0x80 0x8F b1
                              else cont b1) && cont b2 && cont b3
                          then cons ((n0 - 0xF0) * 0x40000 + low6 b1 * 0x1000
                                     + low6 b2 * 0x40 + low6 b3)%N
                                 <$> utf8_decode r3
                          else None
                        else None
                    end
              end
        end
  end.

(** ** Protocol enumerations ([NatNetTypes.py]) *)

Inductive NAT_Data :=
| MARKER_SET | RIGID_BODY | SKELETON | FORCE_PLATE | DEVICE | CAMERA | ASSET
| UNDEFINED_DATA.

Definition NAT_Data_value (d : NAT_Data) : Z :=
  match d with
  | MARKER_SET => 0 | RIGID_BODY => 1 | SKELETON => 2 | FORCE_PLATE => 3
  | DEVICE => 4 | CAMERA => 5 | ASSET => 6 | UNDEFINED_DATA => -1
  end.

(** [NAT_Data(t)]: lookup by value, [_missing_] gives [UNDEFINED]. *)
Definition NAT_Data_of (t : Z) : NAT_Data :=
  match t with
  | 0 => MARKER_SET | 1 => RIGID_BODY | 2 => SKELETON | 3 => FORCE_PLATE
  | 4 => DEVICE | 5 => CAMERA | 6 => ASSET | _ => UNDEFINED_DATA
  end.

Inductive NAT_Messages :=
| CONNECT | SERVER_INFO | REQUEST | RESPONSE | REQUEST_MODEL_DEF | MODEL_DEF
| REQUEST_FRAME_OF_DATA | FRAME_OF_DATA | MESSAGE_STRING | DISCONNECT
| KEEP_ALIVE | UNRECOGNIZED_REQUEST | UNDEFINED.

Definition NAT_Messages_value (m : NAT_Messages) : Z :=
  match m with
  | CONNECT => 0 | SERVER_INFO => 1 | REQUEST => 2 | RESPONSE => 3
  | REQUEST_MODEL_DEF => 4 | MODEL_DEF => 5 | REQUEST_FRAME_OF_DATA => 6
  | FRAME_OF_DATA => 7 | MESSAGE_STRING => 8 | DISCONNECT => 9
  | KEEP_ALIVE => 10 | UNRECOGNIZED_REQUEST => 100 | UNDEFINED => 999999
  end.

(** [NAT_Messages(v)]: lookup by value, [_missing_] gives [UNDEFINED]. *)
Definition NAT_Messages_of (v : Z) : NAT_Messages :=
  match v with
  | 0 => CONNECT | 1 => SERVER_INFO | 2 => REQUEST | 3 => RESPONSE
  | 4 => REQUEST_MODEL_DEF | 5 => MODEL_DEF | 6 => REQUEST_FRAME_OF_DATA
  | 7 => FRAME_OF_DATA | 8 => MESSAGE_STRING | 9 => DISCONNECT
  | 10 => KEEP_ALIVE | 100 => UNRECOGNIZED_REQUEST | _ => UNDEFINED
  end.

#[global] Instance NAT_Messages_eq_dec : EqDecision NAT_Messages.
Proof. solve_decision. Defined.

#[global] Instance NAT_Data_eq_dec : EqDecision NAT_Data.
Proof. solve_decision. Defined.

(** ** Collection records ([NatNetTypes.py])

    Every record that carries an ordered tuple of identified items also
    carries a dictionary built from that tuple by [__post_init__].  The
    floating-point payload (coordinates, rotations, residuals) plays no part
    in how the dictionaries are built and is kept abstract.  Field names
    carry the name of their record where Python repeats a name from one
    class to the next. *)

(** [{ instance.id : instance for instance in items }]: the items are
    inserted from left to right, a later item replacing an earlier one with
    the same key. *)
Definition dict_by {A} (key : A -> Z) (items : list A) : gmap Z A :=
  foldl (fun d instance => <[key instance := instance]> d) ∅ items.

Section Collections.
Context {float Position Quaternion : Type}.

Record Rigid_body := {
  rigid_body_id : Z;
  rigid_body_pos : Position;
  rigid_body_rot : Quaternion;
  rigid_body_err : float;
  rigid_body_tracking : bool }.

Record Rigid_body_data := {
  num_rigid_bodies : Z;
  rigid_bodies : list Rigid_body;
  rigid_bodies_d : gmap Z Rigid_body }.

(** [Rigid_body_data(num_rigid_bodies, rigid_bodies)]: the generated
    [__init__] followed by [__post_init__]; likewise for the records
    below. *)
Definition new_Rigid_body_data (num : Z) (items : list Rigid_body)
  : Rigid_body_data :=
  {| num_rigid_bodies := num;
     rigid_bodies := items;
     rigid_bodies_d := dict_by rigid_body_id items |}.

Record Skeleton := {
  skeleton_num_rigid_bodies : Z;
  skeleton_rigid_bodies : list Rigid_body;
  skeleton_rigid_bodies_d : gmap Z Rigid_body }.

Definition new_Skeleton (num : Z) (items : list Rigid_body) : Skeleton :=
  {| skeleton_num_rigid_bodies := num;
     skeleton_rigid_bodies := items;
     skeleton_rigid_bodies_d := dict_by rigid_body_id items |}.

Record Asset_RB := {
  asset_rb_id : Z;
  asset_rb_pos : Position;
  asset_rb_rot : Quaternion;
  asset_rb_err : float;
  asset_rb_param : Z }.

Record Asset_marker := {
  asset_marker_id : Z;
  asset_marker_pos : Position;
  asset_marker_size : float;
  asset_marker_param : Z;
  asset_marker_residual : float }.

Record Asset := {
  asset_id : Z;
  asset_num_rigid_bodies : Z;
  asset_rigid_bodies : list Asset_RB;
  asset_num_markers : Z;
  asset_markers : list Asset_marker;
  asset_rigid_bodies_d : gmap Z Asset_RB;
  asset_markers_d : gmap Z Asset_marker }.

Definition new_Asset (id num_bodies : Z) (bodies : list Asset_RB)
    (num_marks : Z) (marks : list Asset_marker) : Asset :=
  {| asset_id := id;
     asset_num_rigid_bodies := num_bodies;
     asset_rigid_bodies := bodies;
     asset_num_markers := num_marks;
     asset_markers := marks;
     asset_rigid_bodies_d := dict_by asset_rb_id bodies;
     asset_markers_d := dict_by asset_marker_id marks |}.

Record Asset_data := {
  num_assets : Z;
  assets : list Asset;
  assets_d : gmap Z Asset }.

Definition new_Asset_data (num : Z) (items : list Asset) : Asset_data :=
  {| num_assets := num; assets := items; assets_d := dict_by asset_id items |}.

Record Labeled_marker := {
  labeled_marker_id : Z;
  labeled_marker_pos : Position;
  labeled_marker_size : Z;
  labeled_marker_param : Z;
  labeled_marker_residual : float }.

Record Labeled_marker_data := {
  num_markers : Z;
  markers : list Labeled_marker;
  markers_d : gmap Z Labeled_marker }.

Definition new_Labeled_marker_data (num : Z) (items : list Labeled_marker)
  : Labeled_marker_data :=
  {| num_markers := num;
     markers := items;
     markers_d := dict_by labeled_marker_id items |}.

Record Channel := {
  num_frames : Z;
  frames : list float }.

Record Force_plate := {
  force_plate_id : Z;
  force_plate_num_channels : Z;
  force_plate_channels : list Channel }.

Record Force_plate_data := {
  num_force_plates : Z;
  force_plates : list Force_plate;
  force_plates_d : gmap Z Force_plate }.

Definition new_Force_plate_data (num : Z) (items : list Force_plate)
  : Force_plate_data :=
  {| num_force_plates := num;
     force_plates := items;
     force_plates_d := dict_by force_plate_id items |}.

Record Device := {
  device_id : Z;
  device_num_channels : Z;
  device_channels : list Channel }.

Record Device_data := {
  num_devices : Z;
  devices : list Device;
  devices_d : gmap Z Device }.

Definition new_Device_data (num : Z) (items : list Device) : Device_data :=
  {| num_devices := num; devices := items;
     devices_d := dict_by device_id items |}.

Record RB_marker := {
  rb_marker_name : str;
  rb_marker_id : Z;
  rb_marker_pos : Position }.

Record Rigid_body_description := {
  rigid_body_description_name : str;
  rigid_body_description_id : Z;
  rigid_body_description_parent_id : Z;
  rigid_body_description_pos : Position;
  rigid_body_description_num_markers : Z;
  rigid_body_description_markers : list RB_marker;
  rigid_body_description_markers_d : gmap Z RB_marker }.

Definition new_Rigid_body_description (name : str) (id parent_id : Z)
    (pos : Position) (num : Z) (items : list RB_marker)
  : Rigid_body_description :=
  {| rigid_body_description_name := name;
     rigid_body_description_id := id;
     rigid_body_description_parent_id := parent_id;
     rigid_body_description_pos := pos;
     rigid_body_description_num_markers := num;
     rigid_body_description_markers := items;
     rigid_body_description_markers_d := dict_by rb_marker_id items |}.

Record Skeleton_description := {
  skeleton_description_name : str;
  skeleton_description_id : Z;
  skeleton_description_num_rigid_bodies : Z;
  skeleton_description_rigid_bodies : list Rigid_body_description;
  skeleton_description_rigid_bodies_d : gmap Z Rigid_body_description }.

Definition new_Skeleton_description (name : str) (id num : Z)
    (items : list Rigid_body_description) : Skeleton_description :=
  {| skeleton_description_name := name;
     skeleton_description_id := id;
     skeleton_description_num_rigid_bodies := num;
     skeleton_description_rigid_bodies := items;
     skeleton_description_rigid_bodies_d :=
       dict_by rigid_body_description_id items |}.

Record Marker_description := {
  marker_description_name : str;
  marker_description_id : Z;
  marker_description_pos : Position;
  marker_description_size : float;
  marker_description_param : Z }.

(** The [markers] tuple of an asset description is untyped in the source
    and has no dictionary; it is taken to hold marker descriptions. *)
Record Asset_description := {
  asset_description_name : str;
  asset_description_type : Z;
  asset_description_id : Z;
  asset_description_num_rigid_bodies : Z;
  asset_description_rigid_bodies : list Rigid_body_description;
  asset_description_num_markers : Z;
  asset_description_markers : list Marker_description;
  asset_description_rigid_bodies_d : gmap Z Rigid_body_description }.

Definition new_Asset_description (name : str) (type id num_bodies : Z)
    (bodies : list Rigid_body_description) (num_marks : Z)
    (marks : list Marker_description) : Asset_description :=
  {| asset_description_name := name;
     asset_description_type := type;
     asset_description_id := id;
     asset_description_num_rigid_bodies := num_bodies;
     asset_description_rigid_bodies := bodies;
     asset_description_num_markers := num_marks;
     asset_description_markers := marks;
     asset_description_rigid_bodies_d :=
       dict_by rigid_body_description_id bodies |}.

End Collections.

Arguments Rigid_body : clear implicits.
Arguments Rigid_body_data : clear implicits.
Arguments Labeled_marker : clear implicits.
Arguments Labeled_marker_data : clear implicits.

(** The items of a sequence that carry a given id, in sequence order. *)
Definition with_id {A} (key : A -> Z) (i : Z) (items : list A) : list A :=
  filter (fun instance => key instance = i) items.

(** A dictionary is derived from a sequence when its entry under each id
    is the last item of the sequence with that id (no entry when there is
    none), and it has one entry per distinct id of the sequence. *)
Definition derived_from {A} (key : A -> Z) (items : list A) (d : gmap Z A)
  : Prop :=
  (forall i, d !! i = last (with_id key i items))
  /\ size d = length (remove_dups (key <$> items)).

(** ** The client ([Client.py]) *)

(** *** Exceptions, log records and the codec interface *)

Inductive exn :=
| struct_error            (* struct.unpack on a buffer of the wrong size *)
| UnicodeDecodeError
| UnicodeEncodeError
| OverflowError           (* an int outside the range of its destination *)
| ValueError              (* deque(maxlen=...) with a negative bound *)
| TypeError               (* a host name that the socket layer refuses *)
| KeyError
| AttributeError (name : string)
| FrozenInstanceError
| OSError                 (* socket.error *)
| CodecError (code : Z).  (* anything raised inside natnet_client.Unpackers *)

Inductive log_record :=
| ErrorBind
| InfoCommandSocket
| InfoDataSocket
| InfoClientConnected
| ErrorUndefinedDescription (t : Z)
| ErrorUnrecognizedRequest (packet_size : Z)
| ErrorUndefinedMessage (packet_size : Z)
| InfoDataThreadStart
| ErrorDataThread
| InfoDataThreadStopped
| InfoCommandThreadStart
| ErrorCommandThread
| InfoCommandThreadStopped
| InfoShutdown.

(** One class of [natnet_client.Unpackers]: static methods from a buffer to
    a decoded value and the number of bytes consumed, or an exception. *)
Record DataUnpacker (MoCap Descriptor : Type) := {
  unpack_mocap_data : bytes -> exn + MoCap * Z;
  unpack_marker_set_description : bytes -> exn + Descriptor * Z;
  unpack_rigid_body_description : bytes -> exn + Descriptor * Z;
  unpack_skeleton_description : bytes -> exn + Descriptor * Z;
  unpack_force_plate_description : bytes -> exn + Descriptor * Z;
  unpack_device_description : bytes -> exn + Descriptor * Z;
  unpack_camera_description : bytes -> exn + Descriptor * Z;
  unpack_asset_description : bytes -> exn + Descriptor * Z }.

Arguments unpack_mocap_data {_ _} _ _.
Arguments unpack_marker_set_description {_ _} _ _.
Arguments unpack_rigid_body_description {_ _} _ _.
Arguments unpack_skeleton_description {_ _} _ _.
Arguments unpack_force_plate_description {_ _} _ _.
Arguments unpack_device_description {_ _} _ _.
Arguments unpack_camera_description {_ _} _ _.
Arguments unpack_asset_description {_ _} _ _.

(** The module [natnet_client.Unpackers], which the client imports: the
    frame and descriptor types it produces and its two classes. *)
Class Unpackers := {
  MoCap : Type;
  Descriptor : Type;
  DataUnpackerV3_0 : DataUnpacker MoCap Descriptor;
  DataUnpackerV4_1 : DataUnpacker MoCap Descriptor }.

(** Which of the two classes an attribute refers to; the client compares
    class objects by identity ([self.__unpacker == DataUnpackerV4_1]). *)
Inductive unpacker_ref := V3_0 | V4_1.

#[global] Instance unpacker_ref_eq_dec : EqDecision unpacker_ref.
Proof. solve_decision. Defined.

Definition deref `{Unpackers} (r : unpacker_ref) : DataUnpacker MoCap Descriptor :=
  match r with V3_0 => DataUnpackerV3_0 | V4_1 => DataUnpackerV4_1 end.

(** A codec that raises on every call.  The client never looks inside a
    codec, so runs that do not reach a frame or a recognised descriptor are
    the same under every codec; this one serves to run them. *)
Definition failing_unpacker : DataUnpacker unit unit :=
  {| unpack_mocap_data := fun _ => inl (CodecError 0);
     unpack_marker_set_description := fun _ => inl (CodecError 0);
     unpack_rigid_body_description := fun _ => inl (CodecError 0);
     unpack_skeleton_description := fun _ => inl (CodecError 0);
     unpack_force_plate_description := fun _ => inl (CodecError 0);
     unpack_device_description := fun _ => inl (CodecError 0);
     unpack_camera_description := fun _ => inl (CodecError 0);
     unpack_asset_description := fun _ => inl (CodecError 0) |}.

Definition failing_unpackers : Unpackers :=
  {| MoCap := unit; Descriptor := unit;
     DataUnpackerV3_0 := failing_unpacker;
     DataUnpackerV4_1 := failing_unpacker |}.

(** *** The operating-system world *)

Record socket := {
  fd : nat;
  bound_ip : str;
  bound_port : Z;
  proto : Z }.

Inductive thread := CommandThread | DataThread.

(** What the client can observe of the operating system and what it leaves
    there.  [bind_results] and [sendto_results] are the answers the system
    will give to the successive [bind] and [sendto] calls ([true] is
    success, and an exhausted list answers success); for [bind] the answer
    stands for the resolution of the host name and the system call
    together, and [false] is a [socket.error].  [address_results] holds in
    the same way the answers of the conversions of address strings that are
    not computed here (the idna codec on a host name that is not ASCII, the
    C library's [inet_aton]), and [membership_results] those of
    [setsockopt(IP_ADD_MEMBERSHIP)].  [socket()], the other [setsockopt]
    calls and [settimeout] are taken to succeed.  Only explicit [close()]
    calls are recorded in [closed]: a socket object that is dropped
    unclosed is left to the garbage collector. *)
Record World := {
  bind_results : list bool;
  sendto_results : list bool;
  next_fd : nat;
  closed : list nat;
  sent : list (bytes * (str * Z));
  started : list thread;
  joined : list thread;
  log : list log_record;
  address_results : list bool;
  membership_results : list bool }.

Definition boot (binds sends : list bool) : World :=
  {| bind_results := binds; sendto_results := sends; next_fd := 3;
     closed := []; sent := []; started := []; joined := []; log := [];
     address_results := []; membership_results := [] |}.

(** *** The client object *)

Record Server_info := {
  application_name : str;
  version : Z * Z * Z * Z;
  nat_net_major : Z;
  nat_net_minor : Z }.

(** An entry of the response history: [deque[int | str]]. *)
Inductive response := IntResponse (n : Z) | StrResponse (s : str).

(** [collections.deque] with a bound.  [maxlen] is a natural number: the
    constructor refuses a negative bound. *)
Record deque (A : Type) := {
  items : list A;
  maxlen : nat }.

Arguments items {_} _.
Arguments maxlen {_} _.

(** [deque(iterable, maxlen=n)]: the last [n] items are kept. *)
Definition new_deque {A} (iterable : list A) (n : nat) : deque A :=
  {| items := drop (length iterable - n)%nat iterable; maxlen := n |}.

(** [d.append(x)]: when the deque is full its oldest item is discarded;
    with a bound of zero nothing is ever stored. *)
Definition deque_append {A} (d : deque A) (x : A) : deque A :=
  new_deque (items d ++ [x]) (maxlen d).

Section Client.
Context `{U : Unpackers}.

(** The attributes of a [NatNetClient].  [unpacker] and the two thread
    handles are attributes that do not exist until the method that first
    assigns them has run: reading them before is an [AttributeError]. *)
Record NatNetClient := {
  server_address : str;
  local_ip_address : str;
  use_multicast : bool;
  multicast_address : str;
  command_port : Z;
  data_port : Z;
  mocap : option MoCap;
  running : bool;
  command_socket : option socket;
  data_socket : option socket;
  freeze : bool;
  max_buffer_size : Z;
  server_responses : deque response;
  server_messages : deque str;
  server_info : Server_info;
  unpacker : option unpacker_ref;
  command_thread : option thread;
  data_thread : option thread }.

Definition set_server_address v (c : NatNetClient) :=
  let 'Build_NatNetClient _ a2 a3 a4 a5 a6 a7 a8 a9 a10 a11 a12 a13 a14 a15 a16 a17 a18 := c in
  Build_NatNetClient v a2 a3 a4 a5 a6 a7 a8 a9 a10 a11 a12 a13 a14 a15 a16 a17 a18.
Definition set_local_ip_address v (c : NatNetClient) :=
  let 'Build_NatNetClient a1 _ a3 a4 a5 a6 a7 a8 a9 a10 a11 a12 a13 a14 a15 a16 a17 a18 := c in
  Build_NatNetClient a1 v a3 a4 a5 a6 a7 a8 a9 a10 a11 a12 a13 a14 a15 a16 a17 a18.
Definition set_use_multicast v (c : NatNetClient) :=
  let 'Build_NatNetClient a1 a2 _ a4 a5 a6 a7 a8 a9 a10 a11 a12 a13 a14 a15 a16 a17 a18 := c in
  Build_NatNetClient a1 a2 v a4 a5 a6 a7 a8 a9 a10 a11 a12 a13 a14 a15 a16 a17 a18.
Definition set_multicast_address v (c : NatNetClient) :=
  let 'Build_NatNetClient a1 a2 a3 _ a5 a6 a7 a8 a9 a10 a11 a12 a13 a14 a15 a16 a17 a18 := c in
  Build_NatNetClient a1 a2 a3 v a5 a6 a7 a8 a9 a10 a11 a12 a13 a14 a15 a16 a17 a18.
Definition set_command_port v (c : NatNetClient) :=
  let 'Build_NatNetClient a1 a2 a3 a4 _ a6 a7 a8 a9 a10 a11 a12 a13 a14 a15 a16 a17 a18 := c in
  Build_NatNetClient a1 a2 a3 a4 v a6 a7 a8 a9 a10 a11 a12 a13 a14 a15 a16 a17 a18.
Definition set_data_port v (c : NatNetClient) :=
  let 'Build_NatNetClient a1 a2 a3 a4 a5 _ a7 a8 a9 a10 a11 a12 a13 a14 a15 a16 a17 a18 := c in
  Build_NatNetClient a1 a2 a3 a4 a5 v a7 a8 a9 a10 a11 a12 a13 a14 a15 a16 a17 a18.
Definition set_mocap v (c : NatNetClient) :=
  let 'Build_NatNetClient a1 a2 a3 a4 a5 a6 _ a8 a9 a10 a11 a12 a13 a14 a15 a16 a17 a18 := c in
  Build_NatNetClient a1 a2 a3 a4 a5 a6 v a8 a9 a10 a11 a12 a13 a14 a15 a16 a17 a18.
Definition set_running v (c : NatNetClient) :=
  let 'Build_NatNetClient a1 a2 a3 a4 a5 a6 a7 _ a9 a10 a11 a12 a13 a14 a15 a16 a17 a18 := c in
  Build_NatNetClient a1 a2 a3 a4 a5 a6 a7 v a9 a10 a11 a12 a13 a14 a15 a16 a17 a18.
Definition set_command_socket v (c : NatNetClient) :=
  let 'Build_NatNetClient a1 a2 a3 a4 a5 a6 a7 a8 _ a10 a11 a12 a13 a14 a15 a16 a17 a18 := c in
  Build_NatNetClient a1 a2 a3 a4 a5 a6 a7 a8 v a10 a11 a12 a13 a14 a15 a16 a17 a18.
Definition set_data_socket v (c : NatNetClient) :=
  let 'Build_NatNetClient a1 a2 a3 a4 a5 a6 a7 a8 a9 _ a11 a12 a13 a14 a15 a16 a17 a18 := c in
  Build_NatNetClient a1 a2 a3 a4 a5 a6 a7 a8 a9 v a11 a12 a13 a14 a15 a16 a17 a18.
Definition set_max_buffer_size v (c : NatNetClient) :=
  let 'Build_NatNetClient a1 a2 a3 a4 a5 a6 a7 a8 a9 a10 a11 _ a13 a14 a15 a16 a17 a18 := c in
  Build_NatNetClient a1 a2 a3 a4 a5 a6 a7 a8 a9 a10 a11 v a13 a14 a15 a16 a17 a18.
Definition set_server_responses v (c : NatNetClient) :=
  let 'Build_NatNetClient a1 a2 a3 a4 a5 a6 a7 a8 a9 a10 a11 a12 _ a14 a15 a16 a17 a18 := c in
  Build_NatNetClient a1 a2 a3 a4 a5 a6 a7 a8 a9 a10 a11 a12 v a14 a15 a16 a17 a18.
Definition set_server_messages v (c : NatNetClient) :=
  let 'Build_NatNetClient a1 a2 a3 a4 a5 a6 a7 a8 a9 a10 a11 a12 a13 _ a15 a16 a17 a18 := c in
  Build_NatNetClient a1 a2 a3 a4 a5 a6 a7 a8 a9 a10 a11 a12 a13 v a15 a16 a17 a18.
Definition set_server_info v (c : NatNetClient) :=
  let 'Build_NatNetClient a1 a2 a3 a4 a5 a6 a7 a8 a9 a10 a11 a12 a13 a14 _ a16 a17 a18 := c in
  Build_NatNetClient a1 a2 a3 a4 a5 a6 a7 a8 a9 a10 a11 a12 a13 a14 v a16 a17 a18.
Definition set_unpacker v (c : NatNetClient) :=
  let 'Build_NatNetClient a1 a2 a3 a4 a5 a6 a7 a8 a9 a10 a11 a12 a13 a14 a15 _ a17 a18 := c in
  Build_NatNetClient a1 a2 a3 a4 a5 a6 a7 a8 a9 a10 a11 a12 a13 a14 a15 v a17 a18.
Definition set_command_thread v (c : NatNetClient) :=
  let 'Build_NatNetClient a1 a2 a3 a4 a5 a6 a7 a8 a9 a10 a11 a12 a13 a14 a15 a16 _ a18 := c in
  Build_NatNetClient a1 a2 a3 a4 a5 a6 a7 a8 a9 a10 a11 a12 a13 a14 a15 a16 v a18.
Definition set_data_thread v (c : NatNetClient) :=
  let 'Build_NatNetClient a1 a2 a3 a4 a5 a6 a7 a8 a9 a10 a11 a12 a13 a14 a15 a16 a17 _ := c in
  Build_NatNetClient a1 a2 a3 a4 a5 a6 a7 a8 a9 a10 a11 a12 a13 a14 a15 a16 a17 v.

(** *** Computations *)

Record State := {
  self : NatNetClient;
  world : World }.

Inductive outcome (A : Type) :=
| Return (a : A) (s : State)
| Raise (e : exn) (s : State).

Definition M (A : Type) : Type := State -> outcome A.

Definition ret {A} (a : A) : M A := fun s => Return A a s.

Definition raise {A} (e : exn) : M A := fun s => Raise A e s.

Definition bind {A B} (m : M A) (k : A -> M B) : M B :=
  fun s =>
    match m s with
    | Return _ a s' => k a s'
    | Raise _ e s' => Raise B e s'
    end.

Definition get : M NatNetClient := fun s => Return _ (self s) s.

Definition assign (f : NatNetClient -> NatNetClient) : M unit :=
  fun s => Return _ tt {| self := f (self s); world := world s |}.

Definition os (f : World -> World) : M unit :=
  fun s => Return _ tt {| self := self s; world := f (world s) |}.

Definition final {A} (o : outcome A) : State :=
  match o with Return _ _ s => s | Raise _ _ s => s end.

End Client.

Arguments Return {_ _} _ _.
Arguments Raise {_ _} _ _.

(** stdpp's monad notations [x ← m; k] and [m ;; k] are used for [M]. *)
#[global] Instance M_ret `{U : Unpackers} : MRet M := @ret U.
#[global] Instance M_bind `{U : Unpackers} : MBind M :=
  fun A B k m => bind m k.

Section Methods.
Context `{U : Unpackers}.

Definition note (r : log_record) (w : World) : World :=
  {| bind_results := bind_results w; sendto_results := sendto_results w;
     next_fd := next_fd w; closed := closed w; sent := sent w;
     started := started w; joined := joined w; log := log w ++ [r];
     address_results := address_results w;
     membership_results := membership_results w |}.

(** [logging.info(...)], [logging.error(...)] *)
Definition logging (r : log_record) : M unit := os (note r).

(** [sock.close()] *)
Definition close (sock : socket) : M unit :=
  os (fun w =>
    {| bind_results := bind_results w; sendto_results := sendto_results w;
       next_fd := next_fd w; closed := closed w ++ [fd sock]; sent := sent w;
       started := started w; joined := joined w; log := log w;
       address_results := address_results w;
       membership_results := membership_results w |}).

(** [Thread(target=...).start()] *)
Definition start (t : thread) : M unit :=
  os (fun w =>
    {| bind_results := bind_results w; sendto_results := sendto_results w;
       next_fd := next_fd w; closed := closed w; sent := sent w;
       started := started w ++ [t]; joined := joined w; log := log w;
       address_results := address_results w;
       membership_results := membership_results w |}).

(** [t.join()] on a handle that exists. *)
Definition join (t : thread) : M unit :=
  os (fun w =>
    {| bind_results := bind_results w; sendto_results := sendto_results w;
       next_fd := next_fd w; closed := closed w; sent := sent w;
       started := started w; joined := joined w ++ [t]; log := log w;
       address_results := address_results w;
       membership_results := membership_results w |}).

(** The value of a conversion, or the exception it raises when it has
    none. *)
Definition lift {A} (e : exn) (o : option A) : M A :=
  match o with Some a => mret a | None => raise e end.

(** The answer of the world to the next call: the head of the list, or
    success once the list is used up. *)
Definition next_answer (answers : list bool) : bool :=
  match answers with [] => true | b :: _ => b end.

(** [socket.socket(AF_INET, SOCK_DGRAM, proto)]: the next descriptor.  The
    record notes the address that the socket is about to be bound to. *)
Definition socket_socket (ip : str) (proto port : Z) : M socket :=
  fun s =>
    let w := world s in
    Return {| fd := next_fd w; bound_ip := ip; bound_port := port;
              proto := proto |}
      {| self := self s;
         world :=
           {| bind_results := bind_results w;
              sendto_results := sendto_results w;
              next_fd := S (next_fd w); closed := closed w; sent := sent w;
              started := started w; joined := joined w; log := log w;
              address_results := address_results w;
              membership_results := membership_results w |} |}.

(** The answer of the world to a [bind], which is used up. *)
Definition bind_answer : M bool :=
  fun s =>
    let w := world s in
    Return (next_answer (bind_results w))
      {| self := self s;
         world :=
           {| bind_results := tail (bind_results w);
              sendto_results := sendto_results w;
              next_fd := next_fd w; closed := closed w; sent := sent w;
              started := started w; joined := joined w; log := log w;
              address_results := address_results w;
              membership_results := membership_results w |} |}.

(** The answer of the world to the conversion of an address string. *)
Definition address_answer : M bool :=
  fun s =>
    let w := world s in
    Return (next_answer (address_results w))
      {| self := self s;
         world :=
           {| bind_results := bind_results w;
              sendto_results := sendto_results w;
              next_fd := next_fd w; closed := closed w; sent := sent w;
              started := started w; joined := joined w; log := log w;
              address_results := tail (address_results w);
              membership_results := membership_results w |} |}.

(** The answer of the world to [setsockopt(IP_ADD_MEMBERSHIP)]. *)
Definition membership_answer : M bool :=
  fun s =>
    let w := world s in
    Return (next_answer (membership_results w))
      {| self := self s;
         world :=
           {| bind_results := bind_results w;
              sendto_results := sendto_results w;
              next_fd := next_fd w; closed := closed w; sent := sent w;
              started := started w; joined := joined w; log := log w;
              address_results := address_results w;
              membership_results := tail (membership_results w) |} |}.

(** A string whose characters are all ASCII. *)
Definition is_ascii (text : str) : bool :=
  forallb (fun ch => (ch <? 128)%N) text.

(** The host name of an address, as the socket layer converts it before
    any system call: an ASCII name is taken as it is, another name goes
    through the idna codec, and a name that holds a null character or that
    the codec cannot encode is a [TypeError]. *)
Definition host_name (ip : str) : M unit :=
  if bool_decide (0%N ∈ ip) then raise TypeError
  else if is_ascii ip then mret tt
  else
    encoded ← address_answer;
    if encoded : bool then mret tt else raise TypeError.

(** The range of a C [int]. *)
Definition fits_int (n : Z) : bool :=
  (-2147483648 <=? n) && (n <=? 2147483647).

(** The range of a port number. *)
Definition is_port (n : Z) : bool := (0 <=? n) && (n <=? 65535).

(** [sock.bind((ip, port))].  The arguments are converted first: the host
    name, then the port, which must fit a C [int].  The host name is then
    resolved, the port is checked against the range of port numbers, and
    the system call is made.  The answer of the world is [false] when the
    resolution or the system call raises [socket.error]; a port outside
    0..65535 is an [OverflowError], raised once the name has resolved. *)
Definition bind_address (ip : str) (port : Z) : M bool :=
  host_name ip ;;
  if fits_int port then
    answer ← bind_answer;
    if answer && negb (is_port port) then raise OverflowError
    else mret answer
  else raise OverflowError.

(** [socket.socket(...)] then [sock.bind((ip, port))]: the descriptor is
    allocated, and the bind is answered. *)
Definition socket_bind (ip : str) (proto port : Z) : M (socket * bool) :=
  sock ← socket_socket ip proto port;
  bound ← bind_address ip port;
  mret (sock, bound).

(** [sock.sendto(data, address)]: the number of bytes sent, or
    [socket.error].  The address is taken to be one that the socket layer
    converts; the answer of the world covers what comes after. *)
Definition sendto (sock : socket) (data : bytes) (address : str * Z) : M Z :=
  fun s =>
    let w := world s in
    let answer := next_answer (sendto_results w) in
    let w' sent' :=
      {| bind_results := bind_results w;
         sendto_results := tail (sendto_results w);
         next_fd := next_fd w; closed := closed w; sent := sent';
         started := started w; joined := joined w; log := log w;
         address_results := address_results w;
         membership_results := membership_results w |} in
    if answer
    then Return (Z.of_nat (length data))
           {| self := self s; world := w' (sent w ++ [(data, address)]) |}
    else Raise OSError {| self := self s; world := w' (sent w) |}.

(** [create_socket(ip, proto, port)]: [None] when the bind raises
    [socket.error]; any other exception of the bind leaves the method. *)
Definition create_socket (ip : str) (proto port : Z) : M (option socket) :=
  '(sock, bound) ← socket_bind ip proto port;
  if bound : bool then mret (Some sock)
  else logging ErrorBind ;; close sock ;; mret None.

Definition IPPROTO_UDP : Z := 17.

(** [__create__command_socket].  The options set on the socket once it
    is bound (broadcast, time-out) are taken to succeed. *)
Definition create_command_socket : M bool :=
  c ← get;
  let '(ip, proto) :=
    if use_multicast c then ([], 0) else (local_ip_address c, IPPROTO_UDP) in
  sock ← create_socket ip proto 0;
  assign (set_command_socket sock) ;;
  match sock with
  | None => logging InfoCommandSocket ;; mret false
  | Some _ => mret true
  end.

(** [socket.inet_aton(ip)]: the string is encoded as UTF-8 and must hold
    no null character; the C library then tells whether it is an address.
    The packed address is only handed on to [setsockopt]. *)
Definition inet_aton (ip : str) : M unit :=
  lift UnicodeEncodeError (utf8_encode ip) ;;
  if bool_decide (0%N ∈ ip) then raise ValueError
  else
    legal ← address_answer;
    if legal : bool then mret tt else raise OSError.

(** [sock.setsockopt(IPPROTO_IP, IP_ADD_MEMBERSHIP,
    inet_aton(multicast) + inet_aton(local))] *)
Definition add_membership (multicast local : str) : M unit :=
  inet_aton multicast ;;
  inet_aton local ;;
  joined ← membership_answer;
  if joined : bool then mret tt else raise OSError.

(** [__create__data_socket] *)
Definition create_data_socket : M bool :=
  c ← get;
  let '(ip, proto, port) :=
    if use_multicast c then (local_ip_address c, 0, data_port c)
    else ([], IPPROTO_UDP, 0) in
  sock ← create_socket ip proto port;
  assign (set_data_socket sock) ;;
  match sock with
  | None => logging InfoDataSocket ;; mret false
  | Some _ =>
      (if use_multicast c
          || bool_decide (multicast_address c
                          ≠ str_of_string "255.255.255.255")
       then add_membership (multicast_address c) (local_ip_address c)
       else mret tt) ;;
      mret true
  end.

(** *** Attribute assignment *)

Definition frozen_names : list string :=
  ["server_address"; "local_ip_address"; "use_multicast";
   "multicast_address"; "command_port"; "data_port"]%string.

(** [__setattr__(name, value)]; [store] is the effect of
    [super().__setattr__(name, value)] on the object.  The private
    attributes ([_NatNetClient__running] and the like) are not among the
    guarded names, so the methods below write them with [assign]. *)
Definition setattr (name : string) (store : NatNetClient -> NatNetClient)
  : M unit :=
  c ← get;
  if freeze c && bool_decide (name ∈ frozen_names)
  then raise FrozenInstanceError
  else assign store.

(** The assignments to the connection-configuration fields. *)
Inductive setting :=
| Server_address (v : str)
| Local_ip_address (v : str)
| Use_multicast (v : bool)
| Multicast_address (v : str)
| Command_port (v : Z)
| Data_port (v : Z).

Definition setting_name (x : setting) : string :=
  match x with
  | Server_address _ => "server_address"
  | Local_ip_address _ => "local_ip_address"
  | Use_multicast _ => "use_multicast"
  | Multicast_address _ => "multicast_address"
  | Command_port _ => "command_port"
  | Data_port _ => "data_port"
  end%string.

Definition store (x : setting) : NatNetClient -> NatNetClient :=
  match x with
  | Server_address v => set_server_address v
  | Local_ip_address v => set_local_ip_address v
  | Use_multicast v => set_use_multicast v
  | Multicast_address v => set_multicast_address v
  | Command_port v => set_command_port v
  | Data_port v => set_data_port v
  end.

(** [client.<field> = v] *)
Definition configure (x : setting) : M unit :=
  setattr (setting_name x) (store x).

(** *** Requests *)

Definition len (s : str) : Z := Z.of_nat (length s).

(** The [command] and [packet_size] that [send_request] settles on for a
    message kind. *)
Definition request_body (NAT_command : NAT_Messages) (command : str)
  : str * Z :=
  match NAT_command with
  | KEEP_ALIVE | REQUEST_MODEL_DEF | REQUEST_FRAME_OF_DATA => ([], 0)
  | REQUEST => (command, len command + 1)
  | CONNECT =>
      let tmp_version := (4, 1, 0, 0) in
      let '(v0, v1, v2, v3) := tmp_version in
      let command :=
        ljust (str_of_string "Ping") 265 0%N
        ++ chr v0 ++ chr v1 ++ chr v2 ++ chr v3 ++ [0%N] in
      (command, len command + 1)
  | _ => (command, 0)
  end.

(** The datagram that [send_request] assembles. *)
Definition request_packet (NAT_command : NAT_Messages) (command : str)
  : M bytes :=
  let '(command, packet_size) := request_body NAT_command command in
  kind ← lift OverflowError (to_bytes2_signed (NAT_Messages_value NAT_command));
  size ← lift OverflowError (to_bytes2_signed packet_size);
  payload ← lift UnicodeEncodeError (utf8_encode command);
  mret (kind ++ size ++ payload ++ [x00]).

Definition send_request (NAT_command : NAT_Messages) (command : str) : M Z :=
  c ← get;
  if negb (running c) || bool_decide (NAT_command = UNDEFINED) then mret (-1)
  else
    data ← request_packet NAT_command command;
    c ← get;
    match command_socket c with
    | None => mret (-1)
    | Some sock => sendto sock data (server_address c, command_port c)
    end.

(** The body of [for _ in range(n)] in [send_command]. *)
Fixpoint send_command_attempts (n : nat) (command : str) (res : Z) : M Z :=
  match n with
  | O => mret res
  | S n' =>
      res ← send_request REQUEST command;
      if bool_decide (res ≠ -1) then mret res
      else send_command_attempts n' command res
  end.

Definition send_command (command : str) : M bool :=
  res ← send_command_attempts 3 command (-1);
  mret (bool_decide (res ≠ -1)).

(** *** Codec selection *)

Definition update_unpacker_version : M unit :=
  assign (set_unpacker (Some V3_0)) ;;
  c ← get;
  if (bool_decide (nat_net_major (server_info c) = 4)
      && bool_decide (nat_net_minor (server_info c) >= 1))
     || bool_decide (nat_net_major (server_info c) = 0)
  then assign (set_unpacker (Some V4_1))
  else mret tt.

(** [self.__mapped_data_descriptors], as built by
    [__update_unpacker_version] from the class it has just chosen. *)
Definition mapped_data_descriptors (u : DataUnpacker MoCap Descriptor)
    (kind : NAT_Data) : option (bytes -> exn + Descriptor * Z) :=
  match kind with
  | MARKER_SET => Some (unpack_marker_set_description u)
  | RIGID_BODY => Some (unpack_rigid_body_description u)
  | SKELETON => Some (unpack_skeleton_description u)
  | FORCE_PLATE => Some (unpack_force_plate_description u)
  | DEVICE => Some (unpack_device_description u)
  | CAMERA => Some (unpack_camera_description u)
  | ASSET => Some (unpack_asset_description u)
  | UNDEFINED_DATA => None
  end.

(** Reading [self.__unpacker]. *)
Definition get_unpacker : M unpacker_ref :=
  c ← get;
  lift (AttributeError "_NatNetClient__unpacker") (unpacker c).

(** *** Message handlers *)

Definition unpack_mocap_data_message (data : bytes) (packet_size : Z) : M Z :=
  r ← get_unpacker;
  match unpack_mocap_data (deref r) data with
  | inl e => raise e
  | inr (frame, offset) => assign (set_mocap (Some frame)) ;; mret offset
  end.

(** The body of [for i in range(dataset_count)] in
    [__unpack_data_descriptions], from the cursor [offset] on. *)
Fixpoint unpack_descriptions (n : nat) (data : bytes) (offset : Z) : M Z :=
  match n with
  | O => mret offset
  | S n' =>
      let t := from_bytes_signed (slice data offset (offset + 4)) in
      let offset := offset + 4 in
      r ← get_unpacker;
      let '(size_in_bytes, offset) :=
        if bool_decide (r = V4_1)
        then (Some (from_bytes_signed (slice data offset (offset + 4))),
              offset + 4)
        else (None, offset) in
      let data_description_type := NAT_Data_of t in
      if bool_decide (data_description_type = UNDEFINED_DATA)
      then logging (ErrorUndefinedDescription t) ;;
           unpack_descriptions n' data offset
      else
        unpack ← lift KeyError
          (mapped_data_descriptors (deref r) data_description_type);
        match unpack (slice_from data offset) with
        | inl e => raise e
        | inr (d, tmp_offset) =>
            unpack_descriptions n' data (offset + tmp_offset)
        end
  end.

Definition unpack_data_descriptions (data : bytes) (packet_size : Z) : M Z :=
  let dataset_count := from_bytes_signed (slice data 0 4) in
  unpack_descriptions (Z.to_nat dataset_count) data 4.

Definition unpack_server_info (data : bytes) (packet_size : Z) : M Z :=
  let application_name := before_null (slice data 0 256) in
  name ← lift UnicodeDecodeError (utf8_decode application_name);
  version ← lift struct_error (struct_unpack_BBBB (slice data 256 260));
  '(major, minor, _, _) ←
    lift struct_error (struct_unpack_BBBB (slice data 260 264));
  assign (set_server_info
            {| application_name := name; version := version;
               nat_net_major := major; nat_net_minor := minor |}) ;;
  (* [self.__update_unpacker_version]: the bound method is looked up and
     dropped; it is not called. *)
  let _ := update_unpacker_version in
  mret 264.

Definition unpack_server_response (data : bytes) (packet_size : Z) : M Z :=
  if bool_decide (packet_size = 4) then
    assign (fun c =>
      set_server_responses
        (deque_append (server_responses c)
           (IntResponse (from_bytes_signed data))) c) ;;
    mret 4
  else
    let response := before_null (slice_to data 256) in
    (if bool_decide (Z.of_nat (length response) < 30) then
       text ← lift UnicodeDecodeError (utf8_decode response);
       assign (fun c =>
         set_server_responses
           (deque_append (server_responses c) (StrResponse text)) c)
     else mret tt) ;;
    mret (Z.of_nat (length response)).

Definition unpack_server_message (data : bytes) (packet_size : Z) : M Z :=
  let message := before_null data in
  text ← lift UnicodeDecodeError (utf8_decode message);
  assign (fun c =>
    set_server_messages (deque_append (server_messages c) text) c) ;;
  mret (Z.of_nat (length message) + 1).

Definition unpack_unrecognized_request (data : bytes) (packet_size : Z)
  : M Z :=
  logging (ErrorUnrecognizedRequest packet_size) ;; mret packet_size.

Definition unpack_undefined_nat_message (data : bytes) (packet_size : Z)
  : M Z :=
  logging (ErrorUndefinedMessage packet_size) ;; mret packet_size.

(** *** Dispatcher *)

(** [self.__mapped]: the handler table built in [__post_init__]. *)
Definition mapped (message_id : NAT_Messages)
  : option (bytes -> Z -> M Z) :=
  match message_id with
  | FRAME_OF_DATA => Some unpack_mocap_data_message
  | MODEL_DEF => Some unpack_data_descriptions
  | SERVER_INFO => Some unpack_server_info
  | RESPONSE => Some unpack_server_response
  | MESSAGE_STRING => Some unpack_server_message
  | UNRECOGNIZED_REQUEST => Some unpack_unrecognized_request
  | UNDEFINED => Some unpack_undefined_nat_message
  | _ => None
  end.

Definition get_message_id (data : bytes) : Z :=
  from_bytes_signed (slice data 0 2).

Definition process_message (data : bytes) : M unit :=
  let message_id := NAT_Messages_of (get_message_id (slice data 0 2)) in
  let packet_size := from_bytes_signed (slice data 2 4) in
  match mapped message_id with
  | None => mret tt
  | Some handler => handler (slice_from data 4) packet_size ;; mret tt
  end.

(** *** Receive loops *)

(** What one call of [recv] gives. *)
Inductive received :=
| Datagram (data : bytes)
| TimedOut          (* socket.timeout *)
| Failure.         (* any other socket.error *)

(** How a run of a thread function over a finite list of receptions
    ends, when no exception ends it. *)
Inductive thread_end :=
| Returned         (* the function returned *)
| Receiving.       (* blocked in [recv]: the list is used up *)

(** The [while run:] loop of [__data_thread_function]; each turn takes
    the next reception. *)
Fixpoint data_thread_loop (receptions : list received) (run : bool)
  : M thread_end :=
  if run then
    c ← get;
    let run := running c in
    match data_socket c, receptions with
    | None, _ => mret Returned
    | Some _, [] => mret Receiving
    | Some _, r :: rest =>
        data ← match r with
               | Datagram data => mret data
               | TimedOut | Failure => logging ErrorDataThread ;; mret []
               end;
        (if bool_decide (length data ≠ 0%nat) then process_message data
         else mret tt) ;;
        data_thread_loop rest run
    end
  else logging InfoDataThreadStopped ;; mret Returned.

Definition data_thread_function (receptions : list received)
  : M thread_end :=
  logging InfoDataThreadStart ;; data_thread_loop receptions true.

Fixpoint command_thread_loop (receptions : list received) (run : bool)
  : M thread_end :=
  if run then
    c ← get;
    let run := running c in
    match command_socket c, receptions with
    | None, _ => mret Returned
    | Some _, [] => mret Receiving
    | Some _, r :: rest =>
        data ← match r with
               | Datagram data => mret data
               | TimedOut => mret []
               | Failure => logging ErrorCommandThread ;; mret []
               end;
        (if bool_decide (length data ≠ 0%nat) then process_message data
         else mret tt) ;;
        command_thread_loop rest run
    end
  else logging InfoCommandThreadStopped ;; mret Returned.

Definition command_thread_function (receptions : list received)
  : M thread_end :=
  logging InfoCommandThreadStart ;; command_thread_loop receptions true.

(** *** Connection life cycle *)

Definition connect : M unit :=
  c ← get;
  if running c then mret tt
  else
    command_ok ← create_command_socket;
    if negb command_ok then mret tt
    else
      data_ok ← create_data_socket;
      if negb data_ok then mret tt
      else
        logging InfoClientConnected ;;
        send_request CONNECT [] ;;
        assign (set_running true) ;;
        assign (set_command_thread (Some CommandThread)) ;;
        start CommandThread ;;
        assign (set_data_thread (Some DataThread)) ;;
        start DataThread.

(** [sys.maxsize], the largest [Py_ssize_t], of a 64-bit build:
    [2**63 - 1]. *)
Definition PY_SSIZE_T_MAX : Z := 9223372036854775807.

(** The [maxlen] argument of [deque]: it is converted to a [Py_ssize_t],
    which raises [OverflowError] outside that range, and then refused with
    [ValueError] when negative. *)
Definition deque_maxlen (n : Z) : M nat :=
  if (n <? - PY_SSIZE_T_MAX - 1) || (PY_SSIZE_T_MAX <? n)
  then raise OverflowError
  else if n <? 0 then raise ValueError
  else mret (Z.to_nat n).

(** [deque(maxlen=n)] *)
Definition empty_deque {A} (n : Z) : M (deque A) :=
  bound ← deque_maxlen n; mret (new_deque [] bound).

(** [__post_init__] up to and including its call of [connect()]. *)
Definition post_init_connect (max_buffer_size : Z) : M unit :=
  assign (set_max_buffer_size max_buffer_size) ;;
  responses ← empty_deque max_buffer_size;
  assign (set_server_responses responses) ;;
  messages ← empty_deque max_buffer_size;
  assign (set_server_messages messages) ;;
  assign (set_server_info
            {| application_name := str_of_string "None";
               version := (0, 0, 0, 0);
               nat_net_major := 0; nat_net_minor := 0 |}) ;;
  connect.

Definition post_init (max_buffer_size : Z) : M unit :=
  post_init_connect max_buffer_size ;;
  update_unpacker_version.

(** The constructor arguments, with the defaults of the dataclass. *)
Record arguments := {
  arg_server_address : str;
  arg_local_ip_address : str;
  arg_use_multicast : bool;
  arg_multicast_address : str;
  arg_command_port : Z;
  arg_data_port : Z;
  arg_max_buffer_size : Z }.

Definition defaults : arguments :=
  {| arg_server_address := str_of_string "127.0.0.1";
     arg_local_ip_address := str_of_string "127.0.0.1";
     arg_use_multicast := true;
     arg_multicast_address := str_of_string "239.255.42.99";
     arg_command_port := 1510;
     arg_data_port := 1511;
     arg_max_buffer_size := 255 |}.

(** The object as the generated [__init__] leaves it, before
    [__post_init__] runs.  The histories and the server info do not exist
    yet at that point; [__post_init__] assigns them before anything reads
    them. *)
Definition allocated (a : arguments) : NatNetClient :=
  {| server_address := arg_server_address a;
     local_ip_address := arg_local_ip_address a;
     use_multicast := arg_use_multicast a;
     multicast_address := arg_multicast_address a;
     command_port := arg_command_port a;
     data_port := arg_data_port a;
     mocap := None;
     running := false;
     command_socket := None;
     data_socket := None;
     freeze := false;
     max_buffer_size := 0;
     server_responses := new_deque [] 0;
     server_messages := new_deque [] 0;
     server_info :=
       {| application_name := []; version := (0, 0, 0, 0);
          nat_net_major := 0; nat_net_minor := 0 |};
     unpacker := None;
     command_thread := None;
     data_thread := None |}.

(** Construction of a client from keyword arguments [a] in the world [w]. *)
Definition construct (a : arguments) (w : World) : outcome unit :=
  post_init (arg_max_buffer_size a) {| self := allocated a; world := w |}.

Definition shutdown : M unit :=
  logging InfoShutdown ;;
  assign (set_running false) ;;
  c ← get;
  match command_socket c with Some sock => close sock | None => mret tt end ;;
  match data_socket c with Some sock => close sock | None => mret tt end ;;
  assign (set_command_socket None) ;;
  assign (set_data_socket None) ;;
  c ← get;
  t ← lift (AttributeError "_NatNetClient__data_thread") (data_thread c);
  join t ;;
  t ← lift (AttributeError "_NatNetClient__command_thread") (command_thread c);
  join t.

(** The [connected] property. *)
Definition connected (c : NatNetClient) : bool := running c.

End Methods.

(** ** Vocabulary of the properties *)

Section Vocabulary.
Context `{U : Unpackers}.

(** The state once a record has been logged. *)
Definition logged (r : log_record) (s : State) : State :=
  {| self := self s; world := note r (world s) |}.

(** The state once an entry has been appended to the response history. *)
Definition responded (r : response) (s : State) : State :=
  {| self := set_server_responses
               (deque_append (server_responses (self s)) r) (self s);
     world := world s |}.

(** The state once the world has answered a [sendto]: an answer is used
    up, and the datagrams in [out] have left. *)
Definition answered (out : list (bytes * (str * Z))) (s : State) : State :=
  {| self := self s;
     world :=
       {| bind_results := bind_results (world s);
          sendto_results := tail (sendto_results (world s));
          next_fd := next_fd (world s); closed := closed (world s);
          sent := sent (world s) ++ out;
          started := started (world s); joined := joined (world s);
          log := log (world s);
          address_results := address_results (world s);
          membership_results := membership_results (world s) |} |}.

(** The value of the size field of a request, by message kind. *)
Definition declared_size (NAT_command : NAT_Messages) (command : str) : Z :=
  match NAT_command with
  | REQUEST => len command + 1
  | CONNECT => 271
  | _ => 0
  end.

(** The text a request carries, by message kind. *)
Definition carried (NAT_command : NAT_Messages) (command : str) : str :=
  match NAT_command with
  | KEEP_ALIVE | REQUEST_MODEL_DEF | REQUEST_FRAME_OF_DATA => []
  | CONNECT =>
      str_of_string "Ping" ++ replicate 261 0%N ++ [4; 1; 0; 0; 0]%N
  | _ => command
  end.

(** A datagram laid out as kind id, length of the payload, payload,
    trailing null. *)
Definition framed_by_payload_length (NAT_command : NAT_Messages)
    (packet : bytes) : Prop :=
  exists kind size payload,
    to_bytes2_signed (NAT_Messages_value NAT_command) = Some kind
    /\ to_bytes2_signed (Z.of_nat (length payload)) = Some size
    /\ packet = kind ++ size ++ payload ++ [x00].

(** The codec class that the version selection policy names for a
    server info: the current one for NatNet 4.1 and later 4.x and for an
    unknown server (major 0), the legacy one otherwise. *)
Definition selected (info : Server_info) : unpacker_ref :=
  if decide ((nat_net_major info = 4 /\ nat_net_minor info >= 1)
             \/ nat_net_major info = 0)
  then V4_1 else V3_0.

(** A computation keeps an observation [f] of the state when it ends,
    by a return or by a raise, in a state where [f] reads as before. *)
Definition keeps {A B} (f : State -> B) (m : M A) : Prop :=
  forall s, f (final (m s)) = f s.

End Vocabulary.

(** ** Sample runs

    Closed states and datagrams for the examples.  They run under
    [failing_unpackers]: none of them reaches a codec call. *)

Section Samples.
#[local] Existing Instance failing_unpackers.

(** A client built with the default arguments in a world where every
    bind succeeds. *)
Definition connected_client : State :=
  final (construct defaults (boot [] [])).

(** A client built in a world where the bind of the command socket
    succeeds and the bind of the data socket fails. *)
Definition unbound_client : State :=
  final (construct defaults (boot [true; false] [])).

(** A client built while the command channel delivers [data] between
    [connect()] and the codec selection that ends [__post_init__]. *)
Definition raced_client (data : bytes) : State :=
  final ((post_init_connect 255 ;;
          process_message data ;;
          update_unpacker_version)
           {| self := allocated defaults; world := boot [] [] |}).

Definition padded (text : string) (width : nat) : bytes :=
  map byte_of_N (ljust (str_of_string text) width 0%N).

(** SERVER_INFO from a server that speaks NatNet 3.0. *)
Definition server_info_3_0 : bytes :=
  [x01; x00; x08; x01] ++ padded "Motive" 256
  ++ [x03; x01; x00; x00] ++ [x03; x00; x00; x00].



(** MODEL_DEF payload with a single entry of type id 99. *)
Definition one_unknown : bytes :=
  [x01; x00; x00; x00; x63; x00; x00; x00].

(** MODEL_DEF payload under the current layout: an entry of type id 99
    with declared size 8, whose body is [99, 0], and an entry of type id
    98 with declared size 0. *)
Definition two_unknown : bytes :=
  [x02; x00; x00; x00]
  ++ [x63; x00; x00; x00; x08; x00; x00; x00]
  ++ [x63; x00; x00; x00; x00; x00; x00; x00]
  ++ [x62; x00; x00; x00; x00; x00; x00; x00].

End Samples.

(** ** Further records and methods

    The name-keyed marker-set collection of [NatNetTypes.py], the
    [buffer_size] property of the client, and the vocabulary of their
    properties. *)

(** [{ instance.name : instance for instance in items }] *)
Definition dict_by_name {A} (key : A -> str) (items : list A) : gmap str A :=
  foldl (fun d instance => <[key instance := instance]> d) ∅ items.

Section MarkerSets.
Context {Position : Type}.

Record Marker_data := {
  marker_data_name : str;
  marker_data_num_markers : Z;
  marker_data_positions : list Position }.

Record Marker_set_data := {
  num_marker_sets : Z;
  marker_sets : list Marker_data;
  marker_sets_d : gmap str Marker_data }.

(** [Marker_set_data(num_marker_sets, marker_sets)] *)
Definition new_Marker_set_data (num : Z) (items : list Marker_data)
  : Marker_set_data :=
  {| num_marker_sets := num;
     marker_sets := items;
     marker_sets_d := dict_by_name marker_data_name items |}.

End MarkerSets.

(** The items of a sequence that carry a given name, in sequence order. *)
Definition with_name {A} (key : A -> str) (name : str) (items : list A)
  : list A :=
  filter (fun instance => key instance = name) items.

Section BufferSize.
Context `{U : Unpackers}.

(** [deque(d, maxlen=n)] *)
Definition rebuilt {A} (d : deque A) (n : Z) : M (deque A) :=
  bound ← deque_maxlen n; mret (new_deque (items d) bound).

(** The getter of the [buffer_size] property. *)
Definition buffer_size (c : NatNetClient) : Z := max_buffer_size c.

(** The setter of the [buffer_size] property: [client.buffer_size = maxlen]. *)
Definition set_buffer_size (maxlen : Z) : M unit :=
  assign (set_max_buffer_size maxlen) ;;
  c ← get;
  messages ← rebuilt (server_messages c) maxlen;
  assign (set_server_messages messages) ;;
  c ← get;
  responses ← rebuilt (server_responses c) maxlen;
  assign (set_server_responses responses).

(** A text without the null character. *)
Definition null_free (text : str) : Prop := 0%N ∉ text.

(** A MESSAGE_STRING datagram that carries [text]: the header with any
    size field, the UTF-8 bytes of the text, a terminator, and whatever
    follows. *)
Definition carries_message (data : bytes) (text : str) : Prop :=
  null_free text
  /\ exists a b encoded rest,
      utf8_encode text = Some encoded
      /\ data = x08 :: x00 :: a :: b :: encoded ++ x00 :: rest.

(** The state once a text has been appended to the message history. *)
Definition messaged (text : str) (s : State) : State :=
  {| self := set_server_messages
               (deque_append (server_messages (self s)) text) (self s);
     world := world s |}.

(** Both histories hold no more entries than their bound. *)
Definition bounded (c : NatNetClient) : Prop :=
  (length (items (server_responses c)) <= maxlen (server_responses c))%nat
  /\ (length (items (server_messages c)) <= maxlen (server_messages c))%nat.

(** Both histories are bounded, with the given bounds. *)
Definition bounded_by (n_responses n_messages : nat) (c : NatNetClient)
  : Prop :=
  bounded c
  /\ maxlen (server_responses c) = n_responses
  /\ maxlen (server_messages c) = n_messages.

(** What a state says of the connection and of the traffic: every
    attribute but the frame, the server info and the two histories, and
    everything in the world but the log. *)
Definition connection_view (s : State) :=
  let c := self s in
  let w := world s in
  (server_address c, local_ip_address c, use_multicast c,
   multicast_address c, command_port c, data_port c,
   (running c, command_socket c, data_socket c, freeze c,
    max_buffer_size c, unpacker c, command_thread c, data_thread c),
   (bind_results w, sendto_results w, next_fd w, closed w, sent w,
    started w, joined w, address_results w, membership_results w)).

(** A computation preserves a property [P] of the client when it ends,
    by a return or by a raise, in a state where [P] holds if it held at the
    start. *)
Definition preserves {A} (P : NatNetClient -> Prop) (m : M A) : Prop :=
  forall s, P (self s) -> P (self (final (m s))).

End BufferSize.

(** A small codec for the examples that need a decode to succeed: a frame
    or a descriptor is the little-endian integer in the first four bytes
    of the buffer, and a shorter buffer is an error. *)
Definition integer_unpacker : DataUnpacker Z Z :=
  let read (data : bytes) : exn + Z * Z :=
    if (length data <? 4)%nat then inl (CodecError 1)
    else inr (from_bytes_signed (take 4 data), 4) in
  {| unpack_mocap_data := read;
     unpack_marker_set_description := read;
     unpack_rigid_body_description := read;
     unpack_skeleton_description := read;
     unpack_force_plate_description := read;
     unpack_device_description := read;
     unpack_camera_description := read;
     unpack_asset_description := read |}.

Definition integer_unpackers : Unpackers :=
  {| MoCap := Z; Descriptor := Z;
     DataUnpackerV3_0 := integer_unpacker;
     DataUnpackerV4_1 := integer_unpacker |}.

(** A client built with the default arguments under [integer_unpackers],
    in a world where every bind succeeds. *)
Definition integer_client : @State integer_unpackers :=
  final (@construct integer_unpackers defaults (boot [] [])).

(** The default arguments with another [max_buffer_size]. *)
Definition with_buffer (n : Z) : arguments :=
  {| arg_server_address := arg_server_address defaults;
     arg_local_ip_address := arg_local_ip_address defaults;
     arg_use_multicast := arg_use_multicast defaults;
     arg_multicast_address := arg_multicast_address defaults;
     arg_command_port := arg_command_port defaults;
     arg_data_port := arg_data_port defaults;
     arg_max_buffer_size := n |}.

(** A connected client whose histories hold two entries at most. *)
Definition small_client : @State failing_unpackers :=
  final (@construct failing_unpackers (with_buffer 2) (boot [] [])).

(** The MESSAGE_STRING datagram for an ASCII text. *)
Definition message_of (text : string) : bytes :=
  [x08; x00; x00; x00] ++ padded text (S (String.length text)).

(** The connected client after [shutdown()]. *)
Definition stopped_client : @State failing_unpackers :=
  final (@shutdown failing_unpackers connected_client).

(** The default arguments with another [data_port]. *)
Definition with_data_port (port : Z) : arguments :=
  {| arg_server_address := arg_server_address defaults;
     arg_local_ip_address := arg_local_ip_address defaults;
     arg_use_multicast := arg_use_multicast defaults;
     arg_multicast_address := arg_multicast_address defaults;
     arg_command_port := arg_command_port defaults;
     arg_data_port := port;
     arg_max_buffer_size := arg_max_buffer_size defaults |}.

(** A world where every bind succeeds and the multicast group cannot be
    joined. *)
Definition groupless : World :=
  {| bind_results := []; sendto_results := []; next_fd := 3;
     closed := []; sent := []; started := []; joined := []; log := [];
     address_results := []; membership_results := [false] |}.

(** A client as [__init__] leaves it, in a world where the first bind will
    succeed and the second will fail. *)
Definition fresh_client : @State failing_unpackers :=
  {| self := @allocated failing_unpackers defaults;
     world := boot [true; false] [] |}.

(** ** Properties of the wire primitives and of the collections *)

Example utf8_roundtrip_sample :
  utf8_decode [x68; xc3; xa9; xe2; x82; xac; xf0; x9f; x98; x80]
  = Some [0x68; 0xE9; 0x20AC; 0x1F600]%N
  /\ utf8_encode [0x68; 0xE9; 0x20AC; 0x1F600]%N
     = Some [x68; xc3; xa9; xe2; x82; xac; xf0; x9f; x98; x80].
Proof. split; reflexivity. Qed.

Example from_bytes_signed_samples :
  from_bytes_signed [x07; x00; x00; x00] = 7
  /\ from_bytes_signed [xff; xff] = -1
  /\ from_bytes_signed [] = 0
  /\ to_bytes2_signed (-2) = Some [xfe; xff]
  /\ to_bytes2_signed 271 = Some [x0f; x01].
Proof. repeat split; reflexivity. Qed.

Example utf8_decode_rejects :
  utf8_decode [xc0; x80] = None
  /\ utf8_decode [xed; xa0; x80] = None
  /\ utf8_decode [xf4; x90; x80; x80] = None
  /\ utf8_decode [xe2; x82] = None
  /\ utf8_decode [xf4; x8f; xbf; xbf] = Some [0x10FFFF%N]
  /\ utf8_encode [0xD800%N] = None.
Proof. repeat split; reflexivity. Qed.

Example slice_samples :
  let x := [x61; x62; x63; x64; x65; x66] in
  slice x (-2) 2 = [] /\ slice x (-10) 3 = [x61; x62; x63]
  /\ slice x 2 100 = [x63; x64; x65; x66] /\ slice x 7 11 = []
  /\ slice_from x (-3) = [x64; x65; x66] /\ slice_to x (-2) = [x61; x62; x63; x64].
Proof. repeat split; reflexivity. Qed.

Section Utf8.

(** Division and remainder by constants, for [lia]. *)
#[local] Ltac Zify.zify_post_hook ::= Z.to_euclidean_division_equations.

Lemma to_N_byte_of_N (n : N) : (n < 256)%N -> Byte.to_N (byte_of_N n) = n.
Proof.
  intros Hn. unfold byte_of_N.
  destruct (Byte.of_N n) as [b|] eqn:Hb.
  - by apply Byte.to_of_N.
  - apply Byte.of_N_None_iff in Hb. lia.
Qed.

Lemma in_range_true lo hi n :
  (lo <= n <= hi)%N -> (n < 256)%N -> in_range lo hi (byte_of_N n) = true.
Proof.
  intros Hr Hn. unfold in_range. rewrite to_N_byte_of_N by assumption.
  apply andb_true_iff; split; apply N.leb_le; lia.
Qed.

Lemma in_range_false lo hi n :
  (n < lo \/ hi < n)%N -> (n < 256)%N -> in_range lo hi (byte_of_N n) = false.
Proof.
  intros Hr Hn. unfold in_range. rewrite to_N_byte_of_N by assumption.
  apply andb_false_iff. destruct Hr; [left|right]; apply N.leb_gt; lia.
Qed.

(** The decoder, one sequence length at a time. *)
Lemma utf8_decode_1 b0 rest :
  in_range 0x00 0x7F b0 = true ->
  utf8_decode (b0 :: rest) = cons (Byte.to_N b0) <$> utf8_decode rest.
Proof. intros H. simpl. by rewrite H. Qed.

Lemma utf8_decode_2 b0 b1 rest :
  in_range 0x00 0x7F b0 = false ->
  in_range 0xC2 0xDF b0 = true ->
  cont b1 = true ->
  utf8_decode (b0 :: b1 :: rest)
  = cons ((Byte.to_N b0 - 0xC0) * 0x40 + low6 b1)%N <$> utf8_decode rest.
Proof.
  intros H1 H2 H3. cbn [utf8_decode]. by rewrite H1, H2, H3.
Qed.

Lemma utf8_decode_3 b0 b1 b2 rest :
  in_range 0x00 0x7F b0 = false ->
  in_range 0xC2 0xDF b0 = false ->
  in_range 0xE0 0xEF b0 = true ->
  (if (Byte.to_N b0 =? 0xE0)%N then in_range 0xA0 0xBF b1
   else if (Byte.to_N b0 =? 0xED)%N then in_range 0x80 0x9F b1
   else cont b1) = true ->
  cont b2 = true ->
  utf8_decode (b0 :: b1 :: b2 :: rest)
  = cons ((Byte.to_N b0 - 0xE0) * 0x1000 + low6 b1 * 0x40 + low6 b2)%N
      <$> utf8_decode rest.
Proof.
  intros H1 H2 H3 H4 H5. cbn [utf8_decode]. by rewrite H1, H2, H3, H4, H5.
Qed.

Lemma utf8_decode_4 b0 b1 b2 b3 rest :
  in_range 0x00 0x7F b0 = false ->
  in_range 0xC2 0xDF b0 = false ->
  in_range 0xE0 0xEF b0 = false ->
  in_range 0xF0 0xF4 b0 = true ->
  (if (Byte.to_N b0 =? 0xF0)%N then in_range 0x90 0xBF b1
   else if (Byte.to_N b0 =? 0xF4)%N then in_range 0x80 0x8F b1
   else cont b1) = true ->
  cont b2 = true ->
  cont b3 = true ->
  utf8_decode (b0 :: b1 :: b2 :: b3 :: rest)
  = cons ((Byte.to_N b0 - 0xF0) * 0x40000 + low6 b1 * 0x1000
          + low6 b2 * 0x40 + low6 b3)%N <$> utf8_decode rest.
Proof.
  intros H1 H2 H3 H4 H5 H6 H7. cbn [utf8_decode].
  by rewrite H1, H2, H3, H4, H5, H6, H7.
Qed.

(** Settles a range test on a byte built from a number. *)
Ltac in_range_tac :=
  unfold cont;
  first [ apply in_range_true; lia | apply in_range_false; lia ].

Lemma utf8_decode_encode_char (c : N) (bs rest : bytes) :
  utf8_encode_char c = Some bs ->
  utf8_decode (bs ++ rest) = cons c <$> utf8_decode rest.
Proof.
  unfold utf8_encode_char.
  destruct (N.ltb_spec c 0x80).
  { intros [= <-]. simpl app. rewrite utf8_decode_1 by in_range_tac.
    by rewrite to_N_byte_of_N by lia. }
  destruct (N.ltb_spec c 0x800).
  { intros [= <-]. simpl app. rewrite utf8_decode_2 by in_range_tac.
    unfold low6. rewrite !to_N_byte_of_N by lia. f_equal. f_equal. lia. }
  destruct (N.ltb_spec c 0x10000).
  { destruct (N.leb_spec 0xD800 c), (N.leb_spec c 0xDFFF); simpl andb;
      cbv iota; try discriminate; intros [= <-]; simpl app.
    all: rewrite utf8_decode_3;
      [unfold low6; rewrite !to_N_byte_of_N by lia; f_equal; f_equal; lia
      |in_range_tac|in_range_tac|in_range_tac| |in_range_tac].
    all: rewrite to_N_byte_of_N by lia;
      destruct (N.eqb_spec (0xE0 + c / 0x1000) 0xE0);
      [|destruct (N.eqb_spec (0xE0 + c / 0x1000) 0xED)]; in_range_tac. }
  destruct (N.ltb_spec c 0x110000); [|discriminate].
  intros [= <-]. simpl app.
  rewrite utf8_decode_4;
    [unfold low6; rewrite !to_N_byte_of_N by lia; f_equal; f_equal; lia
    |in_range_tac|in_range_tac|in_range_tac|in_range_tac| |in_range_tac
    |in_range_tac].
  rewrite to_N_byte_of_N by lia.
  destruct (N.eqb_spec (0xF0 + c / 0x40000) 0xF0);
    [|destruct (N.eqb_spec (0xF0 + c / 0x40000) 0xF4)]; in_range_tac.
Qed.

(** Decoding what [encode] produced gives the string back. *)
Theorem utf8_decode_encode (s : str) (data : bytes) :
  utf8_encode s = Some data -> utf8_decode data = Some s.
Proof.
  revert data; induction s as [|c s IH]; intros data; simpl.
  - by intros [= <-].
  - destruct (utf8_encode_char c) as [bs|] eqn:Hc; [|discriminate].
    destruct (utf8_encode s) as [more|]; [|discriminate].
    intros [= <-]. rewrite (utf8_decode_encode_char _ _ _ Hc).
    by rewrite (IH more eq_refl).
Qed.

End Utf8.

Lemma new_deque_bounded {A} (l : list A) n :
  (length (items (new_deque l n)) <= n)%nat.
Proof. unfold new_deque; simpl. rewrite length_drop. lia. Qed.

Lemma deque_append_last {A} (d : deque A) x :
  maxlen d ≠ 0%nat -> last (items (deque_append d x)) = Some x.
Proof.
  intros Hn. unfold deque_append, new_deque; simpl.
  rewrite length_app; simpl.
  replace (length (items d) + 1 - maxlen d)%nat
    with (length (items d) - (maxlen d - 1))%nat by lia.
  rewrite drop_app_le by lia.
  apply last_snoc.
Qed.

Lemma deque_append_room {A} (d : deque A) x :
  (length (items d) < maxlen d)%nat ->
  items (deque_append d x) = items d ++ [x].
Proof.
  intros Hn. unfold deque_append, new_deque; simpl.
  rewrite length_app; simpl.
  replace (length (items d) + 1 - maxlen d)%nat with 0%nat by lia.
  reflexivity.
Qed.

Section Dictionaries.
Context {A : Type} (key : A -> Z).

Lemma dict_by_snoc (l : list A) (x : A) :
  dict_by key (l ++ [x]) = <[key x := x]> (dict_by key l).
Proof. unfold dict_by. by rewrite foldl_app. Qed.

Lemma with_id_snoc (i : Z) (l : list A) (x : A) :
  with_id key i (l ++ [x])
  = with_id key i l ++ (if decide (key x = i) then [x] else []).
Proof.
  unfold with_id. by rewrite filter_app.
Qed.

(** The entry under an id is the last item of the sequence that carries
    the id. *)
Lemma dict_by_lookup (l : list A) (i : Z) :
  dict_by key l !! i = last (with_id key i l).
Proof.
  induction l as [|x l IH] using rev_ind; [done|].
  rewrite dict_by_snoc, with_id_snoc.
  destruct (decide (key x = i)) as [->|Hne].
  - by rewrite lookup_insert_eq, last_snoc.
  - by rewrite lookup_insert_ne, app_nil_r.
Qed.

Lemma dict_by_dom (l : list A) :
  dom (dict_by key l) = (list_to_set (key <$> l) : gset Z).
Proof.
  induction l as [|x l IH] using rev_ind.
  - unfold dict_by; simpl. apply dom_empty_L.
  - rewrite dict_by_snoc, dom_insert_L, IH, fmap_app, list_to_set_app_L.
    simpl. rewrite (right_id_L ∅ (∪)). apply (comm_L (∪)).
Qed.

(** One entry per distinct id. *)
Lemma dict_by_size (l : list A) :
  size (dict_by key l) = length (remove_dups (key <$> l)).
Proof.
  rewrite <- (size_dom (D := gset Z)), dict_by_dom.
  rewrite <- (size_list_to_set (C := gset Z) (remove_dups (key <$> l)))
    by apply NoDup_remove_dups.
  f_equal. apply set_eq. intros z.
  rewrite !elem_of_list_to_set, elem_of_remove_dups. reflexivity.
Qed.

End Dictionaries.

Lemma dict_by_derived {A} (key : A -> Z) (items : list A) :
  derived_from key items (dict_by key items).
Proof. split; [intros i; apply dict_by_lookup|apply dict_by_size]. Qed.

(** C7.  For every constructed collection record, each id-keyed dictionary
    is derived from the backing sequence of the record: the entry under an
    id is the last item of the sequence with that id, and the dictionary
    has exactly one entry per distinct id.  This holds for the rigid-body
    and labeled-marker collections and for every other record with an
    id-keyed dictionary (skeleton, asset, asset collection, force-plate and
    device collections, and the rigid-body, skeleton and asset
    descriptions). *)
Theorem id_map_consistent {float Position Quaternion : Type} :
  (forall num (items : list (Rigid_body float Position Quaternion)),
      let r := new_Rigid_body_data num items in
      rigid_bodies r = items
      /\ derived_from rigid_body_id (rigid_bodies r) (rigid_bodies_d r))
  /\ (forall num (items : list (Labeled_marker float Position)),
        let r := new_Labeled_marker_data num items in
        markers r = items
        /\ derived_from labeled_marker_id (markers r) (markers_d r))
  /\ (forall num (items : list (Rigid_body float Position Quaternion)),
        let r := new_Skeleton num items in
        derived_from rigid_body_id
          (skeleton_rigid_bodies r) (skeleton_rigid_bodies_d r))
  /\ (forall id n1 (bodies : list (@Asset_RB float Position Quaternion))
             n2 (marks : list (@Asset_marker float Position)),
        let r := new_Asset id n1 bodies n2 marks in
        derived_from asset_rb_id
          (asset_rigid_bodies r) (asset_rigid_bodies_d r)
        /\ derived_from asset_marker_id (asset_markers r) (asset_markers_d r))
  /\ (forall num (items : list (@Asset float Position Quaternion)),
        let r := new_Asset_data num items in
        derived_from asset_id (assets r) (assets_d r))
  /\ (forall num (items : list (@Force_plate float)),
        let r := new_Force_plate_data num items in
        derived_from force_plate_id (force_plates r) (force_plates_d r))
  /\ (forall num (items : list (@Device float)),
        let r := new_Device_data num items in
        derived_from device_id (devices r) (devices_d r))
  /\ (forall name id parent pos num (items : list (@RB_marker Position)),
        let r := new_Rigid_body_description name id parent pos num items in
        derived_from rb_marker_id
          (rigid_body_description_markers r)
          (rigid_body_description_markers_d r))
  /\ (forall name id num (items : list (@Rigid_body_description Position)),
        let r := new_Skeleton_description name id num items in
        derived_from rigid_body_description_id
          (skeleton_description_rigid_bodies r)
          (skeleton_description_rigid_bodies_d r))
  /\ (forall name type id n1 (bodies : list (@Rigid_body_description Position))
             n2 (marks : list (@Marker_description float Position)),
        let r := new_Asset_description name type id n1 bodies n2 marks in
        derived_from rigid_body_description_id
          (asset_description_rigid_bodies r)
          (asset_description_rigid_bodies_d r)).
Proof.
  repeat apply conj; intros; subst r; simpl; repeat apply conj;
    first [reflexivity | apply dict_by_derived].
Qed.

(** Ids [5, 2, 2, 7]: three entries, and the entry for id 2 is the later of
    the two records. *)
Example id_map_5_2_2_7 :
  let body i e : Rigid_body Z unit unit :=
    {| rigid_body_id := i; rigid_body_pos := tt; rigid_body_rot := tt;
       rigid_body_err := e; rigid_body_tracking := true |} in
  let r := new_Rigid_body_data 4 [body 5 10; body 2 20; body 2 30; body 7 40] in
  size (rigid_bodies_d r) = 3%nat
  /\ rigid_bodies_d r !! 2 = Some (body 2 30)
  /\ rigid_bodies_d r !! 5 = Some (body 5 10)
  /\ rigid_bodies_d r !! 3 = None.
Proof.
  simpl. rewrite dict_by_size. rewrite !dict_by_lookup. repeat split.
Qed.

(** ** Properties of the client *)

Lemma before_null_length (data : bytes) :
  (length (before_null data) <= length data)%nat.
Proof.
  induction data as [|b rest IH]; simpl; [lia|].
  destruct (Byte.eqb b x00); simpl; lia.
Qed.

Lemma before_null_take (n : nat) (data : bytes) :
  before_null (take n data) = take n (before_null data).
Proof.
  revert n; induction data as [|b rest IH]; intros [|n]; simpl; try reflexivity.
  destruct (Byte.eqb b x00); simpl; [reflexivity|]. by rewrite <- IH.
Qed.

(** Cutting the buffer at 256 bytes before looking for the terminator cuts
    the text at 256 bytes. *)
Lemma before_null_slice_to (data : bytes) :
  before_null (slice_to data 256)
  = take (Nat.min 256 (length data)) (before_null data).
Proof.
  unfold slice_to, clamp.
  change (256 <? 0) with false; cbv iota.
  rewrite before_null_take. f_equal. lia.
Qed.

(** The header of a datagram of at least four bytes and the payload that
    follows it, as the dispatcher slices them. *)
Lemma header_slices (a b c d : byte) (payload : bytes) :
  let data := a :: b :: c :: d :: payload in
  slice data 0 2 = [a; b] /\ slice data 2 4 = [c; d]
  /\ slice_from data 4 = payload.
Proof.
  unfold slice, slice_from, clamp; simpl length.
  change (0 <? 0) with false; change (2 <? 0) with false;
    change (4 <? 0) with false; cbv iota.
  replace (Z.min 0 _) with 0 by lia.
  replace (Z.min 2 _) with 2 by lia.
  replace (Z.min 4 _) with 4 by lia.
  repeat split.
Qed.

(** Unfolding of the monad. *)
Ltac run :=
  unfold mbind, M_bind, bind, mret, M_ret, ret, raise, get, assign, os, lift;
  simpl.

(** Runs a computation forward through the tests that the hypotheses
    decide. *)
Ltac answered :=
  repeat match goal with H : ?a = ?a |- _ => clear H end;
  repeat
    (simpl;
     match goal with
     | H : ?x ∉ ?l |- context [bool_decide (?x ∈ ?l)] =>
         rewrite (bool_decide_eq_false_2 _ H)
     | H : ?x = true |- context [?x] => rewrite H
     | H : ?x = false |- context [?x] => rewrite H
     | H : ?x = Some _ |- context [?x] => rewrite H
     end);
  simpl.

Lemma is_port_true (n : Z) : 0 <= n <= 65535 -> is_port n = true.
Proof.
  intros H. unfold is_port. apply andb_true_intro; split; apply Z.leb_le; lia.
Qed.

Lemma is_port_false (n : Z) : ~ 0 <= n <= 65535 -> is_port n = false.
Proof.
  intros H. unfold is_port.
  destruct (Z.leb_spec 0 n); destruct (Z.leb_spec n 65535); simpl;
    try reflexivity; lia.
Qed.

Lemma fits_int_true (n : Z) :
  -2147483648 <= n <= 2147483647 -> fits_int n = true.
Proof.
  intros H. unfold fits_int.
  apply andb_true_intro; split; apply Z.leb_le; lia.
Qed.

(** ASCII text encodes as UTF-8. *)
Lemma utf8_encode_ascii (text : str) :
  is_ascii text = true -> is_Some (utf8_encode text).
Proof.
  induction text as [|ch text IH]; simpl; [by eexists|].
  intros [Hch Htext]%andb_true_iff. destruct (IH Htext) as [more ->].
  unfold utf8_encode_char.
  replace (ch <? 0x80)%N with true by (symmetry; exact Hch).
  by eexists.
Qed.

Section Properties.
Context `{U : Unpackers}.

Lemma bind_Return {A B} (m : M A) (k : A -> M B) s a s' :
  m s = Return a s' -> (m ≫= k) s = k a s'.
Proof. intros H. run. by rewrite H. Qed.

Lemma bind_Raise {A B} (m : M A) (k : A -> M B) s e s' :
  m s = Raise e s' -> (m ≫= k) s = Raise e s'.
Proof. intros H. run. by rewrite H. Qed.

Lemma logging_logged (r : log_record) (s : State) :
  logging r s = Return tt (logged r s).
Proof. reflexivity. Qed.

(** C4.  A RESPONSE whose declared size is exactly 4 appends the payload,
    read as a little-endian signed integer, to the response history, in
    the handler and through the dispatcher (payload bytes [7,0,0,0] read
    as 7).  With any other declared size the payload is read as a
    null-terminated string, the terminator being looked for in the first
    256 bytes.  When the string is shorter than 30 bytes and decodes as
    UTF-8 it is appended; when it is shorter than 30 bytes and does not
    decode, the handler raises [UnicodeDecodeError] and the state is as it
    was; when it has 30 bytes or more nothing is appended and the state is
    as it was.  Appending leaves in the history the last [maxlen] of its
    earlier entries followed by the new one: the earlier entries and the
    new one when there was room, and in any case the new one last unless
    the bound is zero. *)
Theorem response_recorded (data : bytes) (packet_size : Z) (s : State) :
  let text := before_null data in
  let history := server_responses (self s) in
  let appended r :=
    {| items := drop (length (items history ++ [r]) - maxlen history)
                  (items history ++ [r]);
       maxlen := maxlen history |} in
  let recorded r :=
    {| self := set_server_responses (appended r) (self s);
       world := world s |} in
  (packet_size = 4 ->
     unpack_server_response data packet_size s
     = Return 4 (recorded (IntResponse (from_bytes_signed data))))
  /\ (packet_size <> 4 -> (length text < 30)%nat ->
      forall t, utf8_decode text = Some t ->
      unpack_server_response data packet_size s
      = Return (Z.of_nat (length text)) (recorded (StrResponse t)))
  /\ (packet_size <> 4 -> (length text < 30)%nat ->
      utf8_decode text = None ->
      unpack_server_response data packet_size s = Raise UnicodeDecodeError s)
  /\ (packet_size <> 4 -> (30 <= length text)%nat ->
      unpack_server_response data packet_size s
      = Return (Z.of_nat (Nat.min 256 (length text))) s)
  /\ (forall payload,
        process_message ([x03; x00; x04; x00] ++ payload) s
        = Return tt (recorded (IntResponse (from_bytes_signed payload))))
  /\ (forall r, (length (items history) < maxlen history)%nat ->
        items (appended r) = items history ++ [r])
  /\ (forall r, maxlen history <> 0%nat -> last (items (appended r)) = Some r)
  /\ from_bytes_signed [x07; x00; x00; x00] = 7.
Proof.
  intros text history appended recorded; subst text history appended recorded.
  pose proof (before_null_length data) as Hlen.
  split; [|split; [|split; [|split; [|split; [|split; [|split]]]]]].
  - intros ->. reflexivity.
  - intros Hps Hshort t Ht. unfold unpack_server_response.
    rewrite bool_decide_eq_false_2 by assumption.
    rewrite before_null_slice_to.
    rewrite take_ge by lia.
    rewrite bool_decide_eq_true_2 by lia.
    run. rewrite Ht. reflexivity.
  - intros Hps Hshort Ht. unfold unpack_server_response.
    rewrite bool_decide_eq_false_2 by assumption.
    rewrite before_null_slice_to.
    rewrite take_ge by lia.
    rewrite bool_decide_eq_true_2 by lia.
    run. rewrite Ht. reflexivity.
  - intros Hps Hlong. unfold unpack_server_response.
    rewrite bool_decide_eq_false_2 by assumption.
    rewrite before_null_slice_to.
    rewrite bool_decide_eq_false_2 by (rewrite length_take; lia).
    rewrite length_take.
    replace (Nat.min (Nat.min 256 (length data)) (length (before_null data)))
      with (Nat.min 256 (length (before_null data))) by lia.
    generalize (Nat.min 256 (length (before_null data))). intros n.
    run. destruct s; reflexivity.
  - intros payload. simpl app. unfold process_message, get_message_id.
    destruct (header_slices x03 x00 x04 x00 payload) as (-> & -> & ->).
    reflexivity.
  - intros r Hroom.
    exact (deque_append_room (server_responses (self s)) r Hroom).
  - intros r Hbound.
    exact (deque_append_last (server_responses (self s)) r Hbound).
  - reflexivity.
Qed.

(** *** Requests *)

Lemma request_body_carried (NAT_command : NAT_Messages) (command : str) :
  request_body NAT_command command
  = (carried NAT_command command, declared_size NAT_command command).
Proof. destruct NAT_command; reflexivity. Qed.

Lemma declared_size_nonneg (NAT_command : NAT_Messages) (command : str) :
  0 <= declared_size NAT_command command.
Proof. destruct NAT_command; unfold declared_size, len; lia. Qed.

(** Assembling a datagram reads nothing and writes nothing. *)
Lemma request_packet_pure (NAT_command : NAT_Messages) (command : str) s :
  final (request_packet NAT_command command s) = s.
Proof.
  unfold request_packet. destruct (request_body _ _) as [text size].
  run.
  destruct (to_bytes2_signed (NAT_Messages_value _)); simpl; [|reflexivity].
  destruct (to_bytes2_signed size); simpl; [|reflexivity].
  destruct (utf8_encode text); reflexivity.
Qed.

(** C8 (amended).  A request is laid out as the 2-byte signed
    little-endian message-kind id, a 2-byte signed little-endian size
    field, the UTF-8 text it carries, and a trailing null byte.  The size
    field holds the length of the command in characters plus one for
    REQUEST, 271 for CONNECT and 0 for every other kind.  The text of
    CONNECT is the tag Ping padded with null bytes to 265 characters, the
    four client-version bytes 4, 1, 0, 0 and a null terminator; KEEP_ALIVE
    encodes to the header bytes [10,0,0,0], no text, and the trailing
    null. *)
Theorem request_packet_layout :
  (forall NAT_command command payload (s : State),
      NAT_command <> UNDEFINED ->
      declared_size NAT_command command <= 32767 ->
      utf8_encode (carried NAT_command command) = Some payload ->
      exists kind size,
        to_bytes2_signed (NAT_Messages_value NAT_command) = Some kind
        /\ to_bytes2_signed (declared_size NAT_command command) = Some size
        /\ request_packet NAT_command command s
           = Return (kind ++ size ++ payload ++ [x00]) s)
  /\ (forall command (s : State),
        request_packet CONNECT command s
        = Return ([x00; x00] ++ [x0f; x01]
                  ++ ([x50; x69; x6e; x67] ++ replicate 261 x00
                      ++ [x04; x01; x00; x00] ++ [x00])
                  ++ [x00]) s)
  /\ (forall command (s : State),
        request_packet KEEP_ALIVE command s
        = Return ([x0a; x00] ++ [x00; x00] ++ [] ++ [x00]) s).
Proof.
  split; [|split].
  - intros k command payload s Hk Hsize Hpayload.
    pose proof (declared_size_nonneg k command) as Hpos.
    assert (exists kind, to_bytes2_signed (NAT_Messages_value k) = Some kind)
      as [kind Hkind]
      by (destruct k; try congruence; eexists; reflexivity).
    assert (to_bytes2_signed (declared_size k command)
            = Some [byte_of_Z (declared_size k command);
                    byte_of_Z (declared_size k command / 256)]) as Hsz.
    { unfold to_bytes2_signed.
      destruct (Z.leb_spec (-32768) (declared_size k command)); [|lia].
      destruct (Z.leb_spec (declared_size k command) 32767); [|lia].
      reflexivity. }
    exists kind, [byte_of_Z (declared_size k command);
                  byte_of_Z (declared_size k command / 256)].
    split; [assumption|]. split; [assumption|].
    unfold request_packet. rewrite request_body_carried.
    run. rewrite Hkind; simpl. rewrite Hsz; simpl. rewrite Hpayload.
    reflexivity.
  - intros command s. vm_compute. reflexivity.
  - intros command s. reflexivity.
Qed.

(** On a connected client whose command socket exists, a request that
    the world accepts leaves as one datagram to the server's command
    port, and its size is returned. *)
Lemma send_request_accepted NAT_command command packet sock (s : State) :
  running (self s) = true ->
  NAT_command <> UNDEFINED ->
  command_socket (self s) = Some sock ->
  request_packet NAT_command command s = Return packet s ->
  next_answer (sendto_results (world s)) = true ->
  send_request NAT_command command s
  = Return (Z.of_nat (length packet))
      (answered [(packet, (server_address (self s), command_port (self s)))] s).
Proof.
  intros Hrun Hk Hsock Hpacket Hanswer. unfold send_request.
  run. rewrite Hrun. rewrite bool_decide_eq_false_2 by assumption. simpl.
  rewrite Hpacket. rewrite Hsock. unfold sendto. rewrite Hanswer.
  reflexivity.
Qed.

(** A socket error raised by [sendto] leaves [send_request] as it was
    raised. *)
Lemma send_request_refused NAT_command command packet sock (s : State) :
  running (self s) = true ->
  NAT_command <> UNDEFINED ->
  command_socket (self s) = Some sock ->
  request_packet NAT_command command s = Return packet s ->
  next_answer (sendto_results (world s)) = false ->
  send_request NAT_command command s = Raise OSError (answered [] s).
Proof.
  intros Hrun Hk Hsock Hpacket Hanswer. unfold send_request.
  run. rewrite Hrun. rewrite bool_decide_eq_false_2 by assumption. simpl.
  rewrite Hpacket. rewrite Hsock. unfold sendto. rewrite Hanswer.
  unfold answered. rewrite app_nil_r. reflexivity.
Qed.

Lemma send_request_disconnected NAT_command command (s : State) :
  running (self s) = false ->
  send_request NAT_command command s = Return (-1) s.
Proof.
  intros Hrun. unfold send_request. run. rewrite Hrun. simpl.
  destruct s; reflexivity.
Qed.

(** Attempts on a client that is not connected all return -1. *)
Lemma send_command_attempts_disconnected n command (s : State) :
  running (self s) = false ->
  send_command_attempts n command (-1) s = Return (-1) s.
Proof.
  intros Hrun. induction n as [|n IH]; simpl; [reflexivity|].
  rewrite (bind_Return _ _ _ _ _ (send_request_disconnected _ _ _ Hrun)).
  rewrite bool_decide_eq_false_2 by lia. exact IH.
Qed.

(** C6 (amended).  [send_command] returns failure without sending when
    the client is not connected.  On a connected client it reports
    success as soon as a send attempt succeeds, which the first attempt
    does when the world accepts the datagram.  A socket error raised by
    the send is not caught and not retried: it propagates to the caller
    from the first attempt, with nothing sent.  (The three attempts only
    repeat a send that returned -1.) *)
Theorem send_command_outcomes (command : str) (s : State) :
  (running (self s) = false -> send_command command s = Return false s)
  /\ (forall sock packet,
        running (self s) = true ->
        command_socket (self s) = Some sock ->
        request_packet REQUEST command s = Return packet s ->
        next_answer (sendto_results (world s)) = true ->
        send_command command s
        = Return true
            (answered
               [(packet, (server_address (self s), command_port (self s)))]
               s))
  /\ (forall sock packet,
        running (self s) = true ->
        command_socket (self s) = Some sock ->
        request_packet REQUEST command s = Return packet s ->
        next_answer (sendto_results (world s)) = false ->
        send_command command s = Raise OSError (answered [] s)).
Proof.
  split; [|split].
  - intros Hrun. unfold send_command.
    rewrite (bind_Return _ _ _ _ _ (send_command_attempts_disconnected 3 _ _ Hrun)).
    reflexivity.
  - intros sock packet Hrun Hsock Hpacket Hanswer.
    assert (send_request REQUEST command s
            = Return (Z.of_nat (length packet))
                (answered
                   [(packet, (server_address (self s), command_port (self s)))]
                   s)) as Hsend
      by (eapply send_request_accepted; eauto; discriminate).
    unfold send_command, send_command_attempts. run. rewrite Hsend.
    rewrite !bool_decide_eq_true_2 by lia. reflexivity.
  - intros sock packet Hrun Hsock Hpacket Hanswer.
    assert (send_request REQUEST command s = Raise OSError (answered [] s))
      as Hsend by (eapply send_request_refused; eauto; discriminate).
    unfold send_command, send_command_attempts. run. rewrite Hsend.
    reflexivity.
Qed.

(** *** Framing *)

Lemma keeps_ret {A B} (f : State -> B) (a : A) : keeps f (mret a).
Proof. intros s. reflexivity. Qed.

Lemma keeps_raise {A B} (f : State -> B) (e : exn) : keeps f (@raise _ A e).
Proof. intros s. reflexivity. Qed.

Lemma keeps_get {B} (f : State -> B) : keeps f get.
Proof. intros s. reflexivity. Qed.

Lemma keeps_lift {A B} (f : State -> B) (e : exn) (o : option A) :
  keeps f (lift e o).
Proof. intros s. destruct o; reflexivity. Qed.

Lemma keeps_bind {A A' B} (f : State -> B) (m : M A) (k : A -> M A') :
  keeps f m -> (forall a, keeps f (k a)) -> keeps f (m ≫= k).
Proof.
  intros Hm Hk s. specialize (Hm s). run.
  destruct (m s) as [a s'|e s']; simpl in *; [|assumption].
  rewrite <- Hm. apply Hk.
Qed.

Lemma keeps_self_os (g : World -> World) : keeps self (os g).
Proof. intros s. reflexivity. Qed.

Lemma keeps_self_logging (r : log_record) : keeps self (logging r).
Proof. intros s. reflexivity. Qed.

Lemma keeps_self_get_unpacker : keeps self get_unpacker.
Proof. apply keeps_bind; [apply keeps_get|intros c; apply keeps_lift]. Qed.

(** Decoding a descriptor set writes no attribute of the client. *)
Lemma keeps_self_unpack_descriptions n data offset :
  keeps self (unpack_descriptions n data offset).
Proof.
  revert offset; induction n as [|n IH]; intros offset; simpl.
  - apply keeps_ret.
  - apply keeps_bind; [apply keeps_self_get_unpacker|intros r].
    destruct (bool_decide (r = V4_1));
      (destruct (bool_decide (NAT_Data_of _ = UNDEFINED_DATA));
       [apply keeps_bind; [apply keeps_self_logging|intros _; apply IH]
       |apply keeps_bind; [apply keeps_lift|intros unpack];
        destruct (unpack _) as [e|[d tmp_offset]];
        [apply keeps_raise|apply IH]]).
Qed.

(** *** Dispatcher and receive loops *)




(** C5 (amended).  In a descriptor set, an entry whose type id is not
    recognised is logged and passed over without failing the decode,
    under the legacy layout as under the current one: the decode goes on
    with the entries that remain.  Under the legacy layout the cursor has
    then moved past the 4-byte type id. *)
Theorem unrecognized_description_passed_over
    (r : unpacker_ref) (n : nat) (data : bytes) (offset : Z) (s : State) :
  let t := from_bytes_signed (slice data offset (offset + 4)) in
  unpacker (self s) = Some r ->
  NAT_Data_of t = UNDEFINED_DATA ->
  exists offset',
    (r = V3_0 -> offset' = offset + 4)
    /\ unpack_descriptions (S n) data offset s
       = unpack_descriptions n data offset'
           (logged (ErrorUndefinedDescription t) s).
Proof.
  intros t Hr Ht.
  exists (if bool_decide (r = V4_1) then offset + 4 + 4 else offset + 4).
  split.
  - intros ->. reflexivity.
  - simpl. unfold get_unpacker. run. rewrite Hr. simpl.
    fold t. rewrite Ht.
    destruct (bool_decide (r = V4_1)); simpl; destruct s; reflexivity.
Qed.

(** *** Codec selection *)

(** [__update_unpacker_version], when it is called, installs the class
    that the policy names for the current server info. *)
Lemma update_unpacker_version_selects (s : State) :
  update_unpacker_version s
  = Return tt {| self := set_unpacker (Some (selected (server_info (self s))))
                           (self s);
                 world := world s |}.
Proof.
  unfold update_unpacker_version, selected. run.
  destruct s as [c w]; destruct c as [? ? ? ? ? ? ? ? ? ? ? ? ? ? info ? ? ?].
  simpl.
  destruct (decide _) as [[[H4 H1]|H0]|Hno].
  - rewrite (bool_decide_eq_true_2 _ H4), (bool_decide_eq_true_2 _ H1).
    reflexivity.
  - rewrite (bool_decide_eq_true_2 _ H0), orb_true_r. reflexivity.
  - destruct (bool_decide_reflect (nat_net_major info = 4));
      destruct (bool_decide_reflect (nat_net_minor info >= 1));
      destruct (bool_decide_reflect (nat_net_major info = 0));
      simpl; solve [reflexivity | exfalso; apply Hno; auto].
Qed.

(** Decoding a SERVER_INFO message replaces the server info and leaves
    the codec attribute as it was. *)
Lemma unpack_server_info_keeps_unpacker data packet_size :
  keeps (fun s => unpacker (self s)) (unpack_server_info data packet_size).
Proof.
  intros s. unfold unpack_server_info. run.
  destruct (utf8_decode _); simpl; [|reflexivity].
  destruct (struct_unpack_BBBB (slice data 256 260)); simpl; [|reflexivity].
  destruct (struct_unpack_BBBB (slice data 260 264))
    as [[[[major minor] r1] r2]|]; simpl; [|reflexivity].
  destruct s as [c w]; destruct c; reflexivity.
Qed.

Lemma unpack_server_info_replaces data packet_size name version
    major minor r1 r2 (s : State) :
  utf8_decode (before_null (slice data 0 256)) = Some name ->
  struct_unpack_BBBB (slice data 256 260) = Some version ->
  struct_unpack_BBBB (slice data 260 264) = Some (major, minor, r1, r2) ->
  unpack_server_info data packet_size s
  = Return 264
      {| self := set_server_info
                   {| application_name := name; version := version;
                      nat_net_major := major; nat_net_minor := minor |}
                   (self s);
         world := world s |}.
Proof.
  intros Hname Hversion Hnat. unfold unpack_server_info. run.
  rewrite Hname; simpl. rewrite Hversion; simpl. rewrite Hnat; simpl.
  reflexivity.
Qed.

(** *** Attribute guard *)

Lemma configure_unfrozen (x : setting) (s : State) :
  freeze (self s) = false ->
  configure x s = Return tt {| self := store x (self s); world := world s |}.
Proof.
  intros Hfreeze. unfold configure, setattr. run. rewrite Hfreeze.
  reflexivity.
Qed.

(** The guard of [__setattr__] does refuse the six fields once the flag
    is set. *)
Lemma configure_frozen (x : setting) (s : State) :
  freeze (self s) = true ->
  configure x s = Raise FrozenInstanceError s.
Proof.
  intros Hfreeze. unfold configure, setattr. run. rewrite Hfreeze.
  destruct x; destruct s; reflexivity.
Qed.

(** *** Construction and connection *)

(** Splits a framing goal along the structure of the computation; the
    steps that are left read or write the state directly. *)
Ltac frame :=
  repeat first
    [ apply keeps_ret | apply keeps_raise | apply keeps_get
    | apply keeps_lift
    | apply keeps_bind; [|intros ?]
    | match goal with
      | |- keeps _ (if ?b then _ else _) => destruct b
      | |- keeps _ (match ?x with _ => _ end) => destruct x
      end
    | (intros [[] ?]; unfold sendto; simpl;
       try destruct (next_answer _); reflexivity) ].

Lemma keeps_freeze_send_request NAT_command command :
  keeps (fun s => freeze (self s)) (send_request NAT_command command).
Proof. unfold send_request, request_packet. frame. Qed.

(** No step of [connect()] writes the flag that the attribute guard
    reads. *)
Lemma keeps_freeze_connect : keeps (fun s => freeze (self s)) connect.
Proof.
  unfold connect, create_command_socket, create_data_socket, create_socket,
    socket_bind, bind_address, host_name, add_membership, inet_aton.
  frame; apply keeps_freeze_send_request.
Qed.

Lemma keeps_freeze_post_init n :
  keeps (fun s => freeze (self s)) (post_init n).
Proof.
  pose proof keeps_freeze_connect as Hconnect.
  unfold post_init, post_init_connect, empty_deque, deque_maxlen,
    update_unpacker_version.
  set (k := connect) in *. clearbody k.
  frame; exact Hconnect.
Qed.

(** However construction goes, the guard flag of the new client is
    unset. *)
Lemma construct_unfrozen (a : arguments) (w : World) :
  freeze (self (final (construct a w))) = false.
Proof.
  unfold construct.
  exact (keeps_freeze_post_init _ {| self := allocated a; world := w |}).
Qed.

Lemma keeps_sent_create_command_socket :
  keeps (fun s => (running (self s), sent (world s))) create_command_socket.
Proof.
  unfold create_command_socket, create_socket, socket_bind, bind_address,
    host_name.
  frame.
Qed.

Lemma keeps_sent_create_data_socket :
  keeps (fun s => (running (self s), sent (world s))) create_data_socket.
Proof.
  unfold create_data_socket, create_socket, socket_bind, bind_address,
    host_name, add_membership, inet_aton.
  frame.
Qed.

(** [connect()] hands no datagram to the network: its one call of
    [send_request] comes while the client is still marked as not
    running. *)
Lemma connect_sends_nothing (s : State) :
  sent (world (final (connect s))) = sent (world s).
Proof.
  unfold connect. run.
  destruct (running (self s)) eqn:Hrun; [reflexivity|].
  pose proof (keeps_sent_create_command_socket s) as H1. simpl in H1.
  destruct (create_command_socket s) as [[] s1|e s1]; simpl in *;
    try (injection H1 as _ H1; exact H1).
  pose proof (keeps_sent_create_data_socket s1) as H2. simpl in H2.
  destruct (create_data_socket s1) as [[] s2|e s2]; simpl in *;
    try (injection H2 as _ H2; congruence).
  rewrite send_request_disconnected; simpl; congruence.
Qed.

Lemma construct_sends_nothing (a : arguments) (w : World) :
  sent (world (final (construct a w))) = sent w.
Proof.
  unfold construct, post_init, post_init_connect, empty_deque, deque_maxlen.
  run.
  destruct (_ || _); simpl; [reflexivity|].
  destruct (arg_max_buffer_size a <? 0); simpl; [reflexivity|].
  match goal with |- context [connect ?s0] =>
    pose proof (connect_sends_nothing s0) as Hc;
    destruct (connect s0) as [[] s1|e s1] end; simpl in *; [|exact Hc].
  rewrite update_unpacker_version_selects. exact Hc.
Qed.

(** [connect()] on a connected client does nothing. *)
Lemma connect_when_connected (s : State) :
  running (self s) = true -> connect s = Return tt s.
Proof.
  intros Hrun. unfold connect. run. rewrite Hrun. destruct s; reflexivity.
Qed.

(** A bind refused with [socket.error], on the command socket or on the
    data socket, ends [connect()] early: the client stays disconnected and
    no thread handle is created or started.  (The arguments are such that
    the socket layer converts them: the local address is ASCII without a
    null character and the data port of multicast mode fits a C [int].) *)
Lemma connect_bind_failure (s : State) :
  running (self s) = false ->
  is_ascii (local_ip_address (self s)) = true ->
  0%N ∉ local_ip_address (self s) ->
  (use_multicast (self s) = true -> fits_int (data_port (self s)) = true) ->
  next_answer (bind_results (world s)) = false
  \/ next_answer (tail (bind_results (world s))) = false ->
  exists s',
    connect s = Return tt s'
    /\ running (self s') = false
    /\ started (world s') = started (world s)
    /\ command_thread (self s') = command_thread (self s)
    /\ data_thread (self s') = data_thread (self s).
Proof.
  intros Hrun Hascii Hnull Hfits Hbind.
  destruct s as [c w]; destruct c;
    destruct w as [binds ? ? ? ? ? ? ? ? ?].
  simpl in *; subst.
  unfold connect, create_command_socket, create_data_socket, create_socket,
    socket_bind, bind_address, host_name, logging, close.
  run.
  destruct use_multicast0; [specialize (Hfits eq_refl)|clear Hfits];
    (destruct binds as [|[] [|[] binds]]; simpl in *;
     try (destruct Hbind; discriminate);
     answered;
     eexists; (split; [reflexivity|]); repeat split).
Qed.

(** *** Shutdown *)

(** On a connected client, [shutdown()] clears the running flag, closes
    the two sockets, forgets them and joins the two threads.  A second call
    completes as well: it closes nothing more and leaves every attribute
    as the first call left it. *)
Lemma shutdown_started (s : State) sc sd t1 t2 :
  command_socket (self s) = Some sc ->
  data_socket (self s) = Some sd ->
  data_thread (self s) = Some t1 ->
  command_thread (self s) = Some t2 ->
  exists s',
    shutdown s = Return tt s'
    /\ running (self s') = false
    /\ command_socket (self s') = None
    /\ data_socket (self s') = None
    /\ closed (world s') = closed (world s) ++ [fd sc; fd sd]
    /\ joined (world s') = joined (world s) ++ [t1; t2]
    /\ exists s'',
        shutdown s' = Return tt s''
        /\ self s'' = self s'
        /\ closed (world s'') = closed (world s').
Proof.
  intros Hc Hd H1 H2.
  destruct s as [c w]; destruct c; simpl in *; subst.
  unfold shutdown. run.
  eexists; split; [reflexivity|]; simpl.
  rewrite <- !app_assoc.
  repeat split; eexists; split; [reflexivity|]; split; reflexivity.
Qed.

(** On a client whose threads were never started, [shutdown()] raises
    when it reaches the first join. *)
Lemma shutdown_not_started (s : State) :
  data_thread (self s) = None ->
  exists s',
    shutdown s = Raise (AttributeError "_NatNetClient__data_thread") s'.
Proof.
  intros H1. destruct s as [c w]; destruct c; simpl in *; subst.
  unfold shutdown. run.
  destruct command_socket0, data_socket0; simpl; eexists; reflexivity.
Qed.

End Properties.

(** ** Runs on concrete clients *)

Section Runs.
#[local] Existing Instance failing_unpackers.

(** C1.  The codec selection is not run again when a SERVER_INFO message
    is decoded.  The client built with the defaults holds the current
    codec; after it decodes the SERVER_INFO of a NatNet 3.0 server its
    server info reads 3.0, for which the policy names the legacy codec,
    and its codec attribute is still the current one. *)
Theorem server_info_does_not_reselect :
  unpacker (self connected_client) = Some V4_1
  /\ exists s,
      process_message server_info_3_0 connected_client = Return tt s
      /\ nat_net_major (server_info (self s)) = 3
      /\ nat_net_minor (server_info (self s)) = 0
      /\ selected (server_info (self s)) = V3_0
      /\ unpacker (self s) = Some V4_1.
Proof.
  split; [reflexivity|].
  eexists. split; [vm_compute; reflexivity|].
  vm_compute. repeat split.
Qed.

(** C2.  After a construction whose [connect()] succeeded, an assignment
    to any of the six connection-configuration fields goes through: no
    error is raised and the field holds the new value.  The same
    assignments go through on a client that is not connected. *)
Theorem configuration_stays_mutable :
  connected (self connected_client) = true
  /\ (forall x : setting,
        configure x connected_client
        = Return tt {| self := store x (self connected_client);
                       world := world connected_client |})
  /\ data_port (store (Data_port 2000) (self connected_client)) = 2000
  /\ connected (self unbound_client) = false
  /\ (forall x : setting,
        configure x unbound_client
        = Return tt {| self := store x (self unbound_client);
                       world := world unbound_client |}).
Proof.
  split; [reflexivity|]. split; [|split; [reflexivity|split; [reflexivity|]]];
    intros x; apply configure_unfrozen; apply construct_unfrozen.
Qed.

(** C9.  On a client whose construction met a bind failure, [shutdown()]
    raises: the thread handles it joins were never created.  A second
    call raises in the same way.  (On a connected client both calls
    complete, see [shutdown_started].) *)
Theorem shutdown_raises_when_never_connected :
  construct defaults (boot [true; false] []) = Return tt unbound_client
  /\ connected (self unbound_client) = false
  /\ data_thread (self unbound_client) = None
  /\ exists s,
      shutdown unbound_client
      = Raise (AttributeError "_NatNetClient__data_thread") s
      /\ connected (self s) = false
      /\ exists s',
          shutdown s = Raise (AttributeError "_NatNetClient__data_thread") s'.
Proof.
  split; [vm_compute; reflexivity|]. split; [reflexivity|].
  split; [reflexivity|].
  eexists. split; [vm_compute; reflexivity|]. split; [reflexivity|].
  eexists. vm_compute. reflexivity.
Qed.

(** [shutdown()] on the connected client: sockets 3 and 4 are closed, the
    data thread and then the command thread are joined. *)
Example shutdown_connected_client :
  exists s,
    shutdown connected_client = Return tt s
    /\ connected (self s) = false
    /\ closed (world s) = [3; 4]%nat
    /\ joined (world s) = [DataThread; CommandThread].
Proof. eexists. split; [vm_compute; reflexivity|]. repeat split. Qed.

(** C10.  Construction with the defaults, in a world where both binds
    succeed, creates the two sockets, marks the client connected and
    starts the two threads, and hands no datagram to the network: the
    CONNECT handshake is not sent. *)
Theorem construction_sends_no_handshake :
  construct defaults (boot [] []) = Return tt connected_client
  /\ connected (self connected_client) = true
  /\ is_Some (command_socket (self connected_client))
  /\ is_Some (data_socket (self connected_client))
  /\ started (world connected_client) = [CommandThread; DataThread]
  /\ sent (world connected_client) = [].
Proof.
  split; [vm_compute; reflexivity|]. split; [reflexivity|].
  split; [eexists; vm_compute; reflexivity|].
  split; [eexists; vm_compute; reflexivity|].
  split; reflexivity.
Qed.

(** When a bind fails during construction the client is left
    disconnected and no thread is started. *)
Example construction_with_bind_failure :
  connected (self unbound_client) = false
  /\ started (world unbound_client) = []
  /\ command_thread (self unbound_client) = None
  /\ data_thread (self unbound_client) = None.
Proof. repeat split. Qed.


(** C5, as stated, fails.  Under the current layout the entry of type id
    99 is not skipped by its declared size of 8: the cursor moves past the
    two header fields only, the body of the entry is read as the next
    entry (type id 99 is logged twice, type id 98 never), and the decode
    ends at byte 20 of a payload of 28.  Under the legacy layout an
    unrecognised type id does not fail the decode. *)
Lemma unrecognized_description_not_skipped :
  unpacker (self connected_client) = Some V4_1
  /\ length two_unknown = 28%nat
  /\ unpack_data_descriptions two_unknown 28 connected_client
     = Return 20
         (logged (ErrorUndefinedDescription 99)
            (logged (ErrorUndefinedDescription 99) connected_client))
  /\ unpacker (self (raced_client server_info_3_0)) = Some V3_0
  /\ unpack_data_descriptions one_unknown 8 (raced_client server_info_3_0)
     = Return 8
         (logged (ErrorUndefinedDescription 99)
            (raced_client server_info_3_0)).
Proof.
  split; [vm_compute; reflexivity|]. split; [vm_compute; reflexivity|].
  split; [vm_compute; reflexivity|]. split; vm_compute; reflexivity.
Qed.

(** C4, as stated, fails: the RESPONSE that declares size 2 and carries
    the byte [ff] before its terminator holds a string of one byte, shorter
    than 30, yet the string is neither appended nor dropped.  The handler
    raises [UnicodeDecodeError]; the error leaves the dispatcher and ends
    the command loop, and the integer acknowledgement that follows is never
    recorded, although alone it would have been. *)
Lemma undecodable_response_raises :
  before_null [xff; x00] = [xff]
  /\ process_message [x03; x00; x02; x00; xff; x00] connected_client
     = Raise UnicodeDecodeError connected_client
  /\ command_thread_loop
       [Datagram [x03; x00; x02; x00; xff; x00];
        Datagram [x03; x00; x04; x00; x07; x00; x00; x00]] true
       connected_client
     = Raise UnicodeDecodeError connected_client
  /\ items (server_responses (self connected_client)) = []
  /\ exists s,
      command_thread_loop
        [Datagram [x03; x00; x04; x00; x07; x00; x00; x00]] true
        connected_client
      = Return Receiving s
      /\ items (server_responses (self s)) = [IntResponse 7].
Proof.
  split; [reflexivity|].
  split; [vm_compute; reflexivity|].
  split; [vm_compute; reflexivity|].
  split; [reflexivity|].
  eexists. split; vm_compute; reflexivity.
Qed.

(** C6, as stated, fails: on a connected client, when the world refuses
    the first send and would accept the next two, [send_command] ends in
    the socket error of the first attempt; the two later answers are
    never asked for and nothing is sent. *)
Lemma send_command_does_not_retry :
  connected (self connected_client) = true
  /\ send_command (str_of_string "abc")
       {| self := self connected_client;
          world := boot [] [false; true; true] |}
     = Raise OSError
         {| self := self connected_client;
            world := boot [] [true; true] |}.
Proof. split; vm_compute; reflexivity. Qed.

(** C8, as stated, fails: the REQUEST for ["abc"] carries 4 in its size
    field and three bytes between the header and the trailing null, so no
    payload makes the size field its length. *)
Lemma request_size_is_not_payload_length :
  request_packet REQUEST (str_of_string "abc") connected_client
  = Return [x02; x00; x04; x00; x61; x62; x63; x00] connected_client
  /\ ~ framed_by_payload_length REQUEST
         [x02; x00; x04; x00; x61; x62; x63; x00].
Proof.
  split; [reflexivity|].
  intros (kind & size & payload & Hkind & Hsize & Hpacket).
  injection Hkind as <-.
  unfold to_bytes2_signed in Hsize.
  destruct (_ && _); [|discriminate]. injection Hsize as <-.
  simpl in Hpacket. injection Hpacket as H0 H1 Hrest.
  destruct payload as [|p1 [|p2 [|p3 [|p4 rest]]]]; simpl in *;
    try discriminate.
  - destruct rest; discriminate.
Qed.

End Runs.

(** ** Instances of the conditional theorems *)

Section Instances.
#[local] Existing Instance failing_unpackers.

(** [response_recorded] on an integer acknowledgement, on the short text
    ["ok"], on a short text that does not decode and on a text of 40
    bytes. *)
Lemma response_recorded_witness :
  unpack_server_response [x07; x00; x00; x00] 4 connected_client
  = Return 4
      {| self := set_server_responses
                   {| items := [IntResponse 7]; maxlen := 255 |}
                   (self connected_client);
         world := world connected_client |}
  /\ unpack_server_response [x6f; x6b; x00] 3 connected_client
     = Return 2
         {| self := set_server_responses
                      {| items := [StrResponse [111; 107]%N]; maxlen := 255 |}
                      (self connected_client);
            world := world connected_client |}
  /\ unpack_server_response [xff; x00] 2 connected_client
     = Raise UnicodeDecodeError connected_client
  /\ unpack_server_response (replicate 40 x41) 40 connected_client
     = Return 40 connected_client.
Proof.
  split; [|split; [|split]].
  - exact (proj1 (response_recorded [x07; x00; x00; x00] 4 connected_client)
             eq_refl).
  - apply (proj1 (proj2 (response_recorded [x6f; x6b; x00] 3
                           connected_client)));
      [lia | simpl; lia | reflexivity].
  - apply (proj1 (proj2 (proj2 (response_recorded [xff; x00] 2
                                  connected_client))));
      [lia | simpl; lia | reflexivity].
  - apply (proj1 (proj2 (proj2 (proj2 (response_recorded (replicate 40 x41) 40
                                         connected_client)))));
      [lia | simpl; lia].
Defined.

(** [request_packet_layout] on the REQUEST for ["abc"]. *)
Lemma request_packet_layout_witness :
  exists kind size,
    to_bytes2_signed (NAT_Messages_value REQUEST) = Some kind
    /\ to_bytes2_signed (declared_size REQUEST (str_of_string "abc"))
       = Some size
    /\ request_packet REQUEST (str_of_string "abc") connected_client
       = Return (kind ++ size ++ [x61; x62; x63] ++ [x00]) connected_client.
Proof.
  apply (proj1 request_packet_layout REQUEST (str_of_string "abc")
           [x61; x62; x63] connected_client);
    [discriminate | vm_compute; discriminate | reflexivity].
Defined.

(** [send_command_outcomes] on a client that never connected, on a
    connected client whose send is accepted, and on one whose send is
    refused. *)
Lemma send_command_outcomes_witness :
  send_command (str_of_string "abc") unbound_client
  = Return false unbound_client
  /\ send_command (str_of_string "abc") connected_client
     = Return true
         (answered
            [([x02; x00; x04; x00; x61; x62; x63; x00],
              (server_address (self connected_client),
               command_port (self connected_client)))]
            connected_client)
  /\ send_command (str_of_string "abc")
       {| self := self connected_client; world := boot [] [false] |}
     = Raise OSError
         (answered []
            {| self := self connected_client; world := boot [] [false] |}).
Proof.
  split; [|split].
  - apply (proj1 (send_command_outcomes (str_of_string "abc") unbound_client)).
    reflexivity.
  - apply (proj1 (proj2 (send_command_outcomes (str_of_string "abc")
                           connected_client))
             {| fd := 3; bound_ip := []; bound_port := 0; proto := 0 |});
      reflexivity.
  - apply (proj2 (proj2 (send_command_outcomes (str_of_string "abc")
                           {| self := self connected_client;
                              world := boot [] [false] |}))
             {| fd := 3; bound_ip := []; bound_port := 0; proto := 0 |}
             [x02; x00; x04; x00; x61; x62; x63; x00]);
      reflexivity.
Defined.


(** [unrecognized_description_passed_over] under both layouts, on the
    entry of type id 99. *)
Lemma unrecognized_description_passed_over_witness :
  (exists offset',
      (V4_1 = V3_0 -> offset' = 4 + 4)
      /\ unpack_descriptions 1 one_unknown 4 connected_client
         = unpack_descriptions 0 one_unknown offset'
             (logged (ErrorUndefinedDescription 99) connected_client))
  /\ (exists offset',
        (V3_0 = V3_0 -> offset' = 4 + 4)
        /\ unpack_descriptions 1 one_unknown 4
             (raced_client server_info_3_0)
           = unpack_descriptions 0 one_unknown offset'
               (logged (ErrorUndefinedDescription 99)
                  (raced_client server_info_3_0))).
Proof.
  split.
  - apply (unrecognized_description_passed_over V4_1 0 one_unknown 4
             connected_client); reflexivity.
  - apply (unrecognized_description_passed_over V3_0 0 one_unknown 4
             (raced_client server_info_3_0)); reflexivity.
Defined.

End Instances.

(** ** Further properties: wire round trips *)

Section WireRoundTrips.
Context `{U : Unpackers}.

#[local] Ltac Zify.zify_post_hook ::= Z.to_euclidean_division_equations.

Lemma byte_val_byte_of_Z (z : Z) : byte_val (byte_of_Z z) = z mod 256.
Proof.
  unfold byte_val, byte_of_Z.
  rewrite to_N_byte_of_N by lia. lia.
Qed.

Lemma to_bytes2_signed_inv (v : Z) (b : bytes) :
  to_bytes2_signed v = Some b ->
  b = [byte_of_Z v; byte_of_Z (v / 256)] /\ -32768 <= v <= 32767.
Proof.
  unfold to_bytes2_signed.
  destruct (Z.leb_spec (-32768) v), (Z.leb_spec v 32767); simpl;
    try discriminate.
  intros [= <-]. split; [reflexivity|lia].
Qed.

(** What [to_bytes(2, 'little', signed=True)] writes,
    [int.from_bytes(..., 'little', signed=True)] reads back. *)
Lemma from_bytes_signed_to_bytes2 (v : Z) (b : bytes) :
  to_bytes2_signed v = Some b -> from_bytes_signed b = v.
Proof.
  intros H. apply to_bytes2_signed_inv in H as [-> Hv].
  unfold from_bytes_signed. simpl length. simpl from_bytes_unsigned.
  rewrite !byte_val_byte_of_Z.
  change (8 * Z.of_nat 2) with 16. change (0 <? 16) with true.
  change (16 - 1) with 15. cbv [andb].
  destruct (Z.testbit _ 15) eqn:Hbit;
    apply (f_equal Z.b2z) in Hbit;
    rewrite Z.testbit_spec' in Hbit by lia;
    change (2 ^ 15) with 32768 in Hbit; simpl Z.b2z in Hbit;
    change (2 ^ 16) with 65536; lia.
Qed.

Lemma byte_of_N_nonzero (n : N) : (0 < n < 256)%N -> byte_of_N n <> x00.
Proof.
  intros Hn Heq. apply (f_equal Byte.to_N) in Heq.
  rewrite to_N_byte_of_N in Heq by lia. simpl in Heq. lia.
Qed.

Lemma utf8_encode_char_null_free (c : N) (bs : bytes) :
  utf8_encode_char c = Some bs -> c <> 0%N -> x00 ∉ bs.
Proof.
  unfold utf8_encode_char. intros H Hc.
  destruct (N.ltb_spec c 0x80);
    [|destruct (N.ltb_spec c 0x800);
      [|destruct (N.ltb_spec c 0x10000);
        [destruct ((0xD800 <=? c)%N && (c <=? 0xDFFF)%N); [discriminate|]
        |destruct (N.ltb_spec c 0x110000); [|discriminate]]]];
    injection H as <-;
    rewrite ?not_elem_of_cons; repeat split;
    try apply not_elem_of_nil;
    apply not_eq_sym, byte_of_N_nonzero; lia.
Qed.

(** The UTF-8 encoding of a text without the null character holds no null
    byte. *)
Lemma utf8_encode_null_free (text : str) (encoded : bytes) :
  utf8_encode text = Some encoded -> null_free text -> x00 ∉ encoded.
Proof.
  unfold null_free. revert encoded.
  induction text as [|c text IH]; intros encoded; simpl.
  - intros [= <-] _. apply not_elem_of_nil.
  - destruct (utf8_encode_char c) as [bs|] eqn:Hc; [|discriminate].
    destruct (utf8_encode text) as [more|]; [|discriminate].
    intros [= <-] Hfree. apply not_elem_of_cons in Hfree as [Hc0 Hfree].
    rewrite elem_of_app. intros [Hin|Hin].
    + revert Hin. eapply utf8_encode_char_null_free; eauto.
    + revert Hin. apply IH; [reflexivity|assumption].
Qed.

(** The terminator search stops at the first null byte. *)
Lemma before_null_app (text rest : bytes) :
  x00 ∉ text -> before_null (text ++ x00 :: rest) = text.
Proof.
  induction text as [|b text IH]; simpl; [reflexivity|].
  intros Hfree. apply not_elem_of_cons in Hfree as [Hb Hfree].
  destruct (Byte.eqb b x00) eqn:Heq.
  - apply Byte.byte_dec_bl in Heq. congruence.
  - by rewrite IH.
Qed.

Lemma before_null_all (text : bytes) :
  x00 ∉ text -> before_null text = text.
Proof.
  induction text as [|b text IH]; simpl; [reflexivity|].
  intros Hfree. apply not_elem_of_cons in Hfree as [Hb Hfree].
  destruct (Byte.eqb b x00) eqn:Heq.
  - apply Byte.byte_dec_bl in Heq. congruence.
  - by rewrite IH.
Qed.

Lemma NAT_Messages_of_value (m : NAT_Messages) :
  NAT_Messages_of (NAT_Messages_value m) = m.
Proof. destruct m; reflexivity. Qed.

(** X1.  Round trip of a request through the receiving side of the
    protocol: the header of the datagram that [send_request] assembles,
    read the way the dispatcher reads headers, gives back the message kind
    and the size field; and when the text carried has no null character,
    the bytes after the header, read as a null-terminated UTF-8 string the
    way the string handlers read payloads, give back the text. *)
Theorem request_round_trip (NAT_command : NAT_Messages) (command : str)
    (packet : bytes) (s : State) :
  request_packet NAT_command command s = Return packet s ->
  NAT_Messages_of (get_message_id (slice packet 0 2)) = NAT_command
  /\ from_bytes_signed (slice packet 2 4)
     = snd (request_body NAT_command command)
  /\ (null_free (fst (request_body NAT_command command)) ->
      utf8_decode (before_null (slice_from packet 4))
      = Some (fst (request_body NAT_command command))).
Proof.
  unfold request_packet.
  destruct (request_body NAT_command command) as [text size]. run.
  destruct (to_bytes2_signed (NAT_Messages_value NAT_command)) as [kind|]
    eqn:Hkind; simpl; [|discriminate].
  destruct (to_bytes2_signed size) as [sz|] eqn:Hsize; simpl; [|discriminate].
  destruct (utf8_encode text) as [payload|] eqn:Hpayload; simpl;
    [|discriminate].
  intros [= <-].
  pose proof (from_bytes_signed_to_bytes2 _ _ Hkind) as Hk.
  pose proof (from_bytes_signed_to_bytes2 _ _ Hsize) as Hs.
  apply to_bytes2_signed_inv in Hkind as [-> _].
  apply to_bytes2_signed_inv in Hsize as [-> _].
  simpl app.
  destruct (header_slices (byte_of_Z (NAT_Messages_value NAT_command))
              (byte_of_Z (NAT_Messages_value NAT_command / 256))
              (byte_of_Z size) (byte_of_Z (size / 256))
              (payload ++ [x00])) as (-> & -> & ->).
  split; [|split].
  - unfold get_message_id.
    change (slice [?a; ?b] 0 2) with [a; b].
    rewrite Hk. apply NAT_Messages_of_value.
  - exact Hs.
  - intros Hfree.
    rewrite before_null_app by (eapply utf8_encode_null_free; eauto).
    by apply utf8_decode_encode.
Qed.

End WireRoundTrips.

(** ** Further properties: the histories *)

Lemma deque_append_new_deque {A} (l : list A) (n : nat) (x : A) :
  deque_append (new_deque l n) x = new_deque (l ++ [x]) n.
Proof.
  unfold deque_append, new_deque; simpl. f_equal.
  rewrite !length_app, length_drop; simpl.
  destruct (decide (length l <= n)%nat) as [Hle|Hgt].
  - replace (length l - n)%nat with 0%nat by lia.
    rewrite drop_0. f_equal. lia.
  - replace (length l - (length l - n) + 1 - n)%nat with 1%nat by lia.
    replace (length l + 1 - n)%nat with (S (length l - n)) by lia.
    rewrite <- drop_app_le by lia.
    rewrite drop_drop. f_equal. lia.
Qed.

Lemma new_deque_id {A} (d : deque A) :
  (length (items d) <= maxlen d)%nat -> new_deque (items d) (maxlen d) = d.
Proof.
  intros Hle. unfold new_deque. destruct d as [l n]; simpl in *.
  replace (length l - n)%nat with 0%nat by lia. reflexivity.
Qed.

(** Appending one by one to a bounded deque leaves the last [maxlen] of
    all the entries, old and new, in order. *)
Lemma deque_append_all {A} (d : deque A) (xs : list A) :
  (length (items d) <= maxlen d)%nat ->
  foldl deque_append d xs = new_deque (items d ++ xs) (maxlen d).
Proof.
  intros Hle. induction xs as [|x xs IH] using rev_ind.
  - simpl. rewrite app_nil_r. symmetry. by apply new_deque_id.
  - rewrite foldl_app. simpl. rewrite IH.
    rewrite deque_append_new_deque. by rewrite app_assoc.
Qed.

Section Histories.
Context `{U : Unpackers}.

Lemma deque_maxlen_accepts (n : Z) (s : State) :
  0 <= n <= PY_SSIZE_T_MAX -> deque_maxlen n s = Return (Z.to_nat n) s.
Proof.
  unfold deque_maxlen. intros Hn.
  destruct (Z.ltb_spec n (- PY_SSIZE_T_MAX - 1));
    destruct (Z.ltb_spec PY_SSIZE_T_MAX n);
    destruct (Z.ltb_spec n 0);
    unfold PY_SSIZE_T_MAX in *; simpl; try lia; reflexivity.
Qed.

Lemma deque_maxlen_negative (n : Z) (s : State) :
  - PY_SSIZE_T_MAX - 1 <= n < 0 -> deque_maxlen n s = Raise ValueError s.
Proof.
  unfold deque_maxlen. intros Hn.
  destruct (Z.ltb_spec n (- PY_SSIZE_T_MAX - 1));
    destruct (Z.ltb_spec PY_SSIZE_T_MAX n);
    destruct (Z.ltb_spec n 0);
    unfold PY_SSIZE_T_MAX in *; simpl; try lia; reflexivity.
Qed.

Lemma deque_maxlen_overflow (n : Z) (s : State) :
  n < - PY_SSIZE_T_MAX - 1 \/ PY_SSIZE_T_MAX < n ->
  deque_maxlen n s = Raise OverflowError s.
Proof.
  unfold deque_maxlen. intros Hn.
  destruct (Z.ltb_spec n (- PY_SSIZE_T_MAX - 1));
    destruct (Z.ltb_spec PY_SSIZE_T_MAX n);
    unfold PY_SSIZE_T_MAX in *; simpl; try lia; reflexivity.
Qed.

(** X2.  [client.buffer_size = n] with [n] from 0 to [sys.maxsize]
    rebuilds both histories with the new bound: each keeps its most recent entries, as many as the
    bound allows, in their original order (all of them when the bound is
    at least their number); the getter then reads [n], and nothing is
    handed to the operating system. *)
Theorem buffer_size_keeps_latest (n : Z) (s : State) :
  0 <= n <= PY_SSIZE_T_MAX ->
  exists s',
    set_buffer_size n s = Return tt s'
    /\ buffer_size (self s') = n
    /\ world s' = world s
    /\ bounded (self s')
    /\ maxlen (server_messages (self s')) = Z.to_nat n
    /\ maxlen (server_responses (self s')) = Z.to_nat n
    /\ (exists dropped,
          items (server_messages (self s))
          = dropped ++ items (server_messages (self s'))
          /\ length (items (server_messages (self s')))
             = Nat.min (length (items (server_messages (self s))))
                 (Z.to_nat n))
    /\ (exists dropped,
          items (server_responses (self s))
          = dropped ++ items (server_responses (self s'))
          /\ length (items (server_responses (self s')))
             = Nat.min (length (items (server_responses (self s))))
                 (Z.to_nat n)).
Proof.
  intros Hn. unfold set_buffer_size, rebuilt. run.
  rewrite deque_maxlen_accepts by assumption. simpl.
  rewrite deque_maxlen_accepts by assumption. simpl.
  destruct s as [c w]; destruct c; simpl.
  eexists; split; [reflexivity|]; simpl.
  split; [reflexivity|]. split; [reflexivity|].
  split; [unfold bounded; simpl; rewrite !length_drop; lia|].
  split; [reflexivity|]. split; [reflexivity|].
  split.
  - exists (take (length (items server_messages0) - Z.to_nat n)
              (items server_messages0)).
    split; [by rewrite take_drop|rewrite length_drop; lia].
  - exists (take (length (items server_responses0) - Z.to_nat n)
              (items server_responses0)).
    split; [by rewrite take_drop|rewrite length_drop; lia].
Qed.

(** X3.  [client.buffer_size = n] with a bound that [deque] refuses
    raises when the first history is rebuilt: [ValueError] for a negative
    [n] down to [-sys.maxsize - 1], [OverflowError] for an [n] below that
    or above [sys.maxsize].  By then the attribute behind the getter has
    been overwritten: afterwards [buffer_size] reads [n], while both
    histories and their bound are what they were. *)
Theorem buffer_size_refused (n : Z) (s : State) :
  let s' := {| self := set_max_buffer_size n (self s); world := world s |} in
  (- PY_SSIZE_T_MAX - 1 <= n < 0 ->
   set_buffer_size n s = Raise ValueError s')
  /\ (n < - PY_SSIZE_T_MAX - 1 \/ PY_SSIZE_T_MAX < n ->
      set_buffer_size n s = Raise OverflowError s')
  /\ buffer_size (self s') = n
  /\ server_messages (self s') = server_messages (self s)
  /\ server_responses (self s') = server_responses (self s).
Proof.
  intros s'; subst s'.
  split; [|split].
  - intros Hn. unfold set_buffer_size, rebuilt. run.
    rewrite deque_maxlen_negative by assumption. reflexivity.
  - intros Hn. unfold set_buffer_size, rebuilt. run.
    rewrite deque_maxlen_overflow by assumption. reflexivity.
  - destruct s as [c w]; destruct c; repeat split.
Qed.

(** A MESSAGE_STRING datagram that carries a text makes the dispatcher
    append the text to the message history. *)
Lemma process_message_string (data : bytes) (text : str) (s : State) :
  carries_message data text ->
  process_message data s = Return tt (messaged text s).
Proof.
  intros (Hfree & a & b & encoded & rest & Hencoded & ->).
  unfold process_message, get_message_id.
  destruct (header_slices x08 x00 a b (encoded ++ x00 :: rest))
    as (-> & -> & ->).
  change (slice [x08; x00] 0 2) with [x08; x00].
  change (NAT_Messages_of (from_bytes_signed [x08; x00])) with MESSAGE_STRING.
  change (mapped MESSAGE_STRING) with (Some unpack_server_message).
  cbv iota. unfold unpack_server_message.
  rewrite before_null_app by (eapply utf8_encode_null_free; eauto).
  rewrite (utf8_decode_encode _ _ Hencoded).
  reflexivity.
Qed.

(** X4.  The MESSAGE_STRING handler appends the text before the first null
    byte of the payload, decoded as UTF-8, to the message history, and
    returns the number of bytes of the text plus one for the terminator.
    It returns the same count, one more than the payload holds, when the
    payload has no terminator at all.  Through the dispatcher, a datagram
    of kind 8 that carries a null-free text appends that text. *)
Theorem message_string_recorded (text : str) (encoded : bytes) (s : State) :
  utf8_encode text = Some encoded ->
  null_free text ->
  (forall rest packet_size,
      unpack_server_message (encoded ++ x00 :: rest) packet_size s
      = Return (Z.of_nat (length encoded) + 1) (messaged text s))
  /\ (forall packet_size,
        unpack_server_message encoded packet_size s
        = Return (Z.of_nat (length encoded) + 1) (messaged text s))
  /\ (forall a b rest,
        process_message (x08 :: x00 :: a :: b :: encoded ++ x00 :: rest) s
        = Return tt (messaged text s)).
Proof.
  intros Hencoded Hfree.
  pose proof (utf8_encode_null_free _ _ Hencoded Hfree) as Hnull.
  split; [|split].
  - intros rest packet_size. unfold unpack_server_message.
    rewrite before_null_app by assumption.
    rewrite (utf8_decode_encode _ _ Hencoded). reflexivity.
  - intros packet_size. unfold unpack_server_message.
    rewrite before_null_all by assumption.
    rewrite (utf8_decode_encode _ _ Hencoded). reflexivity.
  - intros a b rest. apply process_message_string.
    split; [assumption|]. exists a, b, encoded, rest. by split.
Qed.

End Histories.

Section HistoryInvariant.
Context `{U : Unpackers}.

Lemma preserves_bind {A B} (P : NatNetClient -> Prop) (m : M A)
    (k : A -> M B) :
  preserves P m -> (forall a, preserves P (k a)) -> preserves P (m ≫= k).
Proof.
  intros Hm Hk s HP. specialize (Hm s HP). run.
  destruct (m s) as [a s'|e s']; simpl in *; [|assumption].
  by apply Hk.
Qed.

Lemma preserves_keeps_self {A} (P : NatNetClient -> Prop) (m : M A) :
  keeps self m -> preserves P m.
Proof. intros Hm s HP. by rewrite Hm. Qed.

Lemma preserves_assign (P : NatNetClient -> Prop)
    (f : NatNetClient -> NatNetClient) :
  (forall c, P c -> P (f c)) -> preserves P (assign f).
Proof. intros Hf s HP. by apply Hf. Qed.

Lemma bounded_by_append_response n1 n2 (c : NatNetClient) (r : response) :
  bounded_by n1 n2 c ->
  bounded_by n1 n2
    (set_server_responses (deque_append (server_responses c) r) c).
Proof.
  intros ((Hr & Hm) & <- & <-). destruct c; simpl in *.
  split; [split; [apply new_deque_bounded|assumption]|by split].
Qed.

Lemma bounded_by_append_message n1 n2 (c : NatNetClient) (text : str) :
  bounded_by n1 n2 c ->
  bounded_by n1 n2
    (set_server_messages (deque_append (server_messages c) text) c).
Proof.
  intros ((Hr & Hm) & <- & <-). destruct c; simpl in *.
  split; [split; [assumption|apply new_deque_bounded]|by split].
Qed.

(** Whatever the datagram, the dispatcher leaves both histories within
    their bounds and leaves the bounds as they were. *)
Lemma process_message_bounded n1 n2 (data : bytes) :
  preserves (bounded_by n1 n2) (process_message data).
Proof.
  unfold process_message.
  destruct (mapped _) as [handler|] eqn:Hmapped;
    [|apply preserves_keeps_self; intros s; reflexivity].
  apply preserves_bind;
    [|intros a; apply preserves_keeps_self; intros s; reflexivity].
  destruct (NAT_Messages_of _); simpl in Hmapped; try discriminate;
    injection Hmapped as <-.
  - (* SERVER_INFO *)
    intros s HP. unfold unpack_server_info. run.
    destruct (utf8_decode _); simpl; [|assumption].
    destruct (struct_unpack_BBBB (slice _ 256 260)); simpl; [|assumption].
    destruct (struct_unpack_BBBB (slice _ 260 264))
      as [[[[major minor] r1] r2]|]; simpl; [|assumption].
    destruct s as [c w]; destruct c; exact HP.
  - (* RESPONSE *)
    intros s HP. unfold unpack_server_response. run.
    destruct (bool_decide _); simpl;
      [by apply bounded_by_append_response|].
    destruct (bool_decide _); simpl; [|assumption].
    destruct (utf8_decode _); simpl; [|assumption].
    by apply bounded_by_append_response.
  - (* MODEL_DEF *)
    apply preserves_keeps_self. apply keeps_self_unpack_descriptions.
  - (* FRAME_OF_DATA *)
    intros s HP. unfold unpack_mocap_data_message, get_unpacker. run.
    destruct (unpacker (self s)) as [r|]; simpl; [|assumption].
    destruct (unpack_mocap_data (deref r) _) as [e|[frame offset]]; simpl;
      [assumption|].
    destruct s as [c w]; destruct c; exact HP.
  - (* MESSAGE_STRING *)
    intros s HP. unfold unpack_server_message. run.
    destruct (utf8_decode _); simpl; [|assumption].
    by apply bounded_by_append_message.
  - (* UNRECOGNIZED_REQUEST *)
    intros s HP. exact HP.
  - (* UNDEFINED *)
    intros s HP. exact HP.
Qed.

Lemma preserves_self {A} (P : NatNetClient -> Prop) (m : M A) :
  (forall s, self (final (m s)) = self s) -> preserves P m.
Proof. intros Hm s HP. by rewrite Hm. Qed.

Lemma data_thread_loop_bounded n1 n2 receptions run :
  preserves (bounded_by n1 n2) (data_thread_loop receptions run).
Proof.
  revert run. induction receptions as [|r rest IH]; intros run;
    (destruct run; simpl; [|apply preserves_self; intros ?; reflexivity]);
    (apply preserves_bind; [apply preserves_self; intros ?; reflexivity|]);
    intros c; destruct (data_socket c);
    try (apply preserves_self; intros ?; reflexivity).
  apply preserves_bind;
    [destruct r; apply preserves_self; intros ?; reflexivity|].
  intros data. apply preserves_bind; [|intros _; apply IH].
  destruct (bool_decide _);
    [apply process_message_bounded|apply preserves_self; intros ?; reflexivity].
Qed.

Lemma command_thread_loop_bounded n1 n2 receptions run :
  preserves (bounded_by n1 n2) (command_thread_loop receptions run).
Proof.
  revert run. induction receptions as [|r rest IH]; intros run;
    (destruct run; simpl; [|apply preserves_self; intros ?; reflexivity]);
    (apply preserves_bind; [apply preserves_self; intros ?; reflexivity|]);
    intros c; destruct (command_socket c);
    try (apply preserves_self; intros ?; reflexivity).
  apply preserves_bind;
    [destruct r; apply preserves_self; intros ?; reflexivity|].
  intros data. apply preserves_bind; [|intros _; apply IH].
  destruct (bool_decide _);
    [apply process_message_bounded|apply preserves_self; intros ?; reflexivity].
Qed.

(** X5.  Invariant of the receive loops: whatever is received, in
    whatever order, and however the loop ends (blocked, returned, or ended
    by an exception), each history holds no more entries than its bound,
    and the bounds are the ones the loop started with. *)
Theorem histories_stay_bounded (receptions : list received) (run : bool)
    (s : State) :
  bounded (self s) ->
  let after_data := self (final (data_thread_loop receptions run s)) in
  let after_command := self (final (command_thread_loop receptions run s)) in
  bounded after_data
  /\ maxlen (server_responses after_data) = maxlen (server_responses (self s))
  /\ maxlen (server_messages after_data) = maxlen (server_messages (self s))
  /\ bounded after_command
  /\ maxlen (server_responses after_command)
     = maxlen (server_responses (self s))
  /\ maxlen (server_messages after_command)
     = maxlen (server_messages (self s)).
Proof.
  intros Hb after_data after_command. subst after_data after_command.
  assert (bounded_by (maxlen (server_responses (self s)))
            (maxlen (server_messages (self s))) (self s)) as HP
    by (split; [assumption|by split]).
  clear Hb.
  set (n1 := maxlen (server_responses (self s))) in *.
  set (n2 := maxlen (server_messages (self s))) in *.
  clearbody n1 n2.
  assert (bounded_by n1 n2 (self (final (data_thread_loop receptions run s)))
          /\ bounded_by n1 n2
               (self (final (command_thread_loop receptions run s))))
    as [(Hd & Hd1 & Hd2) (Hc & Hc1 & Hc2)];
    [|exact (conj Hd (conj Hd1 (conj Hd2 (conj Hc (conj Hc1 Hc2)))))].
  split.
  - by apply data_thread_loop_bounded.
  - by apply command_thread_loop_bounded.
Qed.

End HistoryInvariant.

Section MessageHistory.
Context `{U : Unpackers}.

Lemma messaged_fields (text : str) (s : State) :
  running (self (messaged text s)) = running (self s)
  /\ data_socket (self (messaged text s)) = data_socket (self s)
  /\ command_socket (self (messaged text s)) = command_socket (self s)
  /\ server_messages (self (messaged text s))
     = deque_append (server_messages (self s)) text
  /\ world (messaged text s) = world s.
Proof. destruct s as [c w]; destruct c; repeat split. Qed.

Lemma set_server_messages_shadow (d1 d2 : deque str) (c : NatNetClient) :
  set_server_messages d2 (set_server_messages d1 c) = set_server_messages d2 c.
Proof. destruct c; reflexivity. Qed.

Lemma set_server_messages_same (c : NatNetClient) :
  set_server_messages (server_messages c) c = c.
Proof. destruct c; reflexivity. Qed.

(** The state after the message handler has run on each text in turn. *)
Lemma data_loop_messages (datagrams : list bytes) (texts : list str)
    (s : State) :
  Forall2 carries_message datagrams texts ->
  running (self s) = true ->
  is_Some (data_socket (self s)) ->
  data_thread_loop (Datagram <$> datagrams) true s
  = Return Receiving
      {| self := set_server_messages
                   (foldl deque_append (server_messages (self s)) texts)
                   (self s);
         world := world s |}.
Proof.
  intros Hall. revert s.
  induction Hall as [|d t ds ts Hd Hall IH]; intros s Hrun [sock Hsock].
  - simpl. run. rewrite Hsock. rewrite set_server_messages_same.
    destruct s; reflexivity.
  - assert (length d <> 0%nat) as Hlen
      by (destruct Hd as (_ & a & b & e & r & _ & ->); discriminate).
    destruct (messaged_fields t s) as (Hr & Hds & _ & Hm & Hw).
    simpl. run. rewrite Hsock.
    rewrite bool_decide_eq_true_2 by assumption.
    rewrite (process_message_string _ _ s Hd). rewrite Hrun.
    rewrite IH by (rewrite ?Hr, ?Hds; eauto).
    rewrite Hm, Hw. unfold messaged; simpl.
    rewrite set_server_messages_shadow. reflexivity.
Qed.

Lemma command_loop_messages (datagrams : list bytes) (texts : list str)
    (s : State) :
  Forall2 carries_message datagrams texts ->
  running (self s) = true ->
  is_Some (command_socket (self s)) ->
  command_thread_loop (Datagram <$> datagrams) true s
  = Return Receiving
      {| self := set_server_messages
                   (foldl deque_append (server_messages (self s)) texts)
                   (self s);
         world := world s |}.
Proof.
  intros Hall. revert s.
  induction Hall as [|d t ds ts Hd Hall IH]; intros s Hrun [sock Hsock].
  - simpl. run. rewrite Hsock. rewrite set_server_messages_same.
    destruct s; reflexivity.
  - assert (length d <> 0%nat) as Hlen
      by (destruct Hd as (_ & a & b & e & r & _ & ->); discriminate).
    destruct (messaged_fields t s) as (Hr & _ & Hcs & Hm & Hw).
    simpl. run. rewrite Hsock.
    rewrite bool_decide_eq_true_2 by assumption.
    rewrite (process_message_string _ _ s Hd). rewrite Hrun.
    rewrite IH by (rewrite ?Hr, ?Hcs; eauto).
    rewrite Hm, Hw. unfold messaged; simpl.
    rewrite set_server_messages_shadow. reflexivity.
Qed.

(** X6.  A running receive loop (data or command) that is handed a
    sequence of MESSAGE_STRING datagrams, each carrying a null-free text,
    processes them all and goes back to waiting; the message history then
    holds the last [maxlen] entries of the sequence made of its earlier
    entries followed by the new texts in order of arrival, and nothing
    else has changed: not the bound, not another attribute, not the
    world. *)
Theorem message_history_keeps_latest (datagrams : list bytes)
    (texts : list str) (s : State) :
  Forall2 carries_message datagrams texts ->
  running (self s) = true ->
  (length (items (server_messages (self s)))
   <= maxlen (server_messages (self s)))%nat ->
  let earlier := items (server_messages (self s)) in
  let bound := maxlen (server_messages (self s)) in
  let latest :=
    {| items := drop (length (earlier ++ texts) - bound) (earlier ++ texts);
       maxlen := bound |} in
  let after :=
    {| self := set_server_messages latest (self s); world := world s |} in
  (is_Some (data_socket (self s)) ->
   data_thread_loop (Datagram <$> datagrams) true s = Return Receiving after)
  /\ (is_Some (command_socket (self s)) ->
      command_thread_loop (Datagram <$> datagrams) true s
      = Return Receiving after).
Proof.
  intros Hall Hrun Hbound earlier bound latest after.
  assert (foldl deque_append (server_messages (self s)) texts = latest)
    as Hlatest by (rewrite deque_append_all by assumption; reflexivity).
  split; intros Hsock.
  - rewrite (data_loop_messages _ _ _ Hall Hrun Hsock). by rewrite Hlatest.
  - rewrite (command_loop_messages _ _ _ Hall Hrun Hsock). by rewrite Hlatest.
Qed.

End MessageHistory.

(** ** Further properties: the dispatcher *)

(** A slice between two non-negative bounds in order. *)
Lemma slice_between {A} (data : list A) (lo hi : Z) :
  0 <= lo <= hi ->
  slice data lo hi = take (Z.to_nat (hi - lo)) (drop (Z.to_nat lo) data).
Proof.
  intros Hb. unfold slice, clamp.
  destruct (Z.ltb_spec lo 0); [lia|]. destruct (Z.ltb_spec hi 0); [lia|].
  destruct (decide (Z.of_nat (length data) <= lo)) as [Hout|Hin].
  - rewrite !drop_ge by lia. by rewrite !take_nil.
  - replace (Z.min lo (Z.of_nat (length data))) with lo by lia.
    destruct (decide (hi <= Z.of_nat (length data))) as [Hhi|Hhi].
    + by replace (Z.min hi (Z.of_nat (length data))) with hi by lia.
    + replace (Z.min hi (Z.of_nat (length data)))
        with (Z.of_nat (length data)) by lia.
      rewrite !take_ge by (rewrite length_drop; lia). reflexivity.
Qed.

Lemma slice_from_between {A} (data : list A) (lo : Z) :
  0 <= lo -> slice_from data lo = drop (Z.to_nat lo) data.
Proof.
  intros Hb. unfold slice_from, clamp. destruct (Z.ltb_spec lo 0); [lia|].
  destruct (decide (Z.of_nat (length data) <= lo)) as [Hout|Hin].
  - rewrite !drop_ge by lia. reflexivity.
  - f_equal. lia.
Qed.


Lemma NAT_Messages_of_unknown (id : Z) :
  id ∉ [0; 1; 2; 3; 4; 5; 6; 7; 8; 9; 10; 100] ->
  NAT_Messages_of id = UNDEFINED.
Proof.
  intros Hid.
  assert (id <> 0 /\ id <> 1 /\ id <> 2 /\ id <> 3 /\ id <> 4 /\ id <> 5
          /\ id <> 6 /\ id <> 7 /\ id <> 8 /\ id <> 9 /\ id <> 10
          /\ id <> 100) as H.
  { repeat split; intros ->; apply Hid; set_solver. }
  clear Hid. destruct id as [|p|p]; [lia| |reflexivity].
  do 8 (try (destruct p as [p|p|]; try reflexivity; try (exfalso; lia))).
Qed.

Section Dispatcher.
Context `{U : Unpackers}.

(** The dispatcher on a well-formed SERVER_INFO datagram. *)
Lemma process_server_info_datagram (name : str) (encoded : bytes)
    (v0 v1 v2 v3 major minor r1 r2 a b : byte) (rest : bytes) (s : State) :
  utf8_encode name = Some encoded ->
  null_free name ->
  (length encoded <= 256)%nat ->
  process_message
    (x01 :: x00 :: a :: b
     :: (encoded ++ replicate (256 - length encoded) x00)
        ++ [v0; v1; v2; v3] ++ [major; minor; r1; r2] ++ rest) s
  = Return tt
      {| self :=
           set_server_info
             {| application_name := name;
                version := (byte_val v0, byte_val v1, byte_val v2, byte_val v3);
                nat_net_major := byte_val major;
                nat_net_minor := byte_val minor |} (self s);
         world := world s |}.
Proof.
  intros Hencoded Hfree Hlen.
  pose proof (utf8_encode_null_free _ _ Hencoded Hfree) as Hnull.
  set (field := encoded ++ replicate (256 - length encoded) x00).
  assert (length field = 256%nat) as Hfield
    by (unfold field; rewrite length_app, length_replicate; lia).
  assert (before_null field = encoded) as Hname.
  { unfold field. destruct (256 - length encoded)%nat; simpl.
    - rewrite app_nil_r. by apply before_null_all.
    - by apply before_null_app. }
  unfold process_message, get_message_id.
  destruct (header_slices x01 x00 a b
              (field ++ [v0; v1; v2; v3] ++ [major; minor; r1; r2] ++ rest))
    as (-> & -> & ->).
  change (slice [x01; x00] 0 2) with [x01; x00].
  change (NAT_Messages_of (from_bytes_signed [x01; x00])) with SERVER_INFO.
  change (mapped SERVER_INFO) with (Some unpack_server_info). cbv iota.
  unfold unpack_server_info.
  rewrite !slice_between by lia.
  change (Z.to_nat (256 - 0)) with 256%nat.
  change (Z.to_nat 0) with 0%nat. rewrite drop_0.
  rewrite <- Hfield at 1. rewrite take_app_length.
  change (Z.to_nat 256) with (256 + 0)%nat. rewrite <- Hfield.
  rewrite drop_app_add. rewrite drop_0.
  change (Z.to_nat 260) with (256 + 4)%nat. rewrite <- Hfield.
  rewrite (drop_app_add field). simpl drop. simpl take.
  rewrite Hname. rewrite (utf8_decode_encode _ _ Hencoded).
  reflexivity.
Qed.

(** X7.  A well-formed SERVER_INFO datagram is parsed field by field: the
    application name is the UTF-8 text before the first null byte of the
    256-byte name field (all 256 bytes when the field has no null), the
    server version is the four bytes that follow, and the NatNet major and
    minor versions are the next two; the two bytes after them and anything
    beyond are ignored.  The server info is replaced by these values and
    nothing else changes; in particular the codec attribute stays as it
    was. *)
Theorem server_info_parsed (name : str) (encoded : bytes)
    (v0 v1 v2 v3 major minor r1 r2 a b : byte) (rest : bytes) (s : State) :
  utf8_encode name = Some encoded ->
  null_free name ->
  (length encoded <= 256)%nat ->
  process_message
    (x01 :: x00 :: a :: b
     :: (encoded ++ replicate (256 - length encoded) x00)
        ++ [v0; v1; v2; v3] ++ [major; minor; r1; r2] ++ rest) s
  = Return tt
      {| self :=
           set_server_info
             {| application_name := name;
                version := (byte_val v0, byte_val v1, byte_val v2, byte_val v3);
                nat_net_major := byte_val major;
                nat_net_minor := byte_val minor |} (self s);
         world := world s |}.
Proof. apply process_server_info_datagram. Qed.


(** X9.  Datagrams of the six kinds that have no handler (CONNECT,
    REQUEST, REQUEST_MODEL_DEF, REQUEST_FRAME_OF_DATA, DISCONNECT and
    KEEP_ALIVE, the kinds the client itself sends) are dropped by the
    dispatcher without a trace: no attribute changes and nothing is
    logged. *)
Theorem request_kinds_ignored (a b c d : byte) (payload : bytes) (s : State) :
  from_bytes_signed [a; b] ∈ [0; 2; 4; 6; 9; 10] ->
  process_message (a :: b :: c :: d :: payload) s = Return tt s.
Proof.
  intros Hid.
  unfold process_message, get_message_id.
  destruct (header_slices a b c d payload) as (-> & -> & ->).
  change (slice [a; b] 0 2) with [a; b].
  repeat (apply elem_of_cons in Hid as [->|Hid]; [reflexivity|]).
  by apply elem_of_nil in Hid.
Qed.

(** X10.  A datagram whose kind id is none of the twelve protocol ids is
    handled as UNDEFINED, and one of kind 100 as UNRECOGNIZED_REQUEST: in
    both cases the dispatcher logs one error that carries the declared
    size, returns normally and changes no attribute of the client. *)
Theorem unknown_kinds_logged (a b c d : byte) (payload : bytes) (s : State) :
  (from_bytes_signed [a; b] ∉ [0; 1; 2; 3; 4; 5; 6; 7; 8; 9; 10; 100] ->
   process_message (a :: b :: c :: d :: payload) s
   = Return tt (logged (ErrorUndefinedMessage (from_bytes_signed [c; d])) s))
  /\ (from_bytes_signed [a; b] = 100 ->
      process_message (a :: b :: c :: d :: payload) s
      = Return tt
          (logged (ErrorUnrecognizedRequest (from_bytes_signed [c; d])) s)).
Proof.
  unfold process_message, get_message_id.
  destruct (header_slices a b c d payload) as (-> & -> & ->).
  change (slice [a; b] 0 2) with [a; b].
  split; intros Hid.
  - rewrite (NAT_Messages_of_unknown _ Hid). reflexivity.
  - rewrite Hid. reflexivity.
Qed.

End Dispatcher.

Section FramesAndDescriptions.
Context `{U : Unpackers}.

(** X11.  On a connected client, [send_command] with a command of 32767
    characters or more raises [OverflowError] (the size field cannot hold
    the length plus one), and with a shorter command that UTF-8 cannot
    encode it raises [UnicodeEncodeError]; in both cases before the socket
    is touched: nothing is sent and the state is as it was.  A request of
    kind UNDEFINED is refused with -1 whatever the state. *)
Theorem send_command_refuses (command : str) (s : State) :
  (running (self s) = true -> 32767 <= len command ->
   send_command command s = Raise OverflowError s)
  /\ (running (self s) = true -> len command < 32767 ->
      utf8_encode command = None ->
      send_command command s = Raise UnicodeEncodeError s)
  /\ send_request UNDEFINED command s = Return (-1) s.
Proof.
  split; [|split].
  - intros Hrun Hlong.
    unfold send_command, send_command_attempts, send_request, request_packet.
    run. rewrite Hrun. simpl. unfold to_bytes2_signed at 1.
    destruct (Z.leb_spec (len command + 1) 32767); [lia|].
    rewrite andb_false_r. reflexivity.
  - intros Hrun Hshort Hencode.
    unfold send_command, send_command_attempts, send_request, request_packet.
    run. rewrite Hrun. simpl. unfold to_bytes2_signed at 1.
    assert (0 <= len command) by (unfold len; lia).
    destruct (Z.leb_spec (-32768) (len command + 1)); [|lia].
    destruct (Z.leb_spec (len command + 1) 32767); [|lia].
    simpl. rewrite Hencode. reflexivity.
  - unfold send_request. run. rewrite orb_true_r. destruct s; reflexivity.
Qed.

(** X12.  A FRAME_OF_DATA datagram is decoded by the selected codec, and
    the frame is published all or nothing: when the codec returns a frame
    it replaces the stored one and nothing else changes; when the codec
    raises, the exception leaves the dispatcher and the state, the stored
    frame included, is exactly what it was.  Before a codec has been
    selected the datagram raises [AttributeError], again without a
    change. *)
Theorem frame_published_or_kept (a b : byte) (payload : bytes) (s : State) :
  match unpacker (self s) with
  | Some r =>
      match unpack_mocap_data (deref r) payload with
      | inr (frame, offset) =>
          process_message (x07 :: x00 :: a :: b :: payload) s
          = Return tt {| self := set_mocap (Some frame) (self s);
                         world := world s |}
      | inl e =>
          process_message (x07 :: x00 :: a :: b :: payload) s = Raise e s
      end
  | None =>
      process_message (x07 :: x00 :: a :: b :: payload) s
      = Raise (AttributeError "_NatNetClient__unpacker") s
  end.
Proof.
  unfold process_message, get_message_id.
  destruct (header_slices x07 x00 a b payload) as (-> & -> & ->).
  change (slice [x07; x00] 0 2) with [x07; x00].
  change (NAT_Messages_of (from_bytes_signed [x07; x00])) with FRAME_OF_DATA.
  change (mapped FRAME_OF_DATA) with (Some unpack_mocap_data_message).
  cbv iota. unfold unpack_mocap_data_message, get_unpacker. run.
  destruct (unpacker (self s)) as [r|]; simpl; [|reflexivity].
  destruct (unpack_mocap_data (deref r) payload) as [e|[frame offset]];
    reflexivity.
Qed.

(** X13.  A MODEL_DEF datagram changes no attribute of the client,
    whether its decode completes or raises: the descriptors the codec
    returns are dropped.  When the descriptor count is zero or negative
    the decode reads nothing further and leaves the whole state, log
    included, as it was. *)
Theorem descriptions_discarded (a b : byte) (payload : bytes) (s : State) :
  self (final (process_message (x05 :: x00 :: a :: b :: payload) s)) = self s
  /\ (from_bytes_signed (slice payload 0 4) <= 0 ->
      process_message (x05 :: x00 :: a :: b :: payload) s = Return tt s).
Proof.
  unfold process_message, get_message_id.
  destruct (header_slices x05 x00 a b payload) as (-> & -> & ->).
  change (slice [x05; x00] 0 2) with [x05; x00].
  change (NAT_Messages_of (from_bytes_signed [x05; x00])) with MODEL_DEF.
  change (mapped MODEL_DEF) with (Some unpack_data_descriptions).
  cbv iota. split.
  - apply (keeps_bind self); [|intros n s'; reflexivity].
    apply keeps_self_unpack_descriptions.
  - intros Hcount. unfold unpack_data_descriptions.
    replace (Z.to_nat (from_bytes_signed (slice payload 0 4))) with 0%nat
      by lia.
    reflexivity.
Qed.

End FramesAndDescriptions.

(** ** Further properties: the connection life cycle *)

Section LifeCycle.
Context `{U : Unpackers}.

(** X14.  After [shutdown()], whether it completed or raised at a join,
    the client is disconnected and holds no socket; a receive loop that
    comes round again returns without taking another reception, changing
    no attribute; and [send_command] reports failure without sending. *)
Theorem loops_end_after_shutdown (s : State) :
  let s' := final (shutdown s) in
  connected (self s') = false
  /\ command_socket (self s') = None
  /\ data_socket (self s') = None
  /\ (forall receptions run,
        exists s'',
          data_thread_loop receptions run s' = Return Returned s''
          /\ self s'' = self s' /\ sent (world s'') = sent (world s'))
  /\ (forall receptions run,
        exists s'',
          command_thread_loop receptions run s' = Return Returned s''
          /\ self s'' = self s' /\ sent (world s'') = sent (world s'))
  /\ (forall command, send_command command s' = Return false s').
Proof.
  destruct s as [c w]; destruct c.
  unfold shutdown; run.
  destruct command_socket0, data_socket0, data_thread0, command_thread0;
    simpl;
    (split; [reflexivity|]; split; [reflexivity|]; split; [reflexivity|];
     split; [|split];
     [intros [|r rest] [|]; eexists; (split; [reflexivity|by split])
     |intros [|r rest] [|]; eexists; (split; [reflexivity|by split])
     |intros command; unfold send_command;
      (etransitivity;
       [apply bind_Return, send_command_attempts_disconnected; reflexivity
       |reflexivity])]).
Qed.

(** X15.  [connect()] on a client that is not running, when the world
    accepts both binds and the arguments are acceptable to the socket
    layer: the local address is ASCII without a null character, the data
    port of multicast mode is a port number, and the multicast group, when
    the data socket is made to join it (in multicast mode, or with a
    multicast address other than 255.255.255.255), has an address that
    [inet_aton] takes and is joined.  Then the client becomes connected;
    the command socket and the data socket are the next two descriptors,
    bound as the mode asks (multicast: the command socket to any address
    with the system's protocol, the data socket to the local address and
    the data port; unicast: the command socket to the local address, the
    data socket to any address and a port chosen by the system, both over
    UDP); the command thread and then the data thread are started; nothing
    is closed, nothing is sent. *)
Theorem connect_binds_and_starts (s : State) :
  running (self s) = false ->
  next_answer (bind_results (world s)) = true ->
  next_answer (tail (bind_results (world s))) = true ->
  is_ascii (local_ip_address (self s)) = true ->
  null_free (local_ip_address (self s)) ->
  (use_multicast (self s) = true -> 0 <= data_port (self s) <= 65535) ->
  (use_multicast (self s) = true
   \/ multicast_address (self s) <> str_of_string "255.255.255.255" ->
   is_Some (utf8_encode (multicast_address (self s)))
   /\ null_free (multicast_address (self s))
   /\ next_answer (address_results (world s)) = true
   /\ next_answer (tail (address_results (world s))) = true
   /\ next_answer (membership_results (world s)) = true) ->
  let c := self s in
  exists s',
    connect s = Return tt s'
    /\ connected (self s') = true
    /\ command_socket (self s')
       = Some {| fd := next_fd (world s);
                 bound_ip := if use_multicast c then [] else local_ip_address c;
                 bound_port := 0;
                 proto := if use_multicast c then 0 else IPPROTO_UDP |}
    /\ data_socket (self s')
       = Some {| fd := S (next_fd (world s));
                 bound_ip := if use_multicast c then local_ip_address c else [];
                 bound_port := if use_multicast c then data_port c else 0;
                 proto := if use_multicast c then 0 else IPPROTO_UDP |}
    /\ command_thread (self s') = Some CommandThread
    /\ data_thread (self s') = Some DataThread
    /\ started (world s') = started (world s) ++ [CommandThread; DataThread]
    /\ closed (world s') = closed (world s)
    /\ sent (world s') = sent (world s).
Proof.
  intros Hrun H1 H2 Hascii Hnull Hport Hgroup. unfold null_free in *.
  destruct (utf8_encode_ascii _ Hascii) as [local Hlocal].
  destruct s as [c w]; destruct c;
    destruct w as [binds ? ? ? ? ? ? ? addresses members].
  simpl in *; subst.
  unfold connect, create_command_socket, create_data_socket, create_socket,
    socket_bind, bind_address, host_name, add_membership, inet_aton,
    logging, close, start, send_request.
  run.
  destruct use_multicast0; simpl.
  - destruct Hgroup as ([group Hgroup] & Hfree & A1 & A2 & M1); [by left|].
    pose proof (is_port_true _ (Hport eq_refl)) as Hp.
    pose proof (fits_int_true data_port0
                  ltac:(specialize (Hport eq_refl); lia)) as Hf.
    destruct binds as [|[] [|[] binds]]; simpl in *; try discriminate;
      answered;
      eexists; (split; [reflexivity|]); simpl; rewrite <- ?app_assoc;
      repeat split.
  - destruct (decide (multicast_address0 = str_of_string "255.255.255.255"))
      as [->|Hother].
    + destruct binds as [|[] [|[] binds]]; simpl in *; try discriminate;
        answered;
        eexists; (split; [reflexivity|]); simpl; rewrite <- ?app_assoc;
        repeat split.
    + destruct Hgroup as ([group Hgroup] & Hfree & A1 & A2 & M1); [by right|].
      pose proof (bool_decide_eq_true_2 _ Hother) as Hasked.
      destruct binds as [|[] [|[] binds]]; simpl in *; try discriminate;
        answered;
        eexists; (split; [reflexivity|]); simpl; rewrite <- ?app_assoc;
        repeat split.
Qed.

(** X16.  [connect()] when the command socket binds and the bind of the
    data socket is refused with [socket.error] (the local address being
    ASCII without a null character, and the data port of multicast mode
    fitting a C [int], so that the socket layer takes the arguments): the
    call returns with the client still disconnected and no thread started;
    the data socket's descriptor has been closed, but the command socket
    is neither closed nor dropped: it stays open in the attribute. *)
Theorem connect_keeps_command_socket (s : State) :
  running (self s) = false ->
  next_answer (bind_results (world s)) = true ->
  next_answer (tail (bind_results (world s))) = false ->
  is_ascii (local_ip_address (self s)) = true ->
  null_free (local_ip_address (self s)) ->
  (use_multicast (self s) = true ->
   -2147483648 <= data_port (self s) <= 2147483647) ->
  exists s' sock,
    connect s = Return tt s'
    /\ connected (self s') = false
    /\ command_socket (self s') = Some sock
    /\ fd sock = next_fd (world s)
    /\ data_socket (self s') = None
    /\ closed (world s') = closed (world s) ++ [S (next_fd (world s))]
    /\ started (world s') = started (world s)
    /\ command_thread (self s') = command_thread (self s)
    /\ data_thread (self s') = data_thread (self s).
Proof.
  intros Hrun H1 H2 Hascii Hnull Hport. unfold null_free in *.
  destruct s as [c w]; destruct c;
    destruct w as [binds ? ? ? ? ? ? ? addresses members].
  simpl in *; subst.
  unfold connect, create_command_socket, create_data_socket, create_socket,
    socket_bind, bind_address, host_name, logging, close.
  run.
  destruct use_multicast0;
    [pose proof (fits_int_true _ (Hport eq_refl)) as Hf|];
    (destruct binds as [|[] [|[] binds]]; simpl in *; try discriminate;
     answered;
     eexists; eexists; (split; [reflexivity|]); simpl; repeat split).
Qed.

(** X17.  Construction with a [max_buffer_size] that [deque] refuses
    raises when the first history is created, before [connect()] is
    reached: [ValueError] for a negative size down to [-sys.maxsize - 1],
    [OverflowError] for a size below that or above [sys.maxsize].  The
    world is untouched, so no socket was created and no thread started. *)
Theorem construct_refused_buffer (a : arguments) (w : World) :
  let n := arg_max_buffer_size a in
  (- PY_SSIZE_T_MAX - 1 <= n < 0 ->
   exists s, construct a w = Raise ValueError s /\ world s = w)
  /\ (n < - PY_SSIZE_T_MAX - 1 \/ PY_SSIZE_T_MAX < n ->
      exists s, construct a w = Raise OverflowError s /\ world s = w).
Proof.
  intros n; subst n.
  split; intros Hn;
    unfold construct, post_init, post_init_connect, empty_deque; run;
    [rewrite deque_maxlen_negative by assumption
    |rewrite deque_maxlen_overflow by assumption];
    eexists; split; reflexivity.
Qed.

(** X18.  Construction returns, whatever the binds answer, when the
    arguments are acceptable to [deque] and to the socket layer: a
    [max_buffer_size] from 0 to [sys.maxsize], a local address that is
    ASCII without a null character, in multicast mode a data port that is
    a port number, and a multicast group that, when the data socket is
    made to join it, has an address that [inet_aton] takes and is joined.
    The new client is connected exactly when both binds succeeded; it
    holds the current codec, the placeholder server info (name "None",
    versions 0), no frame, two empty histories bounded by
    [max_buffer_size], and the configuration it was given. *)
Theorem construct_initial_state (a : arguments) (w : World) :
  0 <= arg_max_buffer_size a <= PY_SSIZE_T_MAX ->
  is_ascii (arg_local_ip_address a) = true ->
  null_free (arg_local_ip_address a) ->
  (arg_use_multicast a = true -> 0 <= arg_data_port a <= 65535) ->
  (arg_use_multicast a = true
   \/ arg_multicast_address a <> str_of_string "255.255.255.255" ->
   is_Some (utf8_encode (arg_multicast_address a))
   /\ null_free (arg_multicast_address a)
   /\ next_answer (address_results w) = true
   /\ next_answer (tail (address_results w)) = true
   /\ next_answer (membership_results w) = true) ->
  exists s,
    construct a w = Return tt s
    /\ connected (self s)
       = next_answer (bind_results w) && next_answer (tail (bind_results w))
    /\ unpacker (self s) = Some V4_1
    /\ server_info (self s)
       = {| application_name := str_of_string "None";
            version := (0, 0, 0, 0);
            nat_net_major := 0; nat_net_minor := 0 |}
    /\ mocap (self s) = None
    /\ server_responses (self s)
       = {| items := []; maxlen := Z.to_nat (arg_max_buffer_size a) |}
    /\ server_messages (self s)
       = {| items := []; maxlen := Z.to_nat (arg_max_buffer_size a) |}
    /\ buffer_size (self s) = arg_max_buffer_size a
    /\ (server_address (self s), local_ip_address (self s),
        use_multicast (self s), multicast_address (self s),
        command_port (self s), data_port (self s))
       = (arg_server_address a, arg_local_ip_address a, arg_use_multicast a,
          arg_multicast_address a, arg_command_port a, arg_data_port a).
Proof.
  intros Hn Hascii Hnull Hport Hgroup. unfold null_free in *.
  destruct (utf8_encode_ascii _ Hascii) as [local Hlocal].
  destruct a as [sa la um ma cp dp n]; simpl in *.
  destruct w as [binds ? ? ? ? ? ? ? addresses members]; simpl in *.
  unfold construct, post_init, post_init_connect, empty_deque. run.
  rewrite deque_maxlen_accepts by assumption. simpl.
  rewrite deque_maxlen_accepts by assumption. simpl.
  unfold connect, create_command_socket, create_data_socket, create_socket,
    socket_bind, bind_address, host_name, add_membership, inet_aton,
    logging, close, start, send_request, update_unpacker_version, allocated.
  run.
  destruct um; simpl.
  - destruct Hgroup as ([group Hgroup] & Hfree & A1 & A2 & M1); [by left|].
    pose proof (is_port_true _ (Hport eq_refl)) as Hp.
    pose proof (fits_int_true dp
                  ltac:(specialize (Hport eq_refl); lia)) as Hf.
    destruct binds as [|[] [|[] binds]]; simpl in *;
      answered;
      eexists; (split; [reflexivity|]); simpl; repeat split.
  - destruct (decide (ma = str_of_string "255.255.255.255")) as [->|Hother].
    + destruct binds as [|[] [|[] binds]]; simpl in *;
        answered;
        eexists; (split; [reflexivity|]); simpl; repeat split.
    + destruct Hgroup as ([group Hgroup] & Hfree & A1 & A2 & M1); [by right|].
      pose proof (bool_decide_eq_true_2 _ Hother) as Hasked.
      destruct binds as [|[] [|[] binds]]; simpl in *;
        answered;
        eexists; (split; [reflexivity|]); simpl; repeat split.
Qed.

(** X23.  [connect()] in multicast mode with a data port that is not a
    port number, on a client that is not running and whose command socket
    binds: the bind of the data socket raises [OverflowError], which is not
    a [socket.error], so [create_socket] does not catch it and it leaves
    [connect()].  The client is left disconnected with no thread started;
    the command socket stays open in its attribute, the data socket
    attribute is not assigned, and no [close()] has been called, neither on
    the command socket nor on the socket that was created for the data
    channel.  (A port that fits a C [int] is refused once the local address
    has resolved; a port that does not is refused before.) *)
Theorem connect_port_out_of_range (s : State) :
  running (self s) = false ->
  use_multicast (self s) = true ->
  is_ascii (local_ip_address (self s)) = true ->
  null_free (local_ip_address (self s)) ->
  next_answer (bind_results (world s)) = true ->
  ~ 0 <= data_port (self s) <= 65535 ->
  (-2147483648 <= data_port (self s) <= 2147483647 ->
   next_answer (tail (bind_results (world s))) = true) ->
  exists s' sock,
    connect s = Raise OverflowError s'
    /\ connected (self s') = false
    /\ command_socket (self s') = Some sock
    /\ fd sock = next_fd (world s)
    /\ data_socket (self s') = data_socket (self s)
    /\ next_fd (world s') = S (S (next_fd (world s)))
    /\ closed (world s') = closed (world s)
    /\ started (world s') = started (world s)
    /\ sent (world s') = sent (world s)
    /\ command_thread (self s') = command_thread (self s)
    /\ data_thread (self s') = data_thread (self s).
Proof.
  intros Hrun Hmode Hascii Hnull H1 Hport H2. unfold null_free in *.
  pose proof (is_port_false _ Hport) as Hp.
  destruct s as [c w]; destruct c;
    destruct w as [binds ? ? ? ? ? ? ? addresses members].
  simpl in *; subst.
  unfold connect, create_command_socket, create_data_socket, create_socket,
    socket_bind, bind_address, host_name, logging, close.
  run.
  destruct (fits_int data_port0) eqn:Hf.
  - assert (-2147483648 <= data_port0 <= 2147483647) as Hrange.
    { unfold fits_int in Hf. apply andb_true_iff in Hf as [Hlo Hhi].
      apply Z.leb_le in Hlo, Hhi. lia. }
    specialize (H2 Hrange).
    destruct binds as [|[] [|[] binds]]; simpl in *; try discriminate;
      answered;
      eexists; eexists; (split; [reflexivity|]); simpl; repeat split.
  - clear H2.
    destruct binds as [|[] binds]; simpl in *; try discriminate;
      answered;
      eexists; eexists; (split; [reflexivity|]); simpl; repeat split.
Qed.

(** X24.  [connect()] when both sockets bind and the data socket cannot
    join its multicast group: [inet_aton] refuses one of the two addresses
    or [setsockopt] refuses the membership, with the [OSError] that
    nothing on the path catches.  The error leaves [connect()] with the
    client disconnected and no thread started, and with both sockets still
    open in their attributes. *)
Theorem connect_membership_refused (s : State) :
  running (self s) = false ->
  next_answer (bind_results (world s)) = true ->
  next_answer (tail (bind_results (world s))) = true ->
  is_ascii (local_ip_address (self s)) = true ->
  null_free (local_ip_address (self s)) ->
  (use_multicast (self s) = true -> 0 <= data_port (self s) <= 65535) ->
  use_multicast (self s) = true
  \/ multicast_address (self s) <> str_of_string "255.255.255.255" ->
  is_Some (utf8_encode (multicast_address (self s))) ->
  null_free (multicast_address (self s)) ->
  next_answer (address_results (world s)) = false
  \/ next_answer (tail (address_results (world s))) = false
  \/ next_answer (membership_results (world s)) = false ->
  exists s' sc sd,
    connect s = Raise OSError s'
    /\ connected (self s') = false
    /\ command_socket (self s') = Some sc
    /\ fd sc = next_fd (world s)
    /\ data_socket (self s') = Some sd
    /\ fd sd = S (next_fd (world s))
    /\ closed (world s') = closed (world s)
    /\ started (world s') = started (world s)
    /\ sent (world s') = sent (world s)
    /\ command_thread (self s') = command_thread (self s)
    /\ data_thread (self s') = data_thread (self s).
Proof.
  intros Hrun H1 H2 Hascii Hnull Hport Hasked [group Hgroup] Hfree Hrefused.
  unfold null_free in *.
  destruct (utf8_encode_ascii _ Hascii) as [local Hlocal].
  assert (use_multicast (self s)
          || bool_decide (multicast_address (self s)
                          ≠ str_of_string "255.255.255.255") = true) as Hb.
  { destruct Hasked as [->|Hother]; [reflexivity|].
    rewrite (bool_decide_eq_true_2 _ Hother). apply orb_true_r. }
  clear Hasked.
  destruct s as [c w]; destruct c;
    destruct w as [binds ? ? ? ? ? ? ? addresses members].
  simpl in *; subst.
  unfold connect, create_command_socket, create_data_socket, create_socket,
    socket_bind, bind_address, host_name, add_membership, inet_aton,
    logging, close.
  run.
  destruct use_multicast0;
    [pose proof (is_port_true _ (Hport eq_refl)) as Hp;
     pose proof (fits_int_true data_port0
                   ltac:(specialize (Hport eq_refl); lia)) as Hf
    |];
    simpl in Hb;
    (destruct binds as [|[] [|[] binds]]; simpl in *; try discriminate;
     destruct addresses as [|[] [|[] addresses]];
     destruct members as [|[] members]; simpl in *;
     try (destruct Hrefused as [?|[?|?]]; discriminate);
     clear Hrefused;
     answered;
     eexists; eexists; eexists; (split; [reflexivity|]); simpl;
     repeat split).
Qed.

End LifeCycle.

(** ** Further properties: the name-keyed collection *)

Section NameDictionaries.
Context {A : Type} (key : A -> str).

Lemma dict_by_name_snoc (l : list A) (x : A) :
  dict_by_name key (l ++ [x]) = <[key x := x]> (dict_by_name key l).
Proof. unfold dict_by_name. by rewrite foldl_app. Qed.

Lemma dict_by_name_lookup (l : list A) (name : str) :
  dict_by_name key l !! name = last (with_name key name l).
Proof.
  induction l as [|x l IH] using rev_ind; [done|].
  rewrite dict_by_name_snoc. unfold with_name in *. rewrite filter_app.
  simpl. rewrite filter_cons, filter_nil.
  destruct (decide (key x = name)) as [->|Hne].
  - by rewrite lookup_insert_eq, last_snoc.
  - by rewrite lookup_insert_ne, app_nil_r.
Qed.

Lemma dict_by_name_dom (l : list A) :
  dom (dict_by_name key l) = (list_to_set (key <$> l) : gset str).
Proof.
  induction l as [|x l IH] using rev_ind.
  - unfold dict_by_name; simpl. apply dom_empty_L.
  - rewrite dict_by_name_snoc, dom_insert_L, IH, fmap_app, list_to_set_app_L.
    simpl. rewrite (right_id_L ∅ (∪)). apply (comm_L (∪)).
Qed.

Lemma dict_by_name_size (l : list A) :
  size (dict_by_name key l) = length (remove_dups (key <$> l)).
Proof.
  rewrite <- (size_dom (D := gset str)), dict_by_name_dom.
  rewrite <- (size_list_to_set (C := gset str) (remove_dups (key <$> l)))
    by apply NoDup_remove_dups.
  f_equal. apply set_eq. intros z.
  rewrite !elem_of_list_to_set, elem_of_remove_dups. reflexivity.
Qed.

End NameDictionaries.

(** X19.  The name-keyed dictionary of a constructed [Marker_set_data]
    follows its tuple of marker sets: looking a name up gives the last
    marker set of the tuple with that name, a name that no marker set
    carries is absent, and the dictionary has one entry per distinct
    name. *)
Theorem marker_set_names_last_wins {Position : Type} (num : Z)
    (sets : list (@Marker_data Position)) :
  let r := new_Marker_set_data num sets in
  marker_sets r = sets
  /\ (forall name,
        marker_sets_d r !! name
        = last (with_name marker_data_name name (marker_sets r)))
  /\ (forall name,
        name ∉ marker_data_name <$> sets -> marker_sets_d r !! name = None)
  /\ size (marker_sets_d r)
     = length (remove_dups (marker_data_name <$> marker_sets r)).
Proof.
  simpl. split; [reflexivity|]. split; [|split].
  - intros name. apply dict_by_name_lookup.
  - intros name Hname. apply not_elem_of_dom.
    rewrite dict_by_name_dom. by rewrite elem_of_list_to_set.
  - apply dict_by_name_size.
Qed.

(** ** Further properties: what receiving never does *)

Section ReceivingFrame.
Context `{U : Unpackers}.

(** A step that reads the state, or writes one of the four attributes
    that receiving may write, or logs. *)
Ltac view_step :=
  first
    [ apply keeps_ret | apply keeps_raise | apply keeps_get
    | apply keeps_lift
    | (intros [[] []]; reflexivity) ].

Lemma keeps_view_unpack_descriptions n data offset :
  keeps connection_view (unpack_descriptions n data offset).
Proof.
  revert offset; induction n as [|n IH]; intros offset; simpl.
  - apply keeps_ret.
  - apply keeps_bind;
      [apply keeps_bind; [apply keeps_get|intros c; apply keeps_lift]|].
    intros r.
    destruct (bool_decide (r = V4_1));
      (destruct (bool_decide (NAT_Data_of _ = UNDEFINED_DATA));
       [apply keeps_bind; [view_step|intros _; apply IH]
       |apply keeps_bind; [apply keeps_lift|intros unpack];
        destruct (unpack _) as [e|[d tmp_offset]];
        [apply keeps_raise|apply IH]]).
Qed.

Lemma keeps_view_process_message data :
  keeps connection_view (process_message data).
Proof.
  unfold process_message.
  destruct (mapped _) as [handler|] eqn:Hmapped; [|apply keeps_ret].
  apply keeps_bind; [|intros n; apply keeps_ret].
  destruct (NAT_Messages_of _); simpl in Hmapped; try discriminate;
    injection Hmapped as <-.
  - unfold unpack_server_info.
    apply keeps_bind; [view_step|intros name].
    apply keeps_bind; [view_step|intros version].
    apply keeps_bind; [view_step|intros [[[major minor] r1] r2]].
    apply keeps_bind; [view_step|intros _; view_step].
  - unfold unpack_server_response.
    destruct (bool_decide _).
    + apply keeps_bind; [view_step|intros _; view_step].
    + apply keeps_bind; [|intros _; view_step].
      destruct (bool_decide _); [|view_step].
      apply keeps_bind; [view_step|intros text; view_step].
  - apply keeps_view_unpack_descriptions.
  - unfold unpack_mocap_data_message, get_unpacker.
    apply keeps_bind;
      [apply keeps_bind; [view_step|intros c; view_step]|intros r].
    destruct (unpack_mocap_data _ _) as [e|[frame offset]]; [view_step|].
    apply keeps_bind; [view_step|intros _; view_step].
  - unfold unpack_server_message.
    apply keeps_bind; [view_step|intros text].
    apply keeps_bind; [view_step|intros _; view_step].
  - unfold unpack_unrecognized_request.
    apply keeps_bind; [view_step|intros _; view_step].
  - unfold unpack_undefined_nat_message.
    apply keeps_bind; [view_step|intros _; view_step].
Qed.

Lemma keeps_view_data_thread_loop receptions run :
  keeps connection_view (data_thread_loop receptions run).
Proof.
  revert run. induction receptions as [|r rest IH]; intros run;
    (destruct run; simpl;
     [|apply keeps_bind; [view_step|intros _; view_step]]);
    (apply keeps_bind; [view_step|]);
    intros c; destruct (data_socket c); try view_step.
  apply keeps_bind.
  - destruct r; try view_step;
      (apply keeps_bind; [view_step|intros _; view_step]).
  - intros data. apply keeps_bind; [|intros _; apply IH].
    destruct (bool_decide _);
      [apply keeps_view_process_message|view_step].
Qed.

Lemma keeps_view_command_thread_loop receptions run :
  keeps connection_view (command_thread_loop receptions run).
Proof.
  revert run. induction receptions as [|r rest IH]; intros run;
    (destruct run; simpl;
     [|apply keeps_bind; [view_step|intros _; view_step]]);
    (apply keeps_bind; [view_step|]);
    intros c; destruct (command_socket c); try view_step.
  apply keeps_bind.
  - destruct r; try view_step;
      (apply keeps_bind; [view_step|intros _; view_step]).
  - intros data. apply keeps_bind; [|intros _; apply IH].
    destruct (bool_decide _);
      [apply keeps_view_process_message|view_step].
Qed.

(** X20.  Receiving never acts on the connection.  Whatever datagram the
    dispatcher is given, and whatever a receive loop (data or command)
    receives, however it ends: nothing is sent, no socket is created or
    closed, no thread is started or joined, and the configuration, the
    running flag, the sockets, the thread handles, the guard flag, the
    buffer size and the codec attribute are what they were.  Only the
    frame, the server info, the two histories and the log can change. *)
Theorem receiving_keeps_connection (data : bytes)
    (receptions : list received) (run : bool) (s : State) :
  connection_view (final (process_message data s)) = connection_view s
  /\ connection_view (final (data_thread_loop receptions run s))
     = connection_view s
  /\ connection_view (final (command_thread_loop receptions run s))
     = connection_view s.
Proof.
  split; [apply keeps_view_process_message|].
  split; [apply keeps_view_data_thread_loop
         |apply keeps_view_command_thread_loop].
Qed.

End ReceivingFrame.

(** ** Further properties: shutdown and codec selection *)

Section ShutdownAndSelection.
Context `{U : Unpackers}.

(** X21.  [shutdown()] on a client that holds both sockets and both
    thread handles completes: the client is disconnected, the command
    socket and then the data socket have been closed and both are
    forgotten, the data thread and then the command thread have been
    joined, and nothing was sent.  A second call completes too; it closes
    nothing and leaves every attribute as the first call left it. *)
Theorem shutdown_releases (s : State) (sc sd : socket) (t1 t2 : thread) :
  command_socket (self s) = Some sc ->
  data_socket (self s) = Some sd ->
  data_thread (self s) = Some t1 ->
  command_thread (self s) = Some t2 ->
  exists s',
    shutdown s = Return tt s'
    /\ connected (self s') = false
    /\ command_socket (self s') = None
    /\ data_socket (self s') = None
    /\ closed (world s') = closed (world s) ++ [fd sc; fd sd]
    /\ joined (world s') = joined (world s) ++ [t1; t2]
    /\ sent (world s') = sent (world s)
    /\ exists s'',
        shutdown s' = Return tt s''
        /\ self s'' = self s'
        /\ closed (world s'') = closed (world s')
        /\ sent (world s'') = sent (world s').
Proof.
  intros Hc Hd H1 H2.
  destruct s as [c w]; destruct c; simpl in *; subst.
  unfold shutdown. run.
  eexists; split; [reflexivity|]; simpl.
  rewrite <- !app_assoc.
  repeat split. eexists; split; [reflexivity|]. repeat split.
Qed.

(** X22.  The selection method composed with the SERVER_INFO handler
    selects by the version the server announced.  This is the order of
    events when a receive thread dispatches a SERVER_INFO datagram between
    [connect()] and the call of [__update_unpacker_version] that ends
    [__post_init__]: after the datagram has been dispatched and the
    selection has then run, the codec is the current one when the announced
    NatNet version is 4.1 or a later 4.x, or when its major number is 0,
    and the legacy one in every other case; the server info holds the
    announced version. *)
Theorem selection_follows_server_info (name : str) (encoded : bytes)
    (v0 v1 v2 v3 major minor r1 r2 a b : byte) (rest : bytes) (s : State) :
  utf8_encode name = Some encoded ->
  null_free name ->
  (length encoded <= 256)%nat ->
  let datagram :=
    x01 :: x00 :: a :: b
    :: (encoded ++ replicate (256 - length encoded) x00)
       ++ [v0; v1; v2; v3] ++ [major; minor; r1; r2] ++ rest in
  exists s',
    (process_message datagram ;; update_unpacker_version) s = Return tt s'
    /\ nat_net_major (server_info (self s')) = byte_val major
    /\ nat_net_minor (server_info (self s')) = byte_val minor
    /\ unpacker (self s')
       = Some (if decide ((byte_val major = 4 /\ byte_val minor >= 1)
                          \/ byte_val major = 0)
               then V4_1 else V3_0).
Proof.
  intros Hencoded Hfree Hlen datagram.
  eexists. split.
  - etransitivity.
    + apply bind_Return. apply process_server_info_datagram; eassumption.
    + apply update_unpacker_version_selects.
  - destruct s as [c w]; destruct c; simpl.
    split; [reflexivity|]. split; [reflexivity|]. reflexivity.
Qed.

End ShutdownAndSelection.

(** ** Instances of the further conditional theorems *)

Section FurtherInstances.
#[local] Existing Instance failing_unpackers.

(** Settles a decidable closed proposition by computation. *)
Ltac decided := apply (bool_decide_unpack _); vm_compute; exact I.

(** Shows that a given text holds no null character. *)
Ltac null_free_tac :=
  unfold null_free;
  repeat (apply not_elem_of_cons; split; [discriminate|]);
  apply not_elem_of_nil.

Lemma request_round_trip_witness :
  let packet := [x02; x00; x04; x00; x61; x62; x63; x00] in
  NAT_Messages_of (get_message_id (slice packet 0 2)) = REQUEST
  /\ from_bytes_signed (slice packet 2 4) = 4
  /\ utf8_decode (before_null (slice_from packet 4)) = Some [97; 98; 99]%N.
Proof.
  destruct (request_round_trip REQUEST [97; 98; 99]%N
              [x02; x00; x04; x00; x61; x62; x63; x00] connected_client
              eq_refl) as (Hkind & Hsize & Htext).
  split; [exact Hkind|]. split; [exact Hsize|].
  apply Htext. simpl. null_free_tac.
Defined.

Lemma buffer_size_keeps_latest_witness :
  exists s',
    set_buffer_size 1 (messaged [98]%N (messaged [97]%N connected_client))
    = Return tt s'
    /\ buffer_size (self s') = 1
    /\ maxlen (server_messages (self s')) = 1%nat.
Proof.
  destruct (buffer_size_keeps_latest 1
              (messaged [98]%N (messaged [97]%N connected_client)))
    as (s' & Hrun & Hsize & _ & _ & Hmax & _);
    [unfold PY_SSIZE_T_MAX; lia|].
  exists s'. split; [exact Hrun|]. split; [exact Hsize|exact Hmax].
Defined.

Lemma buffer_size_refused_witness :
  set_buffer_size (-1) connected_client
  = Raise ValueError
      {| self := set_max_buffer_size (-1) (self connected_client);
         world := world connected_client |}
  /\ set_buffer_size (2 ^ 63) connected_client
     = Raise OverflowError
         {| self := set_max_buffer_size (2 ^ 63) (self connected_client);
            world := world connected_client |}.
Proof.
  split.
  - apply (proj1 (buffer_size_refused (-1) connected_client)).
    unfold PY_SSIZE_T_MAX. lia.
  - apply (proj1 (proj2 (buffer_size_refused (2 ^ 63) connected_client))).
    unfold PY_SSIZE_T_MAX. lia.
Defined.

Lemma message_string_recorded_witness :
  process_message [x08; x00; x03; x00; x68; x69; x00] connected_client
  = Return tt (messaged [104; 105]%N connected_client).
Proof.
  apply (proj2 (proj2 (message_string_recorded [104; 105]%N [x68; x69]
                         connected_client eq_refl
                         ltac:(null_free_tac))) x03 x00 []).
Defined.

Lemma histories_stay_bounded_witness :
  bounded
    (self (final (data_thread_loop
                    [Datagram (message_of "a"); TimedOut] true small_client))).
Proof.
  apply (histories_stay_bounded
           [Datagram (message_of "a"); TimedOut] true small_client).
  split; simpl; lia.
Defined.

Lemma message_history_keeps_latest_witness :
  data_thread_loop
    (Datagram <$> [message_of "a"; message_of "b"; message_of "c"])
    true small_client
  = Return Receiving
      {| self := set_server_messages
                   {| items := [[98]; [99]]%N; maxlen := 2 |}
                   (self small_client);
         world := world small_client |}.
Proof.
  apply (proj1 (message_history_keeps_latest
                  [message_of "a"; message_of "b"; message_of "c"]
                  [[97]; [98]; [99]]%N small_client
                  ltac:(repeat constructor; try null_free_tac;
                        eexists x00, x00, _, []; split; reflexivity)
                  eq_refl ltac:(simpl; lia))).
  eexists; reflexivity.
Defined.

Lemma server_info_parsed_witness :
  process_message
    (x01 :: x00 :: x08 :: x01
     :: ([x4d] ++ replicate (256 - 1) x00)
        ++ [x03; x01; x00; x00] ++ [x04; x01; x00; x00] ++ []) connected_client
  = Return tt
      {| self :=
           set_server_info
             {| application_name := [77]%N; version := (3, 1, 0, 0);
                nat_net_major := 4; nat_net_minor := 1 |}
             (self connected_client);
         world := world connected_client |}.
Proof.
  apply (server_info_parsed [77]%N [x4d] x03 x01 x00 x00 x04 x01 x00 x00
           x08 x01 [] connected_client eq_refl);
    [null_free_tac|simpl; lia].
Defined.


Lemma request_kinds_ignored_witness :
  process_message [x0a; x00; x00; x00; x00] connected_client
  = Return tt connected_client.
Proof.
  apply (request_kinds_ignored x0a x00 x00 x00 [x00] connected_client).
  change (from_bytes_signed [x0a; x00]) with 10.
  repeat (apply elem_of_cons; first [left; reflexivity | right]).
Defined.

Lemma unknown_kinds_logged_witness :
  process_message [x0b; x00; x05; x00] connected_client
  = Return tt (logged (ErrorUndefinedMessage 5) connected_client)
  /\ process_message [x64; x00; x05; x00] connected_client
     = Return tt (logged (ErrorUnrecognizedRequest 5) connected_client).
Proof.
  split.
  - apply (proj1 (unknown_kinds_logged x0b x00 x05 x00 [] connected_client)).
    change (from_bytes_signed [x0b; x00]) with 11.
    repeat (apply not_elem_of_cons; split; [discriminate|]).
    apply not_elem_of_nil.
  - apply (proj2 (unknown_kinds_logged x64 x00 x05 x00 [] connected_client)).
    reflexivity.
Defined.

Lemma send_command_refuses_witness :
  send_command (replicate (Z.to_nat 32767) 97%N) connected_client
  = Raise OverflowError connected_client
  /\ send_command [0xD800%N] connected_client
     = Raise UnicodeEncodeError connected_client.
Proof.
  split.
  - apply (proj1 (send_command_refuses (replicate (Z.to_nat 32767) 97%N)
                    connected_client)); [reflexivity|].
    unfold len. rewrite length_replicate. lia.
  - apply (proj1 (proj2 (send_command_refuses [0xD800%N] connected_client)));
      [reflexivity|unfold len; simpl; lia|reflexivity].
Defined.

Lemma descriptions_discarded_witness :
  process_message [x05; x00; x04; x00; x00; x00; x00; x00] connected_client
  = Return tt connected_client.
Proof.
  apply (proj2 (descriptions_discarded x04 x00 [x00; x00; x00; x00]
                  connected_client)).
  vm_compute. discriminate.
Defined.

Lemma connect_binds_and_starts_witness :
  exists s',
    connect stopped_client = Return tt s'
    /\ connected (self s') = true
    /\ started (world s')
       = [CommandThread; DataThread; CommandThread; DataThread].
Proof.
  destruct (connect_binds_and_starts stopped_client eq_refl eq_refl eq_refl
              eq_refl ltac:(decided) ltac:(intros _; vm_compute; by split)
              ltac:(intros _; split; [by eexists|];
                    split; [decided|by repeat split]))
    as (s' & Hrun & Hconnected & _ & _ & _ & _ & Hstarted & _).
  exists s'. split; [exact Hrun|]. split; [exact Hconnected|exact Hstarted].
Defined.

Lemma connect_keeps_command_socket_witness :
  exists s' sock,
    connect fresh_client = Return tt s'
    /\ connected (self s') = false
    /\ command_socket (self s') = Some sock
    /\ fd sock = 3%nat
    /\ closed (world s') = [4%nat].
Proof.
  destruct (connect_keeps_command_socket fresh_client eq_refl eq_refl eq_refl
              eq_refl ltac:(decided) ltac:(intros _; vm_compute; by split))
    as (s' & sock & Hrun & Hc & Hsock & Hfd & _ & Hclosed & _).
  exists s', sock. repeat split; assumption.
Defined.

Lemma construct_refused_buffer_witness :
  (exists s,
     construct (with_buffer (-1)) (boot [] []) = Raise ValueError s
     /\ world s = boot [] [])
  /\ (exists s,
        construct (with_buffer (2 ^ 63)) (boot [] []) = Raise OverflowError s
        /\ world s = boot [] []).
Proof.
  split.
  - apply (proj1 (construct_refused_buffer (with_buffer (-1)) (boot [] []))).
    unfold PY_SSIZE_T_MAX. simpl. lia.
  - apply (proj2 (construct_refused_buffer (with_buffer (2 ^ 63))
                    (boot [] []))).
    unfold PY_SSIZE_T_MAX. simpl. lia.
Defined.

Lemma construct_initial_state_witness :
  exists s,
    construct defaults (boot [true; false] []) = Return tt s
    /\ connected (self s) = false
    /\ unpacker (self s) = Some V4_1.
Proof.
  destruct (construct_initial_state defaults (boot [true; false] [])
              ltac:(unfold PY_SSIZE_T_MAX; simpl; lia) eq_refl
              ltac:(decided) ltac:(intros _; vm_compute; by split)
              ltac:(intros _; split; [by eexists|];
                    split; [decided|by repeat split]))
    as (s & Hrun & Hconnected & Hcodec & _).
  exists s. split; [exact Hrun|]. split; [exact Hconnected|exact Hcodec].
Defined.

Lemma connect_port_out_of_range_witness :
  exists s' sock,
    connect {| self := allocated (with_data_port 70000);
               world := boot [] [] |}
    = Raise OverflowError s'
    /\ connected (self s') = false
    /\ command_socket (self s') = Some sock
    /\ data_socket (self s') = None
    /\ closed (world s') = [].
Proof.
  destruct (connect_port_out_of_range
              {| self := allocated (with_data_port 70000);
                 world := boot [] [] |}
              eq_refl eq_refl eq_refl ltac:(decided) eq_refl
              ltac:(simpl; lia) ltac:(intros _; reflexivity))
    as (s' & sock & Hrun & Hc & Hsock & _ & Hdata & _ & Hclosed & _).
  exists s', sock. repeat split; assumption.
Defined.

Lemma connect_membership_refused_witness :
  exists s' sc sd,
    connect {| self := allocated defaults; world := groupless |}
    = Raise OSError s'
    /\ connected (self s') = false
    /\ command_socket (self s') = Some sc
    /\ data_socket (self s') = Some sd
    /\ closed (world s') = [].
Proof.
  destruct (connect_membership_refused
              {| self := allocated defaults; world := groupless |}
              eq_refl eq_refl eq_refl eq_refl ltac:(decided)
              ltac:(intros _; vm_compute; by split) ltac:(by left)
              ltac:(by eexists) ltac:(decided)
              ltac:(right; right; reflexivity))
    as (s' & sc & sd & Hrun & Hc & Hsc & _ & Hsd & _ & Hclosed & _).
  exists s', sc, sd. repeat split; assumption.
Defined.

Lemma marker_set_names_last_wins_witness :
  let set name n : @Marker_data unit :=
    {| marker_data_name := name; marker_data_num_markers := n;
       marker_data_positions := [] |} in
  marker_sets_d (new_Marker_set_data 2 [set [97]%N 1; set [97]%N 2])
    !! [122]%N = None.
Proof.
  intros set.
  apply (proj1 (proj2 (proj2 (marker_set_names_last_wins 2
                                [set [97]%N 1; set [97]%N 2])))).
  simpl. repeat (apply not_elem_of_cons; split; [discriminate|]).
  apply not_elem_of_nil.
Defined.

Lemma shutdown_releases_witness :
  exists s',
    shutdown connected_client = Return tt s'
    /\ connected (self s') = false
    /\ closed (world s') = [3; 4]%nat
    /\ joined (world s') = [DataThread; CommandThread].
Proof.
  destruct (shutdown_releases connected_client
              {| fd := 3; bound_ip := []; bound_port := 0; proto := 0 |}
              {| fd := 4; bound_ip := str_of_string "127.0.0.1";
                 bound_port := 1511; proto := 0 |}
              DataThread CommandThread eq_refl eq_refl eq_refl eq_refl)
    as (s' & Hrun & Hc & _ & _ & Hclosed & Hjoined & _).
  exists s'. repeat split; assumption.
Defined.

Lemma selection_follows_server_info_witness :
  exists s',
    (process_message server_info_3_0 ;; update_unpacker_version)
      connected_client = Return tt s'
    /\ nat_net_major (server_info (self s')) = 3
    /\ unpacker (self s') = Some V3_0.
Proof.
  destruct (selection_follows_server_info
              [77; 111; 116; 105; 118; 101]%N
              [x4d; x6f; x74; x69; x76; x65]
              x03 x01 x00 x00 x03 x00 x00 x00 x08 x01 [] connected_client
              eq_refl ltac:(null_free_tac) ltac:(simpl; lia))
    as (s' & Hrun & Hmajor & _ & Hcodec).
  exists s'. split; [exact Hrun|]. split; [exact Hmajor|exact Hcodec].
Defined.

(** A FRAME_OF_DATA datagram under the integer codec: the frame read from
    the four payload bytes is published; a payload of three bytes is an
    error of the codec and the stored frame stays. *)
Example frame_published_example :
  mocap (self (final (@process_message integer_unpackers
                        [x07; x00; x04; x00; x2a; x00; x00; x00]
                        integer_client))) = Some 42
  /\ @process_message integer_unpackers
       [x07; x00; x03; x00; x2a; x00; x00] integer_client
     = Raise (CodecError 1) integer_client.
Proof. split; vm_compute; reflexivity. Qed.

End FurtherInstances.
